(** * Portfolio manager backend: ledger, price oracle, price sync, broadcaster

    A shallow embedding of the asset transaction engine
    ([controllers/assetController.ts]), the cash operations of the portfolio
    controller, the market data service and the portfolio broadcaster
    ([services/marketDataService.ts], [services/websocketService.ts]).

    Conventions of the embedding.
    - A JavaScript [number] is the rational it denotes ([Qc]), and the
      comparisons [<], [<=] and [===] compare these rationals.  An arithmetic
      operation of the program is the operation on the rationals followed by
      the rounding [fl] of the machine, a parameter of the handlers that
      compute: [fl64], the rounding to the nearest double (IEEE 754 binary64,
      ties to even), for the program as it runs, and [unrounded] for the
      arithmetic of the reals.  The database computes [increment] and
      [decrement] on its double precision columns with the same rounding.
      NaN, the infinities and overflow (hence a division by zero) are outside
      the model.  [parseFloat] is a parameter of the handlers that read the
      provider's numeric strings.  Time stamps are milliseconds in [Z].
    - A Prisma table with a primary key is a [gmap] from the key to the row
      (the row record does not repeat its [id]); the transaction table, which
      is only ever appended to, is a list in insertion order.
    - A handler runs alone on the state: the interleaving of concurrent
      requests is not modelled.  What leaves the process (calls of the quote
      provider, socket emissions) is recorded in the state, next to the
      tables, and is not undone by a database rollback.
    - The foreign keys between the tables of the model are checked when a
      row is written (Asset.portfolio, Transaction.portfolio,
      Transaction.asset), and deleting an asset sets the [assetId] of the
      transactions that name it to NULL (the referential action of the
      optional relation Transaction.asset).  The users table is not
      modelled: [req.user.id] names a user that exists.
    - The socket server is what the modules that emit see of it: the [io]
      that marketDataService.ts imports from app.ts, which does not export
      it, and [global.io], which nothing assigns.
    - A connected socket is the user its handshake named and the set of rooms
      it joined; the handshake itself (the token check) and the room every
      socket has under its own id are outside the model. *)

From Stdlib Require Import QArith Qcanon ZArith Ascii String.
From stdpp Require Import base option list strings gmap numbers.

Local Open Scope Z_scope.
Local Open Scope string_scope.
Local Open Scope Qc_scope.

(** ** JavaScript values *)

Abbreviation number := Qc.

(** [a < b] on numbers, as a boolean. *)
Definition ltb (a b : number) : bool :=
  match a ?= b with Lt => true | _ => false end.

(** [a <= b] on numbers, as a boolean. *)
Definition leb (a b : number) : bool :=
  match a ?= b with Gt => false | _ => true end.

(** [a === b] on numbers. *)
Definition eqb (a b : number) : bool :=
  match a ?= b with Eq => true | _ => false end.

(** Truthiness of an optional number ([undefined], [null] and [0] are falsy). *)
Definition truthy (x : option number) : bool :=
  match x with
  | Some v => negb (eqb v 0)
  | None => false
  end.

(** Truthiness of an optional string ([undefined] and the empty string are
    falsy). *)
Definition truthy_str (x : option string) : bool :=
  match x with
  | Some s => negb (String.eqb s "")
  | None => false
  end.

(** [x || d] on strings. *)
Definition or_str (x : option string) (d : string) : string :=
  match x with
  | Some s => if String.eqb s "" then d else s
  | None => d
  end.

(** [s.replace('%', '')]: the first percent sign is removed. *)
Fixpoint replace_percent (s : string) : string :=
  match s with
  | EmptyString => EmptyString
  | String c r =>
      if Ascii.eqb c "%"%char then r else String c (replace_percent r)
  end.

(** ** Arithmetic *)

(** The arithmetic of the reals: nothing is rounded. *)
Abbreviation unrounded := (λ x : number, x).

(** The integer nearest to [n / d], the even one of two that are equally
    near. *)
Definition round_half_even (n : Z) (d : positive) : Z :=
  let q := (n / Zpos d)%Z in
  let r := (n mod Zpos d)%Z in
  match (2 * r ?= Zpos d)%Z with
  | Lt => q
  | Gt => (q + 1)%Z
  | Eq => if Z.even q then q else (q + 1)%Z
  end.

(** [⌊log2 (n / d)⌋], for [n > 0]. *)
Definition floor_log2 (n : Z) (d : positive) : Z :=
  let l := (Z.log2 n - Z.log2 (Zpos d))%Z in
  if (l <? 0)%Z then (if (n * 2 ^ (- l) <? Zpos d)%Z then l - 1 else l)%Z
  else (if (n <? Zpos d * 2 ^ l)%Z then l - 1 else l)%Z.

(** The double nearest to [x] (IEEE 754 binary64, round to nearest, ties to
    even): 53 significant bits, the least exponent of a bit being -1074. *)
Definition fl64 (x : number) : number :=
  let n := Qnum x in
  let d := Qden x in
  if (n =? 0)%Z then x
  else
    let e := Z.max (floor_log2 (Z.abs n) d - 52) (-1074) in
    let m := if (e <? 0)%Z then round_half_even (Z.abs n * 2 ^ (- e)) d
             else round_half_even (Z.abs n) (d * Z.to_pos (2 ^ e)) in
    let v := if (e <? 0)%Z then Q2Qc (m # Z.to_pos (2 ^ (- e)))
             else Q2Qc (m * 2 ^ e # 1) in
    if (n <? 0)%Z then - v else v.

(** ** Data model (schema.prisma) *)

Inductive AssetType := STOCK | ETF | CRYPTO | BOND | CASH | OTHER.

Inductive TransactionType := BUY | SELL | DIVIDEND | DEPOSIT | WITHDRAWAL | REBALANCE.

(** The cast [type as AssetType] is checked by Prisma when the row is
    written. *)
Definition AssetType_of_string (s : string) : option AssetType :=
  if String.eqb s "STOCK" then Some STOCK
  else if String.eqb s "ETF" then Some ETF
  else if String.eqb s "CRYPTO" then Some CRYPTO
  else if String.eqb s "BOND" then Some BOND
  else if String.eqb s "CASH" then Some CASH
  else if String.eqb s "OTHER" then Some OTHER
  else None.

Record Portfolio := {
  userId : string;
  portfolio_name : string;
  description : option string;
  totalValue : number;
  cash : number
}.

Record Asset := {
  portfolioId : string;
  symbol : string;
  asset_name : string;
  asset_type : AssetType;
  quantity : number;
  purchasePrice : number;
  currentPrice : number
}.

Record Transaction := {
  tx_type : TransactionType;
  tx_quantity : number;
  tx_price : number;
  totalAmount : number;
  tx_userId : string;
  tx_portfolioId : string;
  assetId : option string
}.

Record MarketData := {
  md_name : string;
  lastPrice : number;
  change : number;
  changePercent : number;
  updatedAt : Z
}.

(** ** The quote provider's answer (axios.get on the GLOBAL_QUOTE endpoint) *)

Record GlobalQuote := {
  price_05 : option string;            (* ['05. price'] *)
  change_09 : option string;           (* ['09. change'] *)
  change_percent_10 : option string    (* ['10. change percent'] *)
}.

Record ResponseData := {
  Global_Quote : option GlobalQuote    (* data['Global Quote'] *)
}.

Inductive AxiosResult :=
| Rejected                              (* the promise rejects: network error, non-2xx *)
| Resolved (data : option ResponseData).

(** ** Socket emissions *)

Inductive Payload :=
| PortfolioPayload (id : string) (p : Portfolio) (assets : list (string * Asset))
| MarketPayload (symbol : string) (m : MarketData).

Record Emission := {
  room : option string;   (* [None]: every connected client *)
  event : string;
  payload : Payload
}.

(** The socket server.  app.ts creates it ([const io = new Server(...)]) and
    exports [{ app, httpServer }]: the [io] that marketDataService.ts imports
    from '../app' is [undefined].  websocketService.ts reads [global.io],
    which no module assigns: it is [undefined] too. *)
Inductive Server := SocketServer.

Definition app_io : option Server := None.

Definition global_io : option Server := None.

(** ** State and environment *)

Record State := {
  portfolios : gmap string Portfolio;
  assets : gmap string Asset;
  transactions : list Transaction;
  marketData : gmap string MarketData;
  requests : list string;      (* symbols asked of the quote provider, oldest first *)
  emitted : list Emission      (* socket emissions, oldest first *)
}.

(** What a handler reads from outside while it runs. *)
Record Env := {
  now : Z;                              (* Date.now(), new Date(), now() *)
  axios_get : string → AxiosResult;     (* the provider's answer per symbol *)
  uuid : string                         (* the id drawn for a created row *)
}.

(** ** Exceptions and the handler monad *)

Inductive Exn :=
| AxiosError
| TypeError
| Error (message : string)
| PrismaError (code : string).

Inductive Outcome (A : Type) :=
| Return (a : A)
| Throw (e : Exn).
Arguments Return {A} a.
Arguments Throw {A} e.

Definition M (A : Type) : Type := State → Outcome A * State.

Global Instance M_ret : MRet M := λ A a s, (Return a, s).

Global Instance M_bind : MBind M := λ A B f m s,
  match m s with
  | (Return a, s') => f a s'
  | (Throw e, s') => (Throw e, s')
  end.

Definition throw {A} (e : Exn) : M A := λ s, (Throw e, s).

(** [try { m } catch (e) { h e }] *)
Definition try_catch {A} (m : M A) (h : Exn → M A) : M A := λ s,
  match m s with
  | (Return a, s') => (Return a, s')
  | (Throw e, s') => h e s'
  end.

Definition get : M State := λ s, (Return s, s).

Definition modify (f : State → State) : M unit := λ s, (Return tt, f s).

Definition set_portfolios (f : gmap string Portfolio → gmap string Portfolio) (s : State) : State :=
  {| portfolios := f (portfolios s); assets := assets s;
     transactions := transactions s; marketData := marketData s;
     requests := requests s; emitted := emitted s |}.

Definition set_assets (f : gmap string Asset → gmap string Asset) (s : State) : State :=
  {| portfolios := portfolios s; assets := f (assets s);
     transactions := transactions s; marketData := marketData s;
     requests := requests s; emitted := emitted s |}.

Definition set_transactions (f : list Transaction → list Transaction) (s : State) : State :=
  {| portfolios := portfolios s; assets := assets s;
     transactions := f (transactions s); marketData := marketData s;
     requests := requests s; emitted := emitted s |}.

Definition set_marketData (f : gmap string MarketData → gmap string MarketData) (s : State) : State :=
  {| portfolios := portfolios s; assets := assets s;
     transactions := transactions s; marketData := f (marketData s);
     requests := requests s; emitted := emitted s |}.

Definition set_requests (f : list string → list string) (s : State) : State :=
  {| portfolios := portfolios s; assets := assets s;
     transactions := transactions s; marketData := marketData s;
     requests := f (requests s); emitted := emitted s |}.

Definition set_emitted (f : list Emission → list Emission) (s : State) : State :=
  {| portfolios := portfolios s; assets := assets s;
     transactions := transactions s; marketData := marketData s;
     requests := requests s; emitted := f (emitted s) |}.

(** The tables of [s0] with the outside world of [s]. *)
Definition rollback (s0 s : State) : State :=
  {| portfolios := portfolios s0; assets := assets s0;
     transactions := transactions s0; marketData := marketData s0;
     requests := requests s; emitted := emitted s |}.

(** [prisma.$transaction(async (prisma) => m)]: all of [m]'s writes, or none. *)
Definition prisma_transaction {A} (m : M A) : M A := λ s,
  match m s with
  | (Return a, s') => (Return a, s')
  | (Throw e, s') => (Throw e, rollback s s')
  end.

(** Prisma's atomic number operations on the cash column:
    [data: { cash: { decrement: x } }] and [{ increment: x }]. *)
Definition decrement_cash (fl : number → number) (x : number) (p : Portfolio) : Portfolio :=
  {| userId := userId p; portfolio_name := portfolio_name p;
     description := description p; totalValue := totalValue p;
     cash := fl (cash p - x) |}.

Definition increment_cash (fl : number → number) (x : number) (p : Portfolio) : Portfolio :=
  {| userId := userId p; portfolio_name := portfolio_name p;
     description := description p; totalValue := totalValue p;
     cash := fl (cash p + x) |}.

(** ** Prisma operations *)

(** [prisma.portfolio.findFirst({ where: { id, userId } })] *)
Definition portfolio_findFirst (id uid : string) : M (option Portfolio) :=
  s ← get;
  mret (match portfolios s !! id with
        | Some p => if String.eqb (userId p) uid then Some p else None
        | None => None
        end).

(** [prisma.portfolio.update({ where: { id }, data })] *)
Definition portfolio_update (id : string) (data : Portfolio → Portfolio) : M Portfolio :=
  s ← get;
  match portfolios s !! id with
  | Some p =>
      _ ← modify (set_portfolios (insert id (data p)));
      mret (data p)
  | None => throw (PrismaError "P2025")
  end.

(** [prisma.portfolio.create({ data })], the row's id drawn as [id]. *)
Definition portfolio_create (id : string) (p : Portfolio) : M Portfolio :=
  s ← get;
  match portfolios s !! id with
  | Some _ => throw (PrismaError "P2002")
  | None =>
      _ ← modify (set_portfolios (insert id p));
      mret p
  end.

(** [prisma.asset.findFirst({ where: { portfolioId, symbol } })] *)
Definition asset_findFirst_symbol (pid sym : string) : M (option (string * Asset)) :=
  s ← get;
  mret (List.find (λ r, String.eqb (portfolioId r.2) pid && String.eqb (symbol r.2) sym)
          (map_to_list (assets s))).

(** [prisma.asset.findFirst({ where: { id, portfolioId } })] *)
Definition asset_findFirst_id (id pid : string) : M (option Asset) :=
  s ← get;
  mret (match assets s !! id with
        | Some a => if String.eqb (portfolioId a) pid then Some a else None
        | None => None
        end).

(** [prisma.asset.update({ where: { id }, data })] *)
Definition asset_update (id : string) (data : Asset → Asset) : M Asset :=
  s ← get;
  match assets s !! id with
  | Some a =>
      _ ← modify (set_assets (insert id (data a)));
      mret (data a)
  | None => throw (PrismaError "P2025")
  end.

(** [prisma.asset.create({ data })], the row's id drawn as [id]; the row must
    name a portfolio of the table (the foreign key of Asset.portfolio). *)
Definition asset_create (id : string) (a : Asset) : M Asset :=
  s ← get;
  match assets s !! id with
  | Some _ => throw (PrismaError "P2002")
  | None =>
      match portfolios s !! portfolioId a with
      | Some _ =>
          _ ← modify (set_assets (insert id a));
          mret a
      | None => throw (PrismaError "P2003")
      end
  end.

(** What deleting the asset [id] does to a transaction: [onDelete: SetNull],
    the referential action of the optional relation Transaction.asset. *)
Definition unlink_asset (id : string) (t : Transaction) : Transaction :=
  if bool_decide (assetId t = Some id) then
    {| tx_type := tx_type t; tx_quantity := tx_quantity t; tx_price := tx_price t;
       totalAmount := totalAmount t; tx_userId := tx_userId t;
       tx_portfolioId := tx_portfolioId t; assetId := None |}
  else t.

(** [prisma.asset.delete({ where: { id } })] *)
Definition asset_delete (id : string) : M unit :=
  s ← get;
  match assets s !! id with
  | Some _ =>
      modify (λ s, set_transactions (fmap (unlink_asset id)) (set_assets (delete id) s))
  | None => throw (PrismaError "P2025")
  end.

(** The foreign keys of a transaction: its portfolio is in the table, and so
    is its asset when it names one. *)
Definition references_hold (t : Transaction) (s : State) : bool :=
  match portfolios s !! tx_portfolioId t with
  | Some _ =>
      match assetId t with
      | Some aid => match assets s !! aid with Some _ => true | None => false end
      | None => true
      end
  | None => false
  end.

(** [prisma.transaction.create({ data })] *)
Definition transaction_create (t : Transaction) : M Transaction :=
  s ← get;
  if references_hold t s then
    _ ← modify (set_transactions (λ l, (l ++ [t])%list));
    mret t
  else throw (PrismaError "P2003").

(** [prisma.marketData.findUnique({ where: { symbol } })] *)
Definition marketData_findUnique (sym : string) : M (option MarketData) :=
  s ← get;
  mret (marketData s !! sym).

(** [prisma.marketData.upsert({ where: { symbol }, update, create })] *)
Definition marketData_upsert (sym : string) (update : MarketData → MarketData)
    (create : MarketData) : M MarketData :=
  s ← get;
  let row := match marketData s !! sym with
             | Some m => update m
             | None => create
             end in
  _ ← modify (set_marketData (insert sym row));
  mret row.

(** [axios.get(url for symbol)]: the call is recorded, a rejection throws. *)
Definition axios_get_symbol (env : Env) (sym : string) : M (option ResponseData) :=
  _ ← modify (set_requests (λ l, (l ++ [sym])%list));
  match axios_get env sym with
  | Rejected => throw AxiosError
  | Resolved data => mret data
  end.

(** [io.emit(event, payload)] and [io.to(room).emit(event, payload)], [io]
    being what the module sees of the socket server: a property of
    [undefined] cannot be read. *)
Definition io_emit (io : option Server) (r : option string) (ev : string) (p : Payload)
    : M unit :=
  match io with
  | Some _ =>
      modify (set_emitted (λ l, (l ++ [{| room := r; event := ev; payload := p |}])%list))
  | None => throw TypeError
  end.

(** [Promise.all(xs.map(f))], the callbacks run one after another in array
    order. *)
Fixpoint mapM {A B} (f : A → M B) (xs : list A) : M (list B) :=
  match xs with
  | [] => mret []
  | x :: xs' =>
      y ← f x;
      ys ← mapM f xs';
      mret (y :: ys)
  end.

(** ** HTTP requests and replies *)

(** The object a committed buy or sell answers with.  [asset] is a JavaScript
    reference: [None] stands for [null]. *)
Record TradeResult := {
  asset : option (string * Asset);
  portfolio : Portfolio;
  transaction : Transaction
}.

Inductive Body :=
| ErrorBody (error : string)
| TradeBody (result : TradeResult)
| PortfolioBody (p : Portfolio)
| PricesBody (p : Portfolio) (updatedAssets : list (string * Asset)).

Record Reply := {
  status : Z;
  json : Body
}.

Definition reply_error (code : Z) (msg : string) : Reply :=
  {| status := code; json := ErrorBody msg |}.

Record BuyRequest := {
  buy_user : option string;        (* req.user.id *)
  buy_portfolioId : string;        (* req.params.portfolioId *)
  buy_symbol : option string;      (* req.body *)
  buy_name : option string;
  buy_type : option string;
  buy_quantity : option number;
  buy_price : option number
}.

Record SellRequest := {
  sell_user : option string;
  sell_portfolioId : string;
  sell_assetId : string;
  sell_quantity : option number;
  sell_price : option number
}.

Record PricesRequest := {
  prices_user : option string;
  prices_portfolioId : string
}.

Record CreateRequest := {
  create_user : option string;
  create_name : option string;
  create_description : option string;
  create_cash : option number
}.

Record CashRequest := {
  cash_user : option string;
  cash_portfolioId : string;
  cash_amount : option number
}.

(** The value of a number that passed a truthiness test. *)
Definition num (x : option number) : number := default 0 x.

Definition str (x : option string) : string := default "" x.

(** ** The handlers *)

Section Handlers.

(** JavaScript's [parseFloat] on the provider's numeric strings, and the
    rounding of the arithmetic. *)
Context (parseFloat : string → number) (fl : number → number).

(** *** Price oracle (assetController.ts, getMarketPrice) *)

(** Lines 20-55 of getMarketPrice: the cache did not answer, the provider is
    asked; [marketData] is the row read before, if any. *)
Definition fetch_price (env : Env) (sym : string) (marketData : option MarketData) : M number :=
  response ← axios_get_symbol env sym;
  match response ≫= Global_Quote with
  | Some q =>
      if truthy_str (price_05 q) then
        let price := parseFloat (str (price_05 q)) in
        let change' := parseFloat (or_str (change_09 q) "0") in
        match change_percent_10 q with
        | None => throw TypeError     (* undefined.replace *)
        | Some cp =>
            let changePercent' := parseFloat (or_str (Some (replace_percent cp)) "0") in
            _ ← marketData_upsert sym
                  (λ m, {| md_name := md_name m; lastPrice := price;
                           change := change'; changePercent := changePercent';
                           updatedAt := now env |})
                  {| md_name := sym; lastPrice := price;
                     change := change'; changePercent := changePercent';
                     updatedAt := now env |};
            mret price
        end
      else
        match marketData with
        | Some m => mret (lastPrice m)
        | None => throw (Error "Could not retrieve market price")
        end
  | None =>
      match marketData with
      | Some m => mret (lastPrice m)
      | None => throw (Error "Could not retrieve market price")
      end
  end.

Definition getMarketPrice (env : Env) (sym : string) : M number :=
  try_catch
    (marketData ← marketData_findUnique sym;
     match marketData with
     | Some m =>
         if (now env - updatedAt m <? 5 * 60 * 1000)%Z then mret (lastPrice m)
         else fetch_price env sym marketData
     | None => fetch_price env sym marketData
     end)
    (λ error, throw error).

(** [let currentPrice = price; if (!currentPrice) { try { currentPrice = await
    getMarketPrice(symbol) } catch { return 400 } }], as buy and sell both
    have it: the price to trade at, or the reply to return. *)
Definition resolve_price (env : Env) (sym : string) (price : option number) : M (number + Reply) :=
  if truthy price then mret (inl (num price))
  else
    try_catch
      (currentPrice' ← getMarketPrice env sym; mret (inl currentPrice'))
      (λ _, mret (inr (reply_error 400 "Could not retrieve market price. Please provide a price."))).

(** *** Buy (assetController.ts, buyAsset) *)

(** The callback of [prisma.$transaction] in buyAsset (lines 115-170). *)
Definition buy_transaction (env : Env) (req : BuyRequest)
    (currentPrice' totalCost : number)
    (existingAsset : option (string * Asset)) : M TradeResult :=
  let uid := str (buy_user req) in
  let pid := buy_portfolioId req in
  let sym := str (buy_symbol req) in
  let qty := num (buy_quantity req) in
  bought ← match existingAsset with
           | Some (aid, existing) =>
               let newTotalCost :=
                 fl (fl (purchasePrice existing * quantity existing) + totalCost) in
               let newTotalQuantity := fl (quantity existing + qty) in
               let newAveragePrice := fl (newTotalCost / newTotalQuantity) in
               a ← asset_update aid
                     (λ a, {| portfolioId := portfolioId a; symbol := symbol a;
                              asset_name := asset_name a; asset_type := asset_type a;
                              quantity := newTotalQuantity;
                              purchasePrice := newAveragePrice;
                              currentPrice := currentPrice' |});
               mret (aid, a)
           | None =>
               match AssetType_of_string (str (buy_type req)) with
               | None => throw (PrismaError "PrismaClientValidationError")
               | Some ty =>
                   a ← asset_create (uuid env)
                         {| portfolioId := pid; symbol := sym;
                            asset_name := or_str (buy_name req) sym;
                            asset_type := ty;
                            quantity := qty;
                            purchasePrice := currentPrice';
                            currentPrice := currentPrice' |};
                   mret (uuid env, a)
               end
           end;
  updatedPortfolio ← portfolio_update pid (decrement_cash fl totalCost);
  tx ← transaction_create
         {| tx_type := BUY; tx_quantity := qty; tx_price := currentPrice';
            totalAmount := totalCost; tx_userId := uid;
            tx_portfolioId := pid; assetId := Some bought.1 |};
  mret {| asset := Some bought; portfolio := updatedPortfolio; transaction := tx |}.

Definition buyAsset (env : Env) (req : BuyRequest) : M Reply :=
  try_catch
    (if negb (truthy_str (buy_user req)) then
       mret (reply_error 401 "User not authenticated")
     else if negb (truthy_str (buy_symbol req)) || negb (truthy_str (buy_type req))
             || negb (truthy (buy_quantity req)) || leb (num (buy_quantity req)) 0 then
       mret (reply_error 400 "Symbol, type, and positive quantity are required")
     else
       let pid := buy_portfolioId req in
       let sym := str (buy_symbol req) in
       found ← portfolio_findFirst pid (str (buy_user req));
       match found with
       | None => mret (reply_error 404 "Portfolio not found")
       | Some p =>
           resolved ← resolve_price env sym (buy_price req);
           match resolved with
           | inr r => mret r
           | inl currentPrice' =>
               let totalCost := fl (currentPrice' * num (buy_quantity req)) in
               if ltb (cash p) totalCost then
                 mret (reply_error 400 "Insufficient cash in portfolio")
               else
                 existingAsset ← asset_findFirst_symbol pid sym;
                 result ← prisma_transaction
                            (buy_transaction env req currentPrice' totalCost existingAsset);
                 mret {| status := 200; json := TradeBody result |}
           end
       end)
    (λ _, mret (reply_error 500 "Server error buying asset")).

(** *** Sell (assetController.ts, sellAsset) *)

(** The callback of [prisma.$transaction] in sellAsset (lines 236-279), [a]
    being the row of the asset read before. *)
Definition sell_transaction (req : SellRequest) (a : Asset)
    (currentPrice' totalAmount' : number) : M TradeResult :=
  let uid := str (sell_user req) in
  let pid := sell_portfolioId req in
  let aid := sell_assetId req in
  let qty := num (sell_quantity req) in
  updatedAsset ←
    (if eqb (quantity a) qty then
       _ ← asset_delete aid;
       mret {| portfolioId := portfolioId a; symbol := symbol a;
               asset_name := asset_name a; asset_type := asset_type a;
               quantity := 0;
               purchasePrice := purchasePrice a;
               currentPrice := currentPrice a |}
     else
       asset_update aid
         (λ r, {| portfolioId := portfolioId r; symbol := symbol r;
                  asset_name := asset_name r; asset_type := asset_type r;
                  quantity := fl (quantity r - qty);
                  purchasePrice := purchasePrice r;
                  currentPrice := currentPrice' |}));
  updatedPortfolio ← portfolio_update pid (increment_cash fl totalAmount');
  tx ← transaction_create
         {| tx_type := SELL; tx_quantity := qty; tx_price := currentPrice';
            totalAmount := totalAmount'; tx_userId := uid;
            tx_portfolioId := pid; assetId := Some aid |};
  mret {| asset := Some (aid, updatedAsset);
          portfolio := updatedPortfolio; transaction := tx |}.

Definition sellAsset (env : Env) (req : SellRequest) : M Reply :=
  try_catch
    (if negb (truthy_str (sell_user req)) then
       mret (reply_error 401 "User not authenticated")
     else if negb (truthy (sell_quantity req)) || leb (num (sell_quantity req)) 0 then
       mret (reply_error 400 "Positive quantity is required")
     else
       let pid := sell_portfolioId req in
       let qty := num (sell_quantity req) in
       found ← portfolio_findFirst pid (str (sell_user req));
       match found with
       | None => mret (reply_error 404 "Portfolio not found")
       | Some p =>
           held ← asset_findFirst_id (sell_assetId req) pid;
           match held with
           | None => mret (reply_error 404 "Asset not found in portfolio")
           | Some a =>
               if ltb (quantity a) qty then
                 mret (reply_error 400 "Insufficient asset quantity")
               else
                 resolved ← resolve_price env (symbol a) (sell_price req);
                 match resolved with
                 | inr r => mret r
                 | inl currentPrice' =>
                     let totalAmount' := fl (currentPrice' * qty) in
                     result ← prisma_transaction
                                (sell_transaction req a currentPrice' totalAmount');
                     mret {| status := 200; json := TradeBody result |}
                 end
           end
       end)
    (λ _, mret (reply_error 500 "Server error selling asset")).

(** *** Revaluation (assetController.ts, updateAssetPrices) *)

(** The rows of [include: { assets: true }]. *)
Definition portfolio_assets (pid : string) (s : State) : list (string * Asset) :=
  List.filter (λ r, String.eqb (portfolioId r.2) pid) (map_to_list (assets s)).

(** The callback of [portfolio.assets.map]. *)
Definition update_price (env : Env) (r : string * Asset) : M (string * Asset) :=
  try_catch
    (currentPrice' ← getMarketPrice env (symbol r.2);
     a ← asset_update r.1
           (λ a, {| portfolioId := portfolioId a; symbol := symbol a;
                    asset_name := asset_name a; asset_type := asset_type a;
                    quantity := quantity a; purchasePrice := purchasePrice a;
                    currentPrice := currentPrice' |});
     mret (r.1, a))
    (λ _, mret r).

(** [updatedAssets.reduce((sum, asset) => sum + asset.currentPrice *
    asset.quantity, 0)] *)
Definition assetValue (updatedAssets : list (string * Asset)) : number :=
  fold_left (λ sum r, fl (sum + fl (currentPrice r.2 * quantity r.2))) updatedAssets 0.

Definition updateAssetPrices (env : Env) (req : PricesRequest) : M Reply :=
  try_catch
    (if negb (truthy_str (prices_user req)) then
       mret (reply_error 401 "User not authenticated")
     else
       let pid := prices_portfolioId req in
       found ← portfolio_findFirst pid (str (prices_user req));
       match found with
       | None => mret (reply_error 404 "Portfolio not found")
       | Some p =>
           s ← get;
           updatedAssets ← mapM (update_price env) (portfolio_assets pid s);
           let totalValue' := fl (assetValue updatedAssets + cash p) in
           updatedPortfolio ← portfolio_update pid
             (λ p, {| userId := userId p; portfolio_name := portfolio_name p;
                      description := description p; totalValue := totalValue';
                      cash := cash p |});
           mret {| status := 200; json := PricesBody updatedPortfolio updatedAssets |}
       end)
    (λ _, mret (reply_error 500 "Server error updating asset prices")).

(** *** Price sync (marketDataService.ts) *)

Definition TRACKED_SYMBOLS : list string :=
  ["AAPL"; "MSFT"; "GOOGL"; "AMZN"; "META"; "TSLA"; "NVDA"; "BTC-USD"; "ETH-USD"].

Definition fetchMarketData (env : Env) (sym : string) : M MarketData :=
  try_catch
    (response ← axios_get_symbol env sym;
     match response ≫= Global_Quote with
     | Some q =>
         if truthy_str (price_05 q) then
           let price := parseFloat (str (price_05 q)) in
           let change' := parseFloat (or_str (change_09 q) "0") in
           match change_percent_10 q with
           | None => throw TypeError
           | Some cp =>
               let changePercent' := parseFloat (or_str (Some (replace_percent cp)) "0") in
               marketData ← marketData_upsert sym
                     (λ m, {| md_name := md_name m; lastPrice := price;
                              change := change'; changePercent := changePercent';
                              updatedAt := now env |})
                     {| md_name := sym; lastPrice := price;
                        change := change'; changePercent := changePercent';
                        updatedAt := now env |};
               _ ← io_emit app_io None "marketUpdate" (MarketPayload sym marketData);
               mret marketData
           end
         else throw (Error ("Invalid data format for symbol " ++ sym))
     | None => throw (Error ("Invalid data format for symbol " ++ sym))
     end)
    (λ error, throw error).

(** The [for ... of] loop of fetchAllMarketData over [symbols], [results]
    being the array built so far.  The one second pause between symbols is
    not modelled. *)
Fixpoint fetch_loop (env : Env) (symbols : list string) (results : list MarketData)
    : M (list MarketData) :=
  match symbols with
  | [] => mret results
  | sym :: rest =>
      results' ← try_catch
                   (data ← fetchMarketData env sym; mret (results ++ [data])%list)
                   (λ _, mret results);
      fetch_loop env rest results'
  end.

Definition fetchAllMarketData (env : Env) : M (list MarketData) :=
  try_catch (fetch_loop env TRACKED_SYMBOLS []) (λ error, throw error).

(** *** Cash operations (portfolioController.ts) *)

Definition createPortfolio (env : Env) (req : CreateRequest) : M Reply :=
  try_catch
    (if negb (truthy_str (create_user req)) then
       mret (reply_error 401 "User not authenticated")
     else if negb (truthy_str (create_name req)) then
       mret (reply_error 400 "Portfolio name is required")
     else
       let uid := str (create_user req) in
       let cash' := if truthy (create_cash req) then num (create_cash req) else 0 in
       newPortfolio ← portfolio_create (uuid env)
         {| userId := uid; portfolio_name := str (create_name req);
            description := if truthy_str (create_description req)
                           then create_description req else None;
            totalValue := cash'; cash := cash' |};
       _ ← (if truthy (create_cash req) && ltb 0 (num (create_cash req)) then
              _ ← transaction_create
                    {| tx_type := DEPOSIT; tx_quantity := 1;
                       tx_price := num (create_cash req);
                       totalAmount := num (create_cash req);
                       tx_userId := uid; tx_portfolioId := uuid env;
                       assetId := None |};
              mret tt
            else mret tt);
       mret {| status := 201; json := PortfolioBody newPortfolio |})
    (λ _, mret (reply_error 500 "Server error creating portfolio")).

Definition addCashToPortfolio (env : Env) (req : CashRequest) : M Reply :=
  try_catch
    (if negb (truthy_str (cash_user req)) then
       mret (reply_error 401 "User not authenticated")
     else if negb (truthy (cash_amount req)) || leb (num (cash_amount req)) 0 then
       mret (reply_error 400 "Valid amount is required")
     else
       let uid := str (cash_user req) in
       let pid := cash_portfolioId req in
       let amount := num (cash_amount req) in
       found ← portfolio_findFirst pid uid;
       match found with
       | None => mret (reply_error 404 "Portfolio not found")
       | Some _ =>
           updatedPortfolio ← portfolio_update pid
             (λ p, {| userId := userId p; portfolio_name := portfolio_name p;
                      description := description p;
                      totalValue := fl (totalValue p + amount);
                      cash := fl (cash p + amount) |});
           _ ← transaction_create
                 {| tx_type := DEPOSIT; tx_quantity := 1; tx_price := amount;
                    totalAmount := amount; tx_userId := uid;
                    tx_portfolioId := pid; assetId := None |};
           mret {| status := 200; json := PortfolioBody updatedPortfolio |}
       end)
    (λ _, mret (reply_error 500 "Server error adding cash")).

Definition withdrawCashFromPortfolio (env : Env) (req : CashRequest) : M Reply :=
  try_catch
    (if negb (truthy_str (cash_user req)) then
       mret (reply_error 401 "User not authenticated")
     else if negb (truthy (cash_amount req)) || leb (num (cash_amount req)) 0 then
       mret (reply_error 400 "Valid amount is required")
     else
       let uid := str (cash_user req) in
       let pid := cash_portfolioId req in
       let amount := num (cash_amount req) in
       found ← portfolio_findFirst pid uid;
       match found with
       | None => mret (reply_error 404 "Portfolio not found")
       | Some p =>
           if ltb (cash p) amount then
             mret (reply_error 400 "Insufficient cash balance")
           else
             updatedPortfolio ← portfolio_update pid
               (λ p, {| userId := userId p; portfolio_name := portfolio_name p;
                        description := description p;
                        totalValue := fl (totalValue p - amount);
                        cash := fl (cash p - amount) |});
             _ ← transaction_create
                   {| tx_type := WITHDRAWAL; tx_quantity := 1; tx_price := amount;
                      totalAmount := amount; tx_userId := uid;
                      tx_portfolioId := pid; assetId := None |};
             mret {| status := 200; json := PortfolioBody updatedPortfolio |}
       end)
    (λ _, mret (reply_error 500 "Server error withdrawing cash")).

End Handlers.

(** *** Broadcaster (websocketService.ts, emitPortfolioUpdate) *)

Definition emitPortfolioUpdate (pid : string) : M unit :=
  try_catch
    (s ← get;
     match portfolios s !! pid with
     | Some p =>
         let loaded := PortfolioPayload pid p (portfolio_assets pid s) in
         _ ← io_emit global_io (Some ("portfolio:" ++ pid)) "portfolio:update" loaded;
         io_emit global_io (Some ("user:" ++ userId p)) "portfolio:update" loaded
     | None => mret tt
     end)
    (λ _, mret tt).

(** ** Notions used in the statements *)

(** Requests with the price changed. *)

Definition buy_with_price (price : option number) (req : BuyRequest) : BuyRequest :=
  {| buy_user := buy_user req; buy_portfolioId := buy_portfolioId req;
     buy_symbol := buy_symbol req; buy_name := buy_name req;
     buy_type := buy_type req; buy_quantity := buy_quantity req;
     buy_price := price |}.

Definition sell_with_price (price : option number) (req : SellRequest) : SellRequest :=
  {| sell_user := sell_user req; sell_portfolioId := sell_portfolioId req;
     sell_assetId := sell_assetId req; sell_quantity := sell_quantity req;
     sell_price := price |}.

(** The cached row is at least five minutes old, or there is none. *)
Definition stale (env : Env) (cached : option MarketData) : Prop :=
  match cached with
  | Some m => (5 * 60 * 1000 ≤ now env - updatedAt m)%Z
  | None => True
  end.

(** The row the upsert of getMarketPrice writes for the quote [q], [cached]
    being the row it replaces. *)
Definition refreshed (parseFloat : string → number) (env : Env) (sym : string) (q : GlobalQuote)
    (cached : option MarketData) : MarketData :=
  {| md_name := match cached with Some m => md_name m | None => sym end;
     lastPrice := parseFloat (str (price_05 q));
     change := parseFloat (or_str (change_09 q) "0");
     changePercent :=
       parseFloat (or_str (replace_percent <$> change_percent_10 q) "0");
     updatedAt := now env |}.

(** The ledger tables and the socket log of [s'] are those of [s]. *)
Definition same_ledger (s s' : State) : Prop :=
  portfolios s' = portfolios s ∧ assets s' = assets s
  ∧ transactions s' = transactions s ∧ emitted s' = emitted s.

(** [Σ price_i × qty_i] over a list of (price, quantity) pairs, in the
    arithmetic of the reals. *)
Definition spent (l : list (number * number)) : number :=
  foldr (λ b acc, b.1 * b.2 + acc) 0 l.

(** The cash [c] debited, one buy after the other, by the total costs of the
    (price, quantity) pairs of [l], as the program computes them. *)
Definition debited (fl : number → number) (c : number) (l : list (number * number)) : number :=
  foldl (λ c b, fl (c - fl (b.1 * b.2))) c l.

(** [accepted_buys pf pid s l s']: from [s], a sequence of buys on the
    portfolio [pid], each answered 200, leads to [s']; [l] lists the price and
    the quantity of each, as its transaction records them. *)
Inductive accepted_buys (parseFloat : string → number) (fl : number → number) (pid : string)
    : State → list (number * number) → State → Prop :=
| accepted_nil s : accepted_buys parseFloat fl pid s [] s
| accepted_cons env req s result s1 price qty l s2 :
    buy_portfolioId req = pid →
    buyAsset parseFloat fl env req s
      = (Return {| status := 200; json := TradeBody result |}, s1) →
    tx_price (transaction result) = price →
    tx_quantity (transaction result) = qty →
    accepted_buys parseFloat fl pid s1 l s2 →
    accepted_buys parseFloat fl pid s ((price, qty) :: l) s2.

(** Every portfolio has a cash balance of at least 0. *)
Definition cash_nonneg (s : State) : Prop :=
  map_Forall (λ _ p, 0 ≤ cash p) (portfolios s).

(** The operations that write a portfolio's cash, as the routers mount them
    (portfolioRoutes.ts, assetRoutes.ts). *)
Inductive Operation :=
| Create (req : CreateRequest)       (* POST / *)
| Deposit (req : CashRequest)        (* POST /:portfolioId/deposit *)
| Withdraw (req : CashRequest)       (* POST /:portfolioId/withdraw *)
| Buy (req : BuyRequest)             (* POST /portfolios/:portfolioId/buy *)
| Sell (req : SellRequest).          (* POST /portfolios/:portfolioId/assets/:assetId/sell *)

Definition route (parseFloat : string → number) (fl : number → number) (env : Env)
    (op : Operation) : M Reply :=
  match op with
  | Create req => createPortfolio env req
  | Deposit req => addCashToPortfolio fl env req
  | Withdraw req => withdrawCashFromPortfolio fl env req
  | Buy req => buyAsset parseFloat fl env req
  | Sell req => sellAsset parseFloat fl env req
  end.

(** No negative amount enters: a portfolio is not created with a negative
    cash, a sell is not executed at a negative price. *)
Definition no_negative_amount (op : Operation) (reply : Reply) : Prop :=
  match op with
  | Create req => 0 ≤ num (create_cash req)
  | Sell _ => ∀ result, json reply = TradeBody result → 0 ≤ tx_price (transaction result)
  | _ => True
  end.

(** [Σ currentPrice × quantity] over a list of holdings, in the arithmetic of
    the reals. *)
Definition holdings_value (l : list (string * Asset)) : number :=
  foldr (λ r acc, currentPrice r.2 * quantity r.2 + acc) 0 l.

(** ** Concrete inputs for the examples *)

(** A reader of plain decimal numerals ([-]digits[.digits]), the instance of
    [parseFloat] the examples run with. *)
Definition digit_of (c : ascii) : option Z :=
  let n := Z.of_N (N_of_ascii c) in
  if ((48 <=? n) && (n <=? 57))%Z then Some (n - 48)%Z else None.

Fixpoint read_fraction (s : string) (acc : Z) (scale : positive) : Z * positive :=
  match s with
  | EmptyString => (acc, scale)
  | String c r =>
      match digit_of c with
      | Some d => read_fraction r (10 * acc + d)%Z (10 * scale)%positive
      | None => (acc, scale)
      end
  end.

Fixpoint read_decimal (s : string) (acc : Z) : Z * positive :=
  match s with
  | EmptyString => (acc, 1%positive)
  | String c r =>
      match digit_of c with
      | Some d => read_decimal r (10 * acc + d)%Z
      | None =>
          if Ascii.eqb c "."%char then read_fraction r acc 1%positive
          else (acc, 1%positive)
      end
  end.

Definition parseDecimal (s : string) : number :=
  match s with
  | String "-"%char r => let '(n, d) := read_decimal r 0%Z in Q2Qc ((- n) # d)
  | _ => let '(n, d) := read_decimal s 0%Z in Q2Qc (n # d)
  end.

Definition empty_state : State :=
  {| portfolios := ∅; assets := ∅; transactions := []; marketData := ∅;
     requests := []; emitted := [] |}.

Definition quote_up : GlobalQuote :=
  {| price_05 := Some "189.50"; change_09 := Some "1.25";
     change_percent_10 := Some "0.66%" |}.

(** A provider that answers every symbol with the quote 189.50. *)
Definition env_up : Env :=
  {| now := 1000000;
     axios_get := λ _, Resolved (Some {| Global_Quote := Some quote_up |});
     uuid := "a1" |}.

(** A provider whose call rejects. *)
Definition env_down : Env :=
  {| now := 1000000; axios_get := λ _, Rejected; uuid := "a1" |}.

(** A provider that answers with a price but no change percent. *)
Definition env_partial : Env :=
  {| now := 1000000;
     axios_get := λ _, Resolved (Some {| Global_Quote := Some
       {| price_05 := Some "189.50"; change_09 := None;
          change_percent_10 := None |} |});
     uuid := "a1" |}.

(** A provider that answers with an empty quote object. *)
Definition env_empty : Env :=
  {| now := 1000000;
     axios_get := λ _, Resolved (Some {| Global_Quote := Some
       {| price_05 := None; change_09 := None; change_percent_10 := None |} |});
     uuid := "a1" |}.

Definition quote_at (t : Z) : MarketData :=
  {| md_name := "Apple Inc."; lastPrice := Qc_of_Z 180; change := 0;
     changePercent := 0; updatedAt := t |}.

(** AAPL was refreshed 100 seconds before [now env_up]. *)
Definition state_cached : State :=
  set_marketData (insert "AAPL" (quote_at 900000)) empty_state.

(** AAPL was refreshed 1000 seconds before [now env_up]. *)
Definition state_stale : State :=
  set_marketData (insert "AAPL" (quote_at 0)) empty_state.

(** Portfolio p1 of user u1 holds 200 in cash and no asset. *)
Definition portfolio_200 : Portfolio :=
  {| userId := "u1"; portfolio_name := "Main"; description := None;
     totalValue := Qc_of_Z 200; cash := Qc_of_Z 200 |}.

Definition state_200 : State :=
  set_portfolios (insert "p1" portfolio_200) empty_state.

(** Buy [qty] XYZ at [price] for portfolio p1, as user u1. *)
Definition buy_xyz (qty price : Z) : BuyRequest :=
  {| buy_user := Some "u1"; buy_portfolioId := "p1"; buy_symbol := Some "XYZ";
     buy_name := None; buy_type := Some "STOCK";
     buy_quantity := Some (Qc_of_Z qty); buy_price := Some (Qc_of_Z price) |}.

(** Sell [qty] of the asset a1 of portfolio p1 at [price], as user u1. *)
Definition sell_a1 (qty price : Z) : SellRequest :=
  {| sell_user := Some "u1"; sell_portfolioId := "p1"; sell_assetId := "a1";
     sell_quantity := Some (Qc_of_Z qty); sell_price := Some (Qc_of_Z price) |}.

(** Portfolio p1 after 5 XYZ were bought at 20: 100 in cash, the holding a1. *)
Definition portfolio_100 : Portfolio :=
  {| userId := "u1"; portfolio_name := "Main"; description := None;
     totalValue := Qc_of_Z 200; cash := Qc_of_Z 100 |}.

Definition holding_xyz : Asset :=
  {| portfolioId := "p1"; symbol := "XYZ"; asset_name := "XYZ"; asset_type := STOCK;
     quantity := Qc_of_Z 5; purchasePrice := Qc_of_Z 20; currentPrice := Qc_of_Z 20 |}.

Definition state_held : State :=
  set_assets (insert "a1" holding_xyz)
    (set_portfolios (insert "p1" portfolio_100) empty_state).

(** Portfolio p1 with 5000 in cash and no asset. *)
Definition state_5000 : State :=
  set_portfolios
    (insert "p1" {| userId := "u1"; portfolio_name := "Main"; description := None;
                    totalValue := Qc_of_Z 5000; cash := Qc_of_Z 5000 |})
    empty_state.

(** Withdraw [amount] from portfolio p1, as user u1. *)
Definition withdraw_p1 (amount : Z) : CashRequest :=
  {| cash_user := Some "u1"; cash_portfolioId := "p1";
     cash_amount := Some (Qc_of_Z amount) |}.

(** Create a portfolio with the initial cash [amount], as user u1. *)
Definition create_with (amount : Z) : CreateRequest :=
  {| create_user := Some "u1"; create_name := Some "Second";
     create_description := None; create_cash := Some (Qc_of_Z amount) |}.

(** A provider whose call rejects for AAPL and answers the quote 189.50 for
    every other symbol. *)
Definition env_aapl_down : Env :=
  {| now := 1000000;
     axios_get := λ sym, if String.eqb sym "AAPL" then Rejected
                         else Resolved (Some {| Global_Quote := Some quote_up |});
     uuid := "a1" |}.

(** Revalue portfolio p1, as user u1. *)
Definition revalue_p1 : PricesRequest :=
  {| prices_user := Some "u1"; prices_portfolioId := "p1" |}.

(** ** Invariants of the ledger *)






(** No portfolio has two holdings of one symbol. *)
Definition unique_holdings (s : State) : Prop :=
  ∀ i j a b, assets s !! i = Some a → assets s !! j = Some b →
             portfolioId a = portfolioId b → symbol a = symbol b → i = j.

(** The portfolio an operation is addressed to (for a creation, the id drawn
    for the new row) and the user it is made as. *)
Definition target (env : Env) (op : Operation) : string :=
  match op with
  | Create _ => uuid env
  | Deposit req | Withdraw req => cash_portfolioId req
  | Buy req => buy_portfolioId req
  | Sell req => sell_portfolioId req
  end.

Definition op_user (op : Operation) : option string :=
  match op with
  | Create req => create_user req
  | Deposit req | Withdraw req => cash_user req
  | Buy req => buy_user req
  | Sell req => sell_user req
  end.

(** The status of the reply that commits an operation. *)
Definition success_status (op : Operation) : Z :=
  match op with
  | Create _ => 201
  | _ => 200
  end.

(** [a'] is [a] with, possibly, another current price. *)
Definition repriced (a a' : Asset) : Prop :=
  a' = {| portfolioId := portfolioId a; symbol := symbol a;
          asset_name := asset_name a; asset_type := asset_type a;
          quantity := quantity a; purchasePrice := purchasePrice a;
          currentPrice := currentPrice a' |}.

(** Portfolios, holdings and transactions of [s'] are those of [s]. *)
Definition same_ledger_tables (s s' : State) : Prop :=
  portfolios s' = portfolios s ∧ assets s' = assets s
  ∧ transactions s' = transactions s.

(** ** Further fixtures *)


(** Portfolio p2 of user u2 holds 3 ABC. *)
Definition holding_abc : Asset :=
  {| portfolioId := "p2"; symbol := "ABC"; asset_name := "ABC"; asset_type := STOCK;
     quantity := Qc_of_Z 3; purchasePrice := Qc_of_Z 10; currentPrice := Qc_of_Z 10 |}.

Definition state_two_users : State :=
  set_assets (insert "a2" holding_abc)
    (set_portfolios
       (insert "p2" {| userId := "u2"; portfolio_name := "Other"; description := None;
                       totalValue := Qc_of_Z 30; cash := 0 |})
       state_held).

(** Withdraw [amount] from portfolio p1, as user u2. *)
Definition withdraw_p1_as_u2 (amount : Z) : CashRequest :=
  {| cash_user := Some "u2"; cash_portfolioId := "p1";
     cash_amount := Some (Qc_of_Z amount) |}.

(** ** Rooms (websocketService.ts, setupWebSocketServer) *)

(** A connected socket: the user its handshake token named, and the rooms it
    has joined. *)
Record Socket := {
  socket_userId : string;
  socket_rooms : gset string
}.

(** [socket.join(room)] and [socket.leave(room)] *)
Definition socket_join (r : string) (sk : Socket) : Socket :=
  {| socket_userId := socket_userId sk; socket_rooms := {[r]} ∪ socket_rooms sk |}.

Definition socket_leave (r : string) (sk : Socket) : Socket :=
  {| socket_userId := socket_userId sk; socket_rooms := socket_rooms sk ∖ {[r]} |}.

(** [!!portfolio] of the user's portfolio [pid]; [false] when the lookup
    throws. *)
Definition verifyPortfolioAccess (uid pid : string) : M bool :=
  try_catch
    (portfolio ← portfolio_findFirst pid uid;
     mret (match portfolio with Some _ => true | None => false end))
    (λ _, mret false).

(** [io.on('connection', ...)]: the socket joins the room of its user. *)
Definition on_connection (uid : string) : Socket :=
  let socket := {| socket_userId := uid; socket_rooms := ∅ |} in
  if truthy_str (Some uid) then socket_join ("user:" ++ uid) socket else socket.

(** [socket.on('subscribe:portfolio', ...)]: the socket after the event, and
    the messages of the [error] events emitted to it. *)
Definition subscribe_portfolio (pid : string) (sk : Socket) : M (Socket * list string) :=
  try_catch
    (hasAccess ← verifyPortfolioAccess (socket_userId sk) pid;
     if hasAccess : bool then mret (socket_join ("portfolio:" ++ pid) sk, [])
     else mret (sk, ["Access denied to this portfolio"]))
    (λ _, mret (sk, ["Server error"])).

(** [socket.on('unsubscribe:portfolio', ...)] *)
Definition unsubscribe_portfolio (pid : string) (sk : Socket) : Socket :=
  socket_leave ("portfolio:" ++ pid) sk.

(** What happens while a socket is connected: a request of some user is
    served, or the socket subscribes to or unsubscribes from a portfolio. *)
Inductive Event :=
| Request (env : Env) (op : Operation)
| Subscribe (pid : string)
| Unsubscribe (pid : string).

Definition handle (parseFloat : string → number) (fl : number → number)
    (c : State * Socket) (ev : Event) : State * Socket :=
  match ev with
  | Request env op => ((route parseFloat fl env op c.1).2, c.2)
  | Subscribe pid =>
      match subscribe_portfolio pid c.2 c.1 with
      | (Return (sk, _), s) => (s, sk)
      | (Throw _, s) => (s, c.2)
      end
  | Unsubscribe pid => (c.1, unsubscribe_portfolio pid c.2)
  end.

(** Every room of the socket is the room of its user or the room of a
    portfolio of its user. *)
Definition authorised (s : State) (sk : Socket) : Prop :=
  ∀ r, r ∈ socket_rooms sk →
       r = "user:" ++ socket_userId sk
       ∨ ∃ pid p, r = "portfolio:" ++ pid
                  ∧ portfolios s !! pid = Some p ∧ userId p = socket_userId sk.

(** ** Inputs in double precision *)

(** JavaScript's [parseFloat] on a plain decimal numeral: the double nearest
    to the number the numeral denotes. *)
Definition parseDouble (s : string) : number := fl64 (parseDecimal s).

(** The double that the literal [n/d] denotes. *)
Definition double (n : Z) (d : positive) : number := fl64 (Q2Qc (n # d)).

(** Buy [qty] XYZ at [price] for portfolio p1, as user u1. *)
Definition buy_xyz_at (qty price : number) : BuyRequest :=
  {| buy_user := Some "u1"; buy_portfolioId := "p1"; buy_symbol := Some "XYZ";
     buy_name := None; buy_type := Some "STOCK";
     buy_quantity := Some qty; buy_price := Some price |}.

(** Portfolio p1 of user u1 with [c] in cash and no asset. *)
Definition portfolio_with (c : number) : Portfolio :=
  {| userId := "u1"; portfolio_name := "Main"; description := None;
     totalValue := c; cash := c |}.

Definition state_with (c : number) : State :=
  set_portfolios (insert "p1" (portfolio_with c)) empty_state.

(** Deposit or withdraw [amount] on portfolio p1, as user u1. *)
Definition cash_p1 (amount : number) : CashRequest :=
  {| cash_user := Some "u1"; cash_portfolioId := "p1"; cash_amount := Some amount |}.

(** ** The answers of the oracle and of the provider *)

(** What getMarketPrice answers for [sym] from the state [s]: the price it
    returns, [None] when it throws. *)
Definition oracle_answer (parseFloat : string → number) (env : Env) (s : State)
    (sym : string) : option number :=
  match (getMarketPrice parseFloat env sym s).1 with
  | Return price => Some price
  | Throw _ => None
  end.

(** The holding [a] at the price the oracle answers from [s]; [a] as it is
    when the oracle throws. *)
Definition revalued (parseFloat : string → number) (env : Env) (s : State)
    (a : Asset) : Asset :=
  match oracle_answer parseFloat env s (symbol a) with
  | Some price =>
      {| portfolioId := portfolioId a; symbol := symbol a;
         asset_name := asset_name a; asset_type := asset_type a;
         quantity := quantity a; purchasePrice := purchasePrice a;
         currentPrice := price |}
  | None => a
  end.

(** The provider's quote for [sym], when its answer carries a price and a
    change percent. *)
Definition usable_quote (env : Env) (sym : string) : option GlobalQuote :=
  match axios_get env sym with
  | Resolved data =>
      match data ≫= Global_Quote with
      | Some q =>
          match change_percent_10 q with
          | Some _ => if truthy_str (price_05 q) then Some q else None
          | None => None
          end
      | None => None
      end
  | Rejected => None
  end.

(** The quote row of [sym] after a sync over the symbols [symbols], [cached]
    being the row before it. *)
Definition synced (parseFloat : string → number) (env : Env) (symbols : list string)
    (sym : string) (cached : option MarketData) : option MarketData :=
  if bool_decide (sym ∈ symbols) then
    match usable_quote env sym with
    | Some q => Some (refreshed parseFloat env sym q cached)
    | None => cached
    end
  else cached.

(** Portfolio p1 holds 5 XYZ and 2 AAPL. *)
Definition holding_aapl : Asset :=
  {| portfolioId := "p1"; symbol := "AAPL"; asset_name := "Apple Inc.";
     asset_type := STOCK; quantity := Qc_of_Z 2; purchasePrice := Qc_of_Z 150;
     currentPrice := Qc_of_Z 150 |}.

Definition state_two_holdings : State :=
  set_assets (insert "a2" holding_aapl) state_held.

(** * Properties *)

(** ** Comparisons *)

Lemma ltb_lt (a b : number) : ltb a b = true ↔ a < b.
Proof. unfold ltb. rewrite Qclt_alt. destruct (a ?= b); intuition congruence. Qed.

Lemma ltb_ge (a b : number) : ltb a b = false ↔ b ≤ a.
Proof.
  rewrite Qcle_ngt, <- ltb_lt. destruct (ltb a b); intuition congruence.
Qed.

Lemma leb_le (a b : number) : leb a b = true ↔ a ≤ b.
Proof.
  unfold leb. rewrite Qcle_alt. destruct (a ?= b); intuition congruence.
Qed.

Lemma leb_gt (a b : number) : leb a b = false ↔ b < a.
Proof.
  rewrite Qclt_nge, <- leb_le. destruct (leb a b); intuition congruence.
Qed.

Lemma eqb_eq (a b : number) : eqb a b = true ↔ a = b.
Proof. unfold eqb. rewrite Qceq_alt. destruct (a ?= b); intuition congruence. Qed.

Lemma eqb_neq (a b : number) : eqb a b = false ↔ a ≠ b.
Proof. rewrite <- eqb_eq. destruct (eqb a b); intuition congruence. Qed.

Lemma truthy_Some (x : number) : x ≠ 0 → truthy (Some x) = true.
Proof. intros H. unfold truthy. apply eqb_neq in H. by rewrite H. Qed.

Lemma truthy_pos (x : number) : 0 < x → truthy (Some x) = true.
Proof. intros H. apply truthy_Some. intros ->. by apply (Qclt_not_eq 0 0). Qed.

Lemma truthy_str_Some (x : string) : x ≠ "" → truthy_str (Some x) = true.
Proof.
  intros H. unfold truthy_str. destruct (String.eqb_spec x ""); [done | reflexivity].
Qed.

Lemma or_str_Some (x d : string) : x ≠ "" → or_str (Some x) d = x.
Proof. intros H. unfold or_str. by destruct (String.eqb_spec x ""). Qed.

(** Unfolding of the monad's operations. *)
Ltac unfold_monad :=
  unfold mbind, M_bind, mret, M_ret, throw, try_catch, get, modify in *.

Section Zero_price.

Context (parseFloat : string → number).

Lemma truthy_zero : truthy (Some 0) = truthy None.
Proof. reflexivity. Qed.

Lemma resolve_price_zero env sym :
  resolve_price parseFloat env sym (Some 0) = resolve_price parseFloat env sym None.
Proof. reflexivity. Qed.

End Zero_price.

(** ** The price oracle *)

Section Oracle.

Context (parseFloat : string → number).

Lemma try_rethrow {A} (m : M A) s : try_catch m (λ error, throw error) s = m s.
Proof. unfold try_catch, throw. by destruct (m s) as [[?|?] ?]. Qed.

Lemma getMarketPrice_fresh env sym s m :
  marketData s !! sym = Some m →
  (now env - updatedAt m < 5 * 60 * 1000)%Z →
  getMarketPrice parseFloat env sym s = (Return (lastPrice m), s).
Proof.
  intros Hm Hage. unfold getMarketPrice. rewrite try_rethrow.
  unfold marketData_findUnique. unfold_monad. rewrite Hm.
  apply Z.ltb_lt in Hage. by rewrite Hage.
Qed.

Lemma getMarketPrice_stale env sym s :
  stale env (marketData s !! sym) →
  getMarketPrice parseFloat env sym s
    = fetch_price parseFloat env sym (marketData s !! sym) s.
Proof.
  intros Hstale. unfold getMarketPrice. rewrite try_rethrow.
  unfold marketData_findUnique. unfold_monad.
  destruct (marketData s !! sym) as [m|]; [|done].
  cbn in Hstale. apply Z.ltb_ge in Hstale. by rewrite Hstale.
Qed.

(** Whatever the provider answers, it has been asked exactly once. *)
Lemma fetch_price_requests env sym cached s :
  marketData s !! sym = cached →
  requests (fetch_price parseFloat env sym cached s).2 = (requests s ++ [sym])%list.
Proof.
  intros <-. unfold fetch_price, axios_get_symbol, marketData_upsert. unfold_monad.
  cbn. destruct (axios_get env sym) as [|[[[q|]]|]]; cbn; try done.
  - destruct (truthy_str (price_05 q)); cbn.
    + destruct (change_percent_10 q); cbn; [|done].
      by destruct (marketData s !! sym).
    + by destruct (marketData s !! sym).
  - by destruct (marketData s !! sym).
  - by destruct (marketData s !! sym).
Qed.

Lemma fetch_price_success env sym s q p cp :
  axios_get env sym = Resolved (Some {| Global_Quote := Some q |}) →
  price_05 q = Some p → p ≠ "" →
  change_percent_10 q = Some cp →
  fetch_price parseFloat env sym (marketData s !! sym) s
    = (Return (parseFloat p),
       set_marketData (insert sym (refreshed parseFloat env sym q (marketData s !! sym)))
         (set_requests (λ l, (l ++ [sym])%list) s)).
Proof.
  intros Hget Hp Hne Hcp.
  unfold fetch_price, axios_get_symbol, marketData_upsert, refreshed. unfold_monad.
  cbn. rewrite Hget. cbn. rewrite Hp, (truthy_str_Some p Hne), Hcp. cbn.
  by destruct (marketData s !! sym).
Qed.

(** The provider answered without a usable price: the cached row, however
    old, gives the price. *)
Lemma fetch_price_no_price_cached env sym s m data :
  axios_get env sym = Resolved data →
  truthy_str ((data ≫= Global_Quote) ≫= price_05) = false →
  fetch_price parseFloat env sym (Some m) s
    = (Return (lastPrice m), set_requests (λ l, (l ++ [sym])%list) s).
Proof.
  intros Hget Hfalsy. unfold fetch_price, axios_get_symbol. unfold_monad.
  cbn. rewrite Hget.
  destruct data as [[[q|]]|]; cbn in *; [|done..].
  by rewrite Hfalsy.
Qed.

(** The provider answered without a usable price and nothing is cached. *)
Lemma fetch_price_no_price_uncached env sym s data :
  axios_get env sym = Resolved data →
  truthy_str ((data ≫= Global_Quote) ≫= price_05) = false →
  fetch_price parseFloat env sym None s
    = (Throw (Error "Could not retrieve market price"),
       set_requests (λ l, (l ++ [sym])%list) s).
Proof.
  intros Hget Hfalsy. unfold fetch_price, axios_get_symbol. unfold_monad.
  cbn. rewrite Hget.
  destruct data as [[[q|]]|]; cbn in *; [|done..].
  by rewrite Hfalsy.
Qed.

(** The provider call rejects: the rejection is rethrown, cached row or not. *)
Lemma fetch_price_rejected env sym cached s :
  axios_get env sym = Rejected →
  fetch_price parseFloat env sym cached s
    = (Throw AxiosError, set_requests (λ l, (l ++ [sym])%list) s).
Proof.
  intros Hget. unfold fetch_price, axios_get_symbol. unfold_monad.
  cbn. by rewrite Hget.
Qed.

(** C6.  A cached quote younger than five minutes answers the call and
    nothing else happens: the state, with its record of provider calls, is
    unchanged.  With a cached quote of five minutes or more, or none, the
    provider is asked exactly once; when it answers with a price and a change
    percent, the quote row is upserted (price, change, change percent,
    updatedAt = now) and the fresh price is returned. *)
Theorem price_cache env sym s :
  (∀ m, marketData s !! sym = Some m →
        (now env - updatedAt m < 5 * 60 * 1000)%Z →
        getMarketPrice parseFloat env sym s = (Return (lastPrice m), s))
  ∧ (stale env (marketData s !! sym) →
     requests (getMarketPrice parseFloat env sym s).2 = (requests s ++ [sym])%list
     ∧ ∀ q p cp,
         axios_get env sym = Resolved (Some {| Global_Quote := Some q |}) →
         price_05 q = Some p → p ≠ "" →
         change_percent_10 q = Some cp →
         getMarketPrice parseFloat env sym s
           = (Return (parseFloat p),
              set_marketData (insert sym (refreshed parseFloat env sym q (marketData s !! sym)))
                (set_requests (λ l, (l ++ [sym])%list) s))).
Proof.
  split.
  - apply getMarketPrice_fresh.
  - intros Hstale. rewrite (getMarketPrice_stale _ _ _ Hstale). split.
    + by apply fetch_price_requests.
    + intros q p cp. apply fetch_price_success.
Qed.

End Oracle.

(** *** Runs of the oracle *)

Lemma price_cache_witness :
  getMarketPrice parseDecimal env_up "AAPL" state_cached
    = (Return (Qc_of_Z 180), state_cached)
  ∧ requests (getMarketPrice parseDecimal env_up "AAPL" state_stale).2 = ["AAPL"]
  ∧ getMarketPrice parseDecimal env_up "AAPL" state_stale
    = (Return (parseDecimal "189.50"),
       set_marketData
         (insert "AAPL"
            {| md_name := "Apple Inc."; lastPrice := parseDecimal "189.50";
               change := parseDecimal "1.25"; changePercent := parseDecimal "0.66";
               updatedAt := 1000000 |})
         (set_requests (λ l, (l ++ ["AAPL"])%list) state_stale)).
Proof.
  split; [|split].
  - apply (proj1 (price_cache parseDecimal env_up "AAPL" state_cached) (quote_at 900000)).
    + reflexivity.
    + reflexivity.
  - apply (proj2 (price_cache parseDecimal env_up "AAPL" state_stale)).
    vm_compute. discriminate.
  - refine (proj2 (proj2 (price_cache parseDecimal env_up "AAPL" state_stale) _)
              quote_up "189.50" "0.66%" _ _ _ _).
    + vm_compute. discriminate.
    + reflexivity.
    + reflexivity.
    + discriminate.
    + reflexivity.
Defined.

(** C7, on the code.  AAPL has a cached quote, older than five minutes.
    When the provider call rejects, and when the provider answers with a
    price but without the change percent, getMarketPrice throws (the
    rejection, a TypeError): the cached price 180 is not returned.  It is
    returned when the answer carries no price; without a cached quote that
    answer makes the call throw `Could not retrieve market price'. *)
Theorem stale_quote_not_served_on_provider_error :
  getMarketPrice parseDecimal env_down "AAPL" state_stale
    = (Throw AxiosError, set_requests (λ l, (l ++ ["AAPL"])%list) state_stale)
  ∧ getMarketPrice parseDecimal env_partial "AAPL" state_stale
    = (Throw TypeError, set_requests (λ l, (l ++ ["AAPL"])%list) state_stale)
  ∧ getMarketPrice parseDecimal env_empty "AAPL" state_stale
    = (Return (Qc_of_Z 180), set_requests (λ l, (l ++ ["AAPL"])%list) state_stale)
  ∧ getMarketPrice parseDecimal env_empty "AAPL" empty_state
    = (Throw (Error "Could not retrieve market price"),
       set_requests (λ l, (l ++ ["AAPL"])%list) empty_state).
Proof. repeat split; vm_compute; reflexivity. Qed.


(** ** The ledger *)

Ltac unfold_prisma :=
  unfold portfolio_findFirst, portfolio_update, portfolio_create,
    asset_findFirst_symbol, asset_findFirst_id, asset_update, asset_create,
    asset_delete, transaction_create, references_hold, prisma_transaction in *.

(** Symbolic execution: simplify, and rewrite with the equations at hand. *)
Ltac run :=
  cbn;
  repeat first
    [ rewrite lookup_insert_eq; cbn
    | match goal with
      | H : ?x = _ |- context [?x] => rewrite H; cbn
      end ].

(** The foreign keys of a row written after the row it names: the lookups
    that cannot fail. *)
Ltac foreign_keys :=
  repeat match goal with
         | H : <[?k:=_]> _ !! ?k = None |- _ => by rewrite lookup_insert_eq in H
         | H : <[?k:=_]> _ !! ?k = Some _ |- _ =>
             rewrite lookup_insert_eq in H; simplify_eq/=
         | H : delete ?k _ !! ?k = Some _ |- _ => by rewrite lookup_delete_eq in H
         | H : delete ?k _ !! ?k = None |- _ => clear H
         end.

Lemma same_ledger_refl s : same_ledger s s.
Proof. by repeat split. Qed.

Lemma same_ledger_trans s1 s2 s3 :
  same_ledger s1 s2 → same_ledger s2 s3 → same_ledger s1 s3.
Proof. intros (?&?&?&?) (?&?&?&?). repeat split; congruence. Qed.

Section Ledger.

Context (parseFloat : string → number) (fl : number → number).

Lemma fetch_price_ledger env sym cached s :
  same_ledger s (fetch_price parseFloat env sym cached s).2.
Proof.
  unfold fetch_price, axios_get_symbol, marketData_upsert. unfold_monad. cbn.
  repeat case_match; simplify_eq/=; by repeat split.
Qed.

Lemma getMarketPrice_ledger env sym s :
  same_ledger s (getMarketPrice parseFloat env sym s).2.
Proof.
  unfold getMarketPrice. rewrite try_rethrow.
  unfold marketData_findUnique. unfold_monad.
  repeat case_match; try apply same_ledger_refl; apply fetch_price_ledger.
Qed.

Lemma resolve_price_ledger env sym price s :
  same_ledger s (resolve_price parseFloat env sym price s).2.
Proof.
  unfold resolve_price. unfold_monad.
  pose proof (getMarketPrice_ledger env sym s).
  repeat case_match; simplify_eq/=; try apply same_ledger_refl; done.
Qed.

Lemma resolve_price_returns env sym price s :
  ∃ r, (resolve_price parseFloat env sym price s).1 = Return r.
Proof.
  unfold resolve_price. unfold_monad.
  repeat case_match; simplify_eq/=; eauto.
Qed.

Lemma resolve_price_explicit env sym price s :
  price ≠ 0 →
  resolve_price parseFloat env sym (Some price) s = (Return (inl price), s).
Proof. intros H. unfold resolve_price. by rewrite (truthy_Some _ H). Qed.

Lemma resolve_price_oracle env sym price s p s1 :
  truthy price = false →
  getMarketPrice parseFloat env sym s = (Return p, s1) →
  resolve_price parseFloat env sym price s = (Return (inl p), s1).
Proof.
  intros Hp Hget. unfold resolve_price. rewrite Hp. unfold_monad. by rewrite Hget.
Qed.

Lemma resolve_price_unavailable env sym price s e s1 :
  truthy price = false →
  getMarketPrice parseFloat env sym s = (Throw e, s1) →
  resolve_price parseFloat env sym price s
    = (Return (inr (reply_error 400 "Could not retrieve market price. Please provide a price.")), s1).
Proof.
  intros Hp Hget. unfold resolve_price. rewrite Hp. unfold_monad. by rewrite Hget.
Qed.

Lemma resolve_price_inr env sym price s r s1 :
  resolve_price parseFloat env sym price s = (Return (inr r), s1) →
  r = reply_error 400 "Could not retrieve market price. Please provide a price.".
Proof.
  intros H. unfold resolve_price in H. unfold_monad.
  repeat case_match; by simplify_eq/=.
Qed.

(** *** The transaction of a buy *)

Lemma buy_transaction_new env req price total s ty p :
  AssetType_of_string (str (buy_type req)) = Some ty →
  assets s !! uuid env = None →
  portfolios s !! buy_portfolioId req = Some p →
  let holding := {| portfolioId := buy_portfolioId req; symbol := str (buy_symbol req);
                    asset_name := or_str (buy_name req) (str (buy_symbol req));
                    asset_type := ty; quantity := num (buy_quantity req);
                    purchasePrice := price; currentPrice := price |} in
  let tx := {| tx_type := BUY; tx_quantity := num (buy_quantity req); tx_price := price;
               totalAmount := total; tx_userId := str (buy_user req);
               tx_portfolioId := buy_portfolioId req; assetId := Some (uuid env) |} in
  prisma_transaction (buy_transaction fl env req price total None) s
    = (Return {| asset := Some (uuid env, holding);
                 portfolio := decrement_cash fl total p; transaction := tx |},
       set_transactions (λ l, (l ++ [tx])%list)
         (set_portfolios (insert (buy_portfolioId req) (decrement_cash fl total p))
            (set_assets (insert (uuid env) holding) s))).
Proof.
  intros Hty Hfresh Hp holding tx.
  unfold buy_transaction. unfold_prisma. unfold_monad. by run.
Qed.

Lemma buy_transaction_merge env req price total s aid existing p :
  assets s !! aid = Some existing →
  portfolios s !! buy_portfolioId req = Some p →
  let qty := num (buy_quantity req) in
  let merged := {| portfolioId := portfolioId existing; symbol := symbol existing;
                   asset_name := asset_name existing; asset_type := asset_type existing;
                   quantity := fl (quantity existing + qty);
                   purchasePrice :=
                     fl (fl (fl (purchasePrice existing * quantity existing) + total)
                         / fl (quantity existing + qty));
                   currentPrice := price |} in
  let tx := {| tx_type := BUY; tx_quantity := qty; tx_price := price;
               totalAmount := total; tx_userId := str (buy_user req);
               tx_portfolioId := buy_portfolioId req; assetId := Some aid |} in
  prisma_transaction (buy_transaction fl env req price total (Some (aid, existing))) s
    = (Return {| asset := Some (aid, merged);
                 portfolio := decrement_cash fl total p; transaction := tx |},
       set_transactions (λ l, (l ++ [tx])%list)
         (set_portfolios (insert (buy_portfolioId req) (decrement_cash fl total p))
            (set_assets (insert aid merged) s))).
Proof.
  intros Ha Hp qty merged tx.
  unfold buy_transaction. unfold_prisma. unfold_monad. by run.
Qed.

(** A transaction that throws leaves the tables as they were; one that
    returns has debited the portfolio and logged one BUY. *)
Lemma buy_transaction_inv env req price total existing s o s' :
  prisma_transaction (buy_transaction fl env req price total existing) s = (o, s') →
  emitted s' = emitted s ∧ requests s' = requests s ∧ marketData s' = marketData s ∧
  ((∃ e, o = Throw e) ∧ same_ledger s s'
   ∨ ∃ p result,
       o = Return result
       ∧ portfolios s !! buy_portfolioId req = Some p
       ∧ portfolio result = decrement_cash fl total p
       ∧ transaction result
         = {| tx_type := BUY; tx_quantity := num (buy_quantity req); tx_price := price;
              totalAmount := total; tx_userId := str (buy_user req);
              tx_portfolioId := buy_portfolioId req;
              assetId := fst <$> asset result |}
       ∧ portfolios s' = <[buy_portfolioId req := decrement_cash fl total p]> (portfolios s)
       ∧ transactions s' = (transactions s ++ [transaction result])%list).
Proof.
  unfold buy_transaction. unfold_prisma. unfold_monad. cbn. intros H.
  repeat case_match; simplify_eq/=.
  all: split; [done|]; split; [done|]; split; [done|].
  all: try (left; split; [by eexists | by repeat split]).
  all: right; eexists _, _; by repeat split.
Qed.

(** *** Buy *)

Lemma findFirst_symbol_row (m : gmap string Asset) pid sym aid a :
  find (λ r : string * Asset, String.eqb (portfolioId r.2) pid && String.eqb (symbol r.2) sym)
    (map_to_list m) = Some (aid, a) →
  m !! aid = Some a ∧ portfolioId a = pid ∧ symbol a = sym.
Proof.
  intros H. apply find_some in H as [Hin Hb]. cbn in Hb.
  apply andb_prop in Hb as [H1 H2].
  apply String.eqb_eq in H1, H2.
  split; [|done].
  apply elem_of_map_to_list. by apply list_elem_of_In.
Qed.

(** What buyAsset does once the request is authenticated and valid and the
    portfolio is the user's. *)
Lemma buyAsset_unfold env req s p :
  truthy_str (buy_user req) = true →
  negb (truthy_str (buy_symbol req)) || negb (truthy_str (buy_type req))
    || negb (truthy (buy_quantity req)) || leb (num (buy_quantity req)) 0 = false →
  portfolios s !! buy_portfolioId req = Some p →
  userId p = str (buy_user req) →
  buyAsset parseFloat fl env req s
    = match resolve_price parseFloat env (str (buy_symbol req)) (buy_price req) s with
      | (Return (inl price), s1) =>
          let total := fl (price * num (buy_quantity req)) in
          if ltb (cash p) total then
            (Return (reply_error 400 "Insufficient cash in portfolio"), s1)
          else
            match prisma_transaction
                    (buy_transaction fl env req price total
                       (find (λ r : string * Asset,
                                String.eqb (portfolioId r.2) (buy_portfolioId req)
                                && String.eqb (symbol r.2) (str (buy_symbol req)))
                          (map_to_list (assets s1)))) s1 with
            | (Return result, s2) => (Return {| status := 200; json := TradeBody result |}, s2)
            | (Throw _, s2) => (Return (reply_error 500 "Server error buying asset"), s2)
            end
      | (Return (inr r), s1) => (Return r, s1)
      | (Throw _, s1) => (Return (reply_error 500 "Server error buying asset"), s1)
      end.
Proof.
  intros Huser Hvalid Hp Hown.
  unfold buyAsset, try_catch. rewrite Huser, Hvalid. cbn [negb].
  unfold portfolio_findFirst, asset_findFirst_symbol. unfold_monad.
  rewrite Hp, Hown, String.eqb_refl.
  destruct (resolve_price _ _ _ _ s) as [[[price|r]|e] s1]; [|done..].
  destruct (ltb (cash p) _); [done|].
  by destruct (prisma_transaction _ s1) as [[?|?] ?].
Qed.

(** The other ways out of buyAsset: a reply that is not 200, on the state as
    it was. *)
Lemma buyAsset_refused env req s :
  truthy_str (buy_user req) = false
  ∨ negb (truthy_str (buy_symbol req)) || negb (truthy_str (buy_type req))
      || negb (truthy (buy_quantity req)) || leb (num (buy_quantity req)) 0 = true
  ∨ portfolios s !! buy_portfolioId req = None
  ∨ (∃ p, portfolios s !! buy_portfolioId req = Some p ∧ userId p ≠ str (buy_user req)) →
  ∃ reply, buyAsset parseFloat fl env req s = (Return reply, s) ∧ status reply ≠ 200%Z.
Proof.
  unfold buyAsset, try_catch.
  intros [H|[H|[H|(p & Hp & H)]]].
  - rewrite H. cbn. eauto.
  - destruct (truthy_str (buy_user req)); cbn [negb]; [|cbn; by eauto].
    rewrite H. cbn. eauto.
  - destruct (truthy_str (buy_user req)); cbn [negb]; [|cbn; by eauto].
    destruct (_ || _); [cbn; by eauto|].
    unfold portfolio_findFirst. unfold_monad. rewrite H. cbn. eauto.
  - destruct (truthy_str (buy_user req)); cbn [negb]; [|cbn; by eauto].
    destruct (_ || _); [cbn; by eauto|].
    unfold portfolio_findFirst. unfold_monad. rewrite Hp.
    apply String.eqb_neq in H. rewrite H. cbn. eauto.
Qed.

(** Every run of buyAsset replies.  Either the reply is not 200 and the
    ledger is as before, or it is 200: the portfolio had the total amount in
    cash, is debited by it, and one BUY transaction is appended. *)
Lemma buyAsset_inv env req s o s' :
  buyAsset parseFloat fl env req s = (o, s') →
  ∃ reply, o = Return reply ∧ emitted s' = emitted s ∧
  ((status reply ≠ 200%Z ∧ same_ledger s s')
   ∨ ∃ p result,
       reply = {| status := 200; json := TradeBody result |}
       ∧ portfolios s !! buy_portfolioId req = Some p
       ∧ tx_type (transaction result) = BUY
       ∧ 0 < tx_quantity (transaction result)
       ∧ totalAmount (transaction result)
         = fl (tx_price (transaction result) * tx_quantity (transaction result))
       ∧ totalAmount (transaction result) ≤ cash p
       ∧ portfolio result = decrement_cash fl (totalAmount (transaction result)) p
       ∧ portfolios s' = <[buy_portfolioId req := portfolio result]> (portfolios s)
       ∧ transactions s' = (transactions s ++ [transaction result])%list).
Proof.
  intros Hrun.
  destruct (truthy_str (buy_user req)) eqn:Huser.
  2:{ destruct (buyAsset_refused env req s) as (reply & Heq & Hst); [by left|].
      rewrite Heq in Hrun. simplify_eq. exists reply. split_and!; [done..|].
      left. split; [done | apply same_ledger_refl]. }
  destruct (negb (truthy_str (buy_symbol req)) || negb (truthy_str (buy_type req))
            || negb (truthy (buy_quantity req)) || leb (num (buy_quantity req)) 0) eqn:Hvalid.
  { destruct (buyAsset_refused env req s) as (reply & Heq & Hst); [by right; left|].
    rewrite Heq in Hrun. simplify_eq. exists reply. split_and!; [done..|].
    left. split; [done | apply same_ledger_refl]. }
  destruct (portfolios s !! buy_portfolioId req) as [p|] eqn:Hp.
  2:{ destruct (buyAsset_refused env req s) as (reply & Heq & Hst); [by right; right; left|].
      rewrite Heq in Hrun. simplify_eq. exists reply. split_and!; [done..|].
      left. split; [done | apply same_ledger_refl]. }
  destruct (decide (userId p = str (buy_user req))) as [Hown|Hown].
  2:{ destruct (buyAsset_refused env req s) as (reply & Heq & Hst); [right; right; right; by eauto|].
      rewrite Heq in Hrun. simplify_eq. exists reply. split_and!; [done..|].
      left. split; [done | apply same_ledger_refl]. }
  rewrite (buyAsset_unfold env req s p Huser Hvalid Hp Hown) in Hrun.
  pose proof (resolve_price_ledger env (str (buy_symbol req)) (buy_price req) s) as Hled.
  destruct (resolve_price _ _ _ _ s) as [[[price|r]|e] s1] eqn:Hres; cbn [snd] in Hled.
  - cbn zeta in Hrun. destruct (ltb (cash p) _) eqn:Hcash.
    + simplify_eq. eexists. split_and!; [done|apply Hled|]. by left.
    + destruct (prisma_transaction _ s1) as [o2 s2] eqn:Htx.
      apply buy_transaction_inv in Htx as (He & _ & _ & Htx).
      destruct Hled as (Hps & Has & Hts & Hes).
      destruct Htx as [[[e ->] Hled2]|(p1 & result & -> & Hp1 & Hpr & Htr & Hps2 & Hts2)].
      * simplify_eq. eexists. split_and!; [done|congruence|].
        left. split; [done|]. eapply same_ledger_trans; [|done]. by repeat split.
      * simplify_eq. eexists. split_and!; [done|congruence|].
        right. exists p, result. rewrite Hps in Hp1. simplify_eq.
        rewrite Htr; cbn. apply ltb_ge in Hcash.
        apply orb_false_elim in Hvalid as [_ Hq]. apply leb_gt in Hq.
        split_and!; try done; congruence.
  - apply resolve_price_inr in Hres as ->. simplify_eq.
    eexists. split_and!; [done|apply Hled|]. by left.
  - simplify_eq. eexists. split_and!; [done|apply Hled|]. by left.
Qed.

Lemma debited_cons fl' c price qty l :
  debited fl' c ((price, qty) :: l) = debited fl' (fl' (c - fl' (price * qty))) l.
Proof. reflexivity. Qed.

(** C1, in the arithmetic of the program.  A buy of [q] at [price] (the
    price of the body, or the oracle's) into a portfolio of the user whose
    cash is not less than the total cost [fl (price × q)], with no holding of
    the symbol and a free id for the new row, is answered 200; the portfolio's
    cash becomes [fl (cash p − fl (price × q))], a holding with quantity [q],
    purchase price [price] and current price [price] is created, and exactly
    one transaction (BUY, [q], [price], [fl (price × q)]) is appended.  After
    any sequence of buys answered 200 on a portfolio, its cash is the initial
    cash debited by the total costs one after the other, each product and each
    difference rounded. *)
Theorem buy_debits_cash :
  (∀ env req s s1 p uid sym t ty q price,
     buy_user req = Some uid → uid ≠ "" →
     buy_symbol req = Some sym → sym ≠ "" →
     buy_type req = Some t → AssetType_of_string t = Some ty →
     buy_quantity req = Some q → 0 < q →
     portfolios s !! buy_portfolioId req = Some p → userId p = uid →
     resolve_price parseFloat env sym (buy_price req) s = (Return (inl price), s1) →
     fl (price * q) ≤ cash p →
     find (λ r : string * Asset, String.eqb (portfolioId r.2) (buy_portfolioId req)
                                 && String.eqb (symbol r.2) sym)
       (map_to_list (assets s)) = None →
     assets s !! uuid env = None →
     let holding := {| portfolioId := buy_portfolioId req; symbol := sym;
                       asset_name := or_str (buy_name req) sym; asset_type := ty;
                       quantity := q; purchasePrice := price; currentPrice := price |} in
     let tx := {| tx_type := BUY; tx_quantity := q; tx_price := price;
                  totalAmount := fl (price * q); tx_userId := uid;
                  tx_portfolioId := buy_portfolioId req; assetId := Some (uuid env) |} in
     ∃ p' s',
       buyAsset parseFloat fl env req s
         = (Return {| status := 200;
                      json := TradeBody {| asset := Some (uuid env, holding);
                                           portfolio := p'; transaction := tx |} |}, s')
       ∧ cash p' = fl (cash p - fl (price * q))
       ∧ portfolios s' = <[buy_portfolioId req := p']> (portfolios s)
       ∧ assets s' = <[uuid env := holding]> (assets s)
       ∧ transactions s' = (transactions s ++ [tx])%list)
  ∧ (∀ pid s l s' p,
       accepted_buys parseFloat fl pid s l s' →
       portfolios s !! pid = Some p →
       ∃ p', portfolios s' !! pid = Some p' ∧ cash p' = debited fl (cash p) l).
Proof.
  split.
  - intros env req s s1 p uid sym t ty q price Huser Huid Hsym Hsymne Htype Hty
      Hqty Hq Hp Hown Hres Hcash Hnone Hfresh holding tx.
    assert (t ≠ "") as Htne by (by intros ->).
    pose proof (resolve_price_ledger env sym (buy_price req) s) as Hled.
    rewrite Hres in Hled. destruct Hled as (Hps & Has & Hts & Hes). cbn [snd] in *.
    exists (decrement_cash fl (fl (price * q)) p). eexists.
    rewrite (buyAsset_unfold env req s p).
    + rewrite Hsym, Hqty. cbn [str num from_option id]. rewrite Hres. cbn zeta.
      apply ltb_ge in Hcash. rewrite Hcash, Has, Hnone.
      rewrite (buy_transaction_new env req price (fl (price * q)) s1 ty p).
      * rewrite Hsym, Hqty, Huser. cbn [str num from_option id]. split; [reflexivity|].
        cbn. rewrite Hps, Has, Hts. done.
      * by rewrite Htype.
      * by rewrite Has.
      * by rewrite Hps.
    + rewrite Huser. by apply truthy_str_Some.
    + rewrite Hsym, Htype, Hqty, (truthy_str_Some _ Hsymne), (truthy_str_Some _ Htne),
        (truthy_pos _ Hq). cbn. by apply leb_gt.
    + done.
    + by rewrite Huser.
  - intros pid s l s' p Hseq. revert p.
    induction Hseq as [s|env req s result s1 price qty l s2 Hpid Hbuy Hprice Hqty Hseq IH];
      intros p Hp.
    + exists p. by split.
    + apply buyAsset_inv in Hbuy as (reply & Hreply & _ & [[Hst _]|Hok]).
      { by simplify_eq. }
      destruct Hok as (p0 & result' & Heq & Hp0 & _ & _ & Htotal & _ & Hpr & Hps & _).
      simplify_eq.
      destruct (IH (portfolio result')) as (p' & Hp' & Hcash).
      { rewrite Hps. apply lookup_insert_eq. }
      exists p'. split; [done|]. rewrite Hcash, Hpr, Htotal, debited_cons.
      reflexivity.
Qed.

(** *** Sell *)

(** A full sale: the asset is deleted, the SELL row that names it violates
    the foreign key, and the transaction is rolled back. *)
Lemma sell_transaction_all req a price total s a0 p :
  eqb (quantity a) (num (sell_quantity req)) = true →
  assets s !! sell_assetId req = Some a0 →
  portfolios s !! sell_portfolioId req = Some p →
  prisma_transaction (sell_transaction fl req a price total) s
    = (Throw (PrismaError "P2003"), s).
Proof.
  intros Hall Ha Hp.
  unfold sell_transaction. unfold_prisma. unfold_monad. rewrite Hall. run.
  rewrite lookup_delete_eq. by destruct s.
Qed.

Lemma sell_transaction_part req a price total s a0 p :
  eqb (quantity a) (num (sell_quantity req)) = false →
  assets s !! sell_assetId req = Some a0 →
  portfolios s !! sell_portfolioId req = Some p →
  let rest := {| portfolioId := portfolioId a0; symbol := symbol a0;
                 asset_name := asset_name a0; asset_type := asset_type a0;
                 quantity := fl (quantity a0 - num (sell_quantity req));
                 purchasePrice := purchasePrice a0;
                 currentPrice := price |} in
  let tx := {| tx_type := SELL; tx_quantity := num (sell_quantity req); tx_price := price;
               totalAmount := total; tx_userId := str (sell_user req);
               tx_portfolioId := sell_portfolioId req;
               assetId := Some (sell_assetId req) |} in
  prisma_transaction (sell_transaction fl req a price total) s
    = (Return {| asset := Some (sell_assetId req, rest);
                 portfolio := increment_cash fl total p; transaction := tx |},
       set_transactions (λ l, (l ++ [tx])%list)
         (set_portfolios (insert (sell_portfolioId req) (increment_cash fl total p))
            (set_assets (insert (sell_assetId req) rest) s))).
Proof.
  intros Hpart Ha Hp rest tx.
  unfold sell_transaction. unfold_prisma. unfold_monad. rewrite Hpart. by run.
Qed.

Lemma sell_transaction_inv req a price total s o s' :
  prisma_transaction (sell_transaction fl req a price total) s = (o, s') →
  emitted s' = emitted s ∧ requests s' = requests s ∧ marketData s' = marketData s ∧
  ((∃ e, o = Throw e) ∧ same_ledger s s'
   ∨ ∃ p result,
       o = Return result
       ∧ portfolios s !! sell_portfolioId req = Some p
       ∧ portfolio result = increment_cash fl total p
       ∧ transaction result
         = {| tx_type := SELL; tx_quantity := num (sell_quantity req); tx_price := price;
              totalAmount := total; tx_userId := str (sell_user req);
              tx_portfolioId := sell_portfolioId req;
              assetId := Some (sell_assetId req) |}
       ∧ portfolios s' = <[sell_portfolioId req := increment_cash fl total p]> (portfolios s)
       ∧ transactions s' = (transactions s ++ [transaction result])%list).
Proof.
  unfold sell_transaction. unfold_prisma. unfold_monad. intros H.
  destruct (eqb (quantity a) _);
    destruct (assets s !! sell_assetId req) eqn:Ha; cbn in H;
    try destruct (portfolios s !! sell_portfolioId req) eqn:Hp; cbn in H;
    rewrite ?lookup_insert_eq in H; cbn in H;
    rewrite ?lookup_delete_eq, ?lookup_insert_eq in H; cbn in H;
    simplify_eq/=.
  all: split; [done|]; split; [done|]; split; [done|].
  all: try (left; split; [by eexists | by repeat split]).
  all: right; eexists _, _; by repeat split.
Qed.

(** What sellAsset does once the request is authenticated and valid, the
    portfolio is the user's and the asset is in it. *)
Lemma sellAsset_unfold env req s p a :
  truthy_str (sell_user req) = true →
  negb (truthy (sell_quantity req)) || leb (num (sell_quantity req)) 0 = false →
  portfolios s !! sell_portfolioId req = Some p →
  userId p = str (sell_user req) →
  assets s !! sell_assetId req = Some a →
  portfolioId a = sell_portfolioId req →
  sellAsset parseFloat fl env req s
    = if ltb (quantity a) (num (sell_quantity req)) then
        (Return (reply_error 400 "Insufficient asset quantity"), s)
      else
        match resolve_price parseFloat env (symbol a) (sell_price req) s with
        | (Return (inl price), s1) =>
            match prisma_transaction
                    (sell_transaction fl req a price
                       (fl (price * num (sell_quantity req)))) s1 with
            | (Return result, s2) => (Return {| status := 200; json := TradeBody result |}, s2)
            | (Throw _, s2) => (Return (reply_error 500 "Server error selling asset"), s2)
            end
        | (Return (inr r), s1) => (Return r, s1)
        | (Throw _, s1) => (Return (reply_error 500 "Server error selling asset"), s1)
        end.
Proof.
  intros Huser Hvalid Hp Hown Ha Hin.
  unfold sellAsset, try_catch. rewrite Huser, Hvalid. cbn [negb].
  unfold portfolio_findFirst, asset_findFirst_id. unfold_monad.
  rewrite Hp, Hown, String.eqb_refl, Ha, Hin, String.eqb_refl.
  destruct (ltb (quantity a) _); [done|].
  destruct (resolve_price _ _ _ _ s) as [[[price|r]|e] s1]; [|done..].
  by destruct (prisma_transaction _ s1) as [[?|?] ?].
Qed.

(** Every run of sellAsset replies.  Either the reply is not 200 and the
    ledger is as before, or it is 200: the portfolio is credited with the
    total amount and one SELL transaction is appended. *)
Lemma sellAsset_inv env req s o s' :
  sellAsset parseFloat fl env req s = (o, s') →
  ∃ reply, o = Return reply ∧ emitted s' = emitted s ∧
  ((status reply ≠ 200%Z ∧ same_ledger s s')
   ∨ ∃ p result,
       reply = {| status := 200; json := TradeBody result |}
       ∧ portfolios s !! sell_portfolioId req = Some p
       ∧ tx_type (transaction result) = SELL
       ∧ 0 < tx_quantity (transaction result)
       ∧ totalAmount (transaction result)
         = fl (tx_price (transaction result) * tx_quantity (transaction result))
       ∧ portfolio result = increment_cash fl (totalAmount (transaction result)) p
       ∧ portfolios s' = <[sell_portfolioId req := portfolio result]> (portfolios s)
       ∧ transactions s' = (transactions s ++ [transaction result])%list).
Proof.
  intros Hrun.
  assert (∀ code msg, code ≠ 200%Z →
            (Return (reply_error code msg), s) = (o, s') →
            ∃ reply, o = Return reply ∧ emitted s' = emitted s ∧
              ((status reply ≠ 200%Z ∧ same_ledger s s')
               ∨ ∃ p result,
                   reply = {| status := 200; json := TradeBody result |}
                   ∧ portfolios s !! sell_portfolioId req = Some p
                   ∧ tx_type (transaction result) = SELL
                   ∧ 0 < tx_quantity (transaction result)
                   ∧ totalAmount (transaction result)
                     = fl (tx_price (transaction result) * tx_quantity (transaction result))
                   ∧ portfolio result = increment_cash fl (totalAmount (transaction result)) p
                   ∧ portfolios s' = <[sell_portfolioId req := portfolio result]> (portfolios s)
                   ∧ transactions s' = (transactions s ++ [transaction result])%list)) as Hout.
  { intros code msg Hcode Heq. simplify_eq. eexists. split_and!; [done..|].
    left. split; [done | apply same_ledger_refl]. }
  destruct (truthy_str (sell_user req)) eqn:Huser.
  2:{ unfold sellAsset, try_catch in Hrun. rewrite Huser in Hrun.
      eapply Hout; [|exact Hrun]; done. }
  destruct (negb (truthy (sell_quantity req)) || leb (num (sell_quantity req)) 0) eqn:Hvalid.
  { unfold sellAsset, try_catch in Hrun. rewrite Huser, Hvalid in Hrun.
    eapply Hout; [|exact Hrun]; done. }
  destruct (portfolios s !! sell_portfolioId req) as [p|] eqn:Hp.
  2:{ unfold sellAsset, try_catch, portfolio_findFirst in Hrun. unfold_monad.
      rewrite Huser, Hvalid in Hrun. cbn [negb] in Hrun. rewrite Hp in Hrun.
      eapply Hout; [|exact Hrun]; done. }
  destruct (String.eqb (userId p) (str (sell_user req))) eqn:Hown.
  2:{ unfold sellAsset, try_catch, portfolio_findFirst in Hrun. unfold_monad.
      rewrite Huser, Hvalid in Hrun. cbn [negb] in Hrun. rewrite Hp, Hown in Hrun.
      eapply Hout; [|exact Hrun]; done. }
  destruct (assets s !! sell_assetId req) as [a|] eqn:Ha.
  2:{ unfold sellAsset, try_catch, portfolio_findFirst, asset_findFirst_id in Hrun.
      unfold_monad. rewrite Huser, Hvalid in Hrun. cbn [negb] in Hrun.
      rewrite Hp, Hown, Ha in Hrun. eapply Hout; [|exact Hrun]; done. }
  destruct (String.eqb (portfolioId a) (sell_portfolioId req)) eqn:Hin.
  2:{ unfold sellAsset, try_catch, portfolio_findFirst, asset_findFirst_id in Hrun.
      unfold_monad. rewrite Huser, Hvalid in Hrun. cbn [negb] in Hrun.
      rewrite Hp, Hown, Ha, Hin in Hrun. eapply Hout; [|exact Hrun]; done. }
  apply String.eqb_eq in Hown, Hin.
  rewrite (sellAsset_unfold env req s p a Huser Hvalid Hp Hown Ha Hin) in Hrun.
  destruct (ltb (quantity a) _) eqn:Hqty; [eapply Hout; [|exact Hrun]; done|].
  pose proof (resolve_price_ledger env (symbol a) (sell_price req) s) as Hled.
  destruct (resolve_price _ _ _ _ s) as [[[price|r]|e] s1] eqn:Hres; cbn [snd] in Hled.
  - destruct (prisma_transaction _ s1) as [o2 s2] eqn:Htx.
    apply sell_transaction_inv in Htx as (He & _ & _ & Htx).
    destruct Hled as (Hps & Has & Hts & Hes).
    destruct Htx as [[[e ->] Hled2]|(p1 & result & -> & Hp1 & Hpr & Htr & Hps2 & Hts2)].
    + simplify_eq. eexists. split_and!; [done|congruence|].
      left. split; [done|]. eapply same_ledger_trans; [|done]. by repeat split.
    + simplify_eq. eexists. split_and!; [done|congruence|].
      right. exists p, result. rewrite Hps in Hp1. simplify_eq.
      rewrite Htr; cbn.
      apply orb_false_elim in Hvalid as [_ Hq]. apply leb_gt in Hq.
      split_and!; try done; congruence.
  - apply resolve_price_inr in Hres as ->. simplify_eq.
    eexists. split_and!; [done|apply Hled|]. by left.
  - simplify_eq. eexists. split_and!; [done|apply Hled|]. by left.
Qed.

(** C4.  A buy of [q] at [price] into a portfolio that holds the symbol, with
    quantity [quantity existing] and average price [purchasePrice existing],
    is answered 200 with the merged holding, which is also the row stored:
    quantity [Q + q], purchase price [(A × Q + price × q) / (Q + q)], current
    price [price], every operation rounded by the arithmetic at hand.  Buying
    10 at 100 and then 10 at 200 of one symbol leaves a holding of 20 at the
    average 150, in the arithmetic of the reals and in double precision. *)
Theorem buy_merges_holding :
  (∀ env req s s1 p uid sym t q price aid existing,
     buy_user req = Some uid → uid ≠ "" →
     buy_symbol req = Some sym → sym ≠ "" →
     buy_type req = Some t → t ≠ "" →
     buy_quantity req = Some q → 0 < q →
     portfolios s !! buy_portfolioId req = Some p → userId p = uid →
     resolve_price parseFloat env sym (buy_price req) s = (Return (inl price), s1) →
     fl (price * q) ≤ cash p →
     find (λ r : string * Asset, String.eqb (portfolioId r.2) (buy_portfolioId req)
                                 && String.eqb (symbol r.2) sym)
       (map_to_list (assets s)) = Some (aid, existing) →
     ∃ merged p' tx s',
       buyAsset parseFloat fl env req s
         = (Return {| status := 200;
                      json := TradeBody {| asset := Some (aid, merged);
                                           portfolio := p'; transaction := tx |} |}, s')
       ∧ assets s' = <[aid := merged]> (assets s)
       ∧ symbol merged = sym
       ∧ quantity merged = fl (quantity existing + q)
       ∧ purchasePrice merged
         = fl (fl (fl (purchasePrice existing * quantity existing) + fl (price * q))
               / fl (quantity existing + q))
       ∧ currentPrice merged = price)
  ∧ (∃ a,
       assets (buyAsset parseFloat unrounded env_up (buy_xyz 10 200)
                 (buyAsset parseFloat unrounded env_up (buy_xyz 10 100) state_5000).2).2
         !! "a1" = Some a
       ∧ symbol a = "XYZ"
       ∧ purchasePrice a = Qc_of_Z 150
       ∧ quantity a = Qc_of_Z 20
       ∧ currentPrice a = Qc_of_Z 200)
  ∧ (∃ a,
       assets (buyAsset parseFloat fl64 env_up (buy_xyz 10 200)
                 (buyAsset parseFloat fl64 env_up (buy_xyz 10 100) state_5000).2).2
         !! "a1" = Some a
       ∧ symbol a = "XYZ"
       ∧ purchasePrice a = Qc_of_Z 150
       ∧ quantity a = Qc_of_Z 20
       ∧ currentPrice a = Qc_of_Z 200).
Proof.
  split_and!.
  - intros env req s s1 p uid sym t q price aid existing Huser Huid Hsym Hsymne
      Htype Htne Hqty Hq Hp Hown Hres Hcash Hfound.
    pose proof (resolve_price_ledger env sym (buy_price req) s) as Hled.
    rewrite Hres in Hled. destruct Hled as (Hps & Has & Hts & Hes). cbn [snd] in *.
    apply findFirst_symbol_row in Hfound as Hrow. destruct Hrow as (Ha & _ & Hsy).
    eexists _, _, _, _.
    rewrite (buyAsset_unfold env req s p).
    + rewrite Hsym, Hqty. cbn [str num from_option id]. rewrite Hres. cbn zeta.
      apply ltb_ge in Hcash. rewrite Hcash, Has, Hfound.
      rewrite (buy_transaction_merge env req price (fl (price * q)) s1 aid existing p).
      * rewrite Hqty. cbn [str num from_option id]. split; [reflexivity|].
        cbn. by rewrite Has.
      * by rewrite Has.
      * by rewrite Hps.
    + rewrite Huser. by apply truthy_str_Some.
    + rewrite Hsym, Htype, Hqty, (truthy_str_Some _ Hsymne), (truthy_str_Some _ Htne),
        (truthy_pos _ Hq). cbn. by apply leb_gt.
    + done.
    + by rewrite Huser.
  - eexists. split; [vm_compute; reflexivity|].
    split_and!; [reflexivity | by apply Qc_is_canon..].
  - eexists. split; [vm_compute; reflexivity|].
    split_and!; [reflexivity | by apply Qc_is_canon..].
Qed.

(** C2, in the arithmetic of the program.  A buy whose portfolio has less
    cash than the total cost, the product price × quantity as the program
    computes it, is answered 400 `Insufficient cash in portfolio'; portfolios,
    holdings and transactions are as before (the state is the one price
    resolution left, which is the initial state when the body carries the
    price).  A sell of more than the holding's quantity is answered 400
    `Insufficient asset quantity' and the state is unchanged. *)
Theorem insufficient_means_untouched :
  (∀ env req s s1 p uid sym t q price,
     buy_user req = Some uid → uid ≠ "" →
     buy_symbol req = Some sym → sym ≠ "" →
     buy_type req = Some t → t ≠ "" →
     buy_quantity req = Some q → 0 < q →
     portfolios s !! buy_portfolioId req = Some p → userId p = uid →
     resolve_price parseFloat env sym (buy_price req) s = (Return (inl price), s1) →
     cash p < fl (price * q) →
     buyAsset parseFloat fl env req s
       = (Return (reply_error 400 "Insufficient cash in portfolio"), s1)
     ∧ portfolios s1 = portfolios s ∧ assets s1 = assets s
     ∧ transactions s1 = transactions s
     ∧ (truthy (buy_price req) = true → s1 = s))
  ∧ (∀ env req s p uid a q,
       sell_user req = Some uid → uid ≠ "" →
       sell_quantity req = Some q → 0 < q →
       portfolios s !! sell_portfolioId req = Some p → userId p = uid →
       assets s !! sell_assetId req = Some a →
       portfolioId a = sell_portfolioId req →
       quantity a < q →
       sellAsset parseFloat fl env req s
         = (Return (reply_error 400 "Insufficient asset quantity"), s)).
Proof.
  split.
  - intros env req s s1 p uid sym t q price Huser Huid Hsym Hsymne Htype Htne
      Hqty Hq Hp Hown Hres Hcash.
    pose proof (resolve_price_ledger env sym (buy_price req) s) as Hled.
    rewrite Hres in Hled. destruct Hled as (Hps & Has & Hts & Hes). cbn [snd] in *.
    split_and!; try done.
    + rewrite (buyAsset_unfold env req s p).
      * rewrite Hsym, Hqty. cbn [str num from_option id]. rewrite Hres. cbn zeta.
        apply ltb_lt in Hcash. by rewrite Hcash.
      * rewrite Huser. by apply truthy_str_Some.
      * rewrite Hsym, Htype, Hqty, (truthy_str_Some _ Hsymne), (truthy_str_Some _ Htne),
          (truthy_pos _ Hq). cbn. by apply leb_gt.
      * done.
      * by rewrite Huser.
    + intros Hexplicit. unfold resolve_price in Hres. rewrite Hexplicit in Hres.
      unfold_monad. by simplify_eq.
  - intros env req s p uid a q Huser Huid Hqty Hq Hp Hown Ha Hin Hless.
    rewrite (sellAsset_unfold env req s p a); try done.
    + rewrite Hqty. cbn [num from_option id]. apply ltb_lt in Hless. by rewrite Hless.
    + rewrite Huser. by apply truthy_str_Some.
    + rewrite Hqty, (truthy_pos _ Hq). cbn. by apply leb_gt.
    + by rewrite Huser.
Qed.

(** C3.  A sell of [q] at [price] (the price of the body, or the oracle's)
    against a holding of quantity [Q ≥ q].  When [q < Q] it is answered 200:
    the portfolio's cash grows by the total amount [fl (price × q)], exactly
    one transaction (SELL, [q], [price], [fl (price × q)]) is appended, and
    the row and the reply carry quantity [fl (Q − q)] and current price
    [price].  When [q = Q] the holding is not deleted, no cash is credited and
    no transaction is appended: the SELL row names the asset that the
    transaction has just deleted, the foreign key fails, the transaction is
    rolled back and the sale is answered 500. *)
Theorem sell_credits_cash env req s s1 p uid a q price :
  sell_user req = Some uid → uid ≠ "" →
  sell_quantity req = Some q → 0 < q →
  portfolios s !! sell_portfolioId req = Some p → userId p = uid →
  assets s !! sell_assetId req = Some a →
  portfolioId a = sell_portfolioId req →
  q ≤ quantity a →
  resolve_price parseFloat env (symbol a) (sell_price req) s = (Return (inl price), s1) →
  let tx := {| tx_type := SELL; tx_quantity := q; tx_price := price;
               totalAmount := fl (price * q); tx_userId := uid;
               tx_portfolioId := sell_portfolioId req;
               assetId := Some (sell_assetId req) |} in
  (q < quantity a →
   ∃ holding p' s',
     sellAsset parseFloat fl env req s
       = (Return {| status := 200;
                    json := TradeBody {| asset := Some (sell_assetId req, holding);
                                         portfolio := p'; transaction := tx |} |}, s')
     ∧ cash p' = fl (cash p + fl (price * q))
     ∧ portfolios s' = <[sell_portfolioId req := p']> (portfolios s)
     ∧ transactions s' = (transactions s ++ [tx])%list
     ∧ assets s' = <[sell_assetId req := holding]> (assets s)
     ∧ holding = {| portfolioId := portfolioId a; symbol := symbol a;
                    asset_name := asset_name a; asset_type := asset_type a;
                    quantity := fl (quantity a - q); purchasePrice := purchasePrice a;
                    currentPrice := price |})
  ∧ (q = quantity a →
     sellAsset parseFloat fl env req s
       = (Return (reply_error 500 "Server error selling asset"), s1)
     ∧ portfolios s1 = portfolios s ∧ assets s1 = assets s
     ∧ transactions s1 = transactions s).
Proof.
  intros Huser Huid Hqty Hq Hp Hown Ha Hin Hle Hres tx.
  pose proof (resolve_price_ledger env (symbol a) (sell_price req) s) as Hled.
  rewrite Hres in Hled. destruct Hled as (Hps & Has & Hts & Hes). cbn [snd] in *.
  assert (truthy_str (sell_user req) = true) as Hu
    by (rewrite Huser; by apply truthy_str_Some).
  assert (negb (truthy (sell_quantity req)) || leb (num (sell_quantity req)) 0 = false) as Hv.
  { rewrite Hqty, (truthy_pos _ Hq). cbn. by apply leb_gt. }
  assert (userId p = str (sell_user req)) as Ho by (by rewrite Huser).
  rewrite (sellAsset_unfold env req s p a Hu Hv Hp Ho Ha Hin).
  rewrite Hqty. cbn [num from_option id].
  apply ltb_ge in Hle as Hnot. rewrite Hnot, Hres.
  split.
  - intros Hlt.
    assert (eqb (quantity a) q = false) as Hpart.
    { apply eqb_neq. intros Heq. rewrite Heq in Hlt. by apply Qclt_not_eq in Hlt. }
    eexists _, _, _.
    rewrite (sell_transaction_part req a price (fl (price * q)) s1 a p);
      [| by rewrite Hqty | by rewrite Has | by rewrite Hps].
    rewrite Hqty, Huser. cbn [str num from_option id]. split; [reflexivity|].
    cbn. rewrite Hps, Has, Hts. by split_and!.
  - intros Heq.
    assert (eqb (quantity a) q = true) as Hall by (by apply eqb_eq).
    rewrite (sell_transaction_all req a price (fl (price * q)) s1 a p);
      [| by rewrite Hqty | by rewrite Has | by rewrite Hps].
    by split_and!.
Qed.

(** C10.  A buy or a sell whose body carries the price 0 is the buy or sell
    with no price in the body: same reply, same final state.  The price is
    then the oracle's: what getMarketPrice returns, or, when it throws, the
    reply 400 `Could not retrieve market price. Please provide a price.',
    which is then the reply of the buy and of the sell. *)
Theorem zero_price_is_no_price :
  (∀ env req s,
     buyAsset parseFloat fl env (buy_with_price (Some 0) req) s
     = buyAsset parseFloat fl env (buy_with_price None req) s)
  ∧ (∀ env req s,
       sellAsset parseFloat fl env (sell_with_price (Some 0) req) s
       = sellAsset parseFloat fl env (sell_with_price None req) s)
  ∧ (∀ env sym s,
       resolve_price parseFloat env sym (Some 0) s
       = match getMarketPrice parseFloat env sym s with
         | (Return price, s') => (Return (inl price), s')
         | (Throw _, s') =>
             (Return (inr (reply_error 400
                             "Could not retrieve market price. Please provide a price.")), s')
         end)
  ∧ (∀ env req s p uid sym t q e s1,
       buy_user req = Some uid → uid ≠ "" →
       buy_symbol req = Some sym → sym ≠ "" →
       buy_type req = Some t → t ≠ "" →
       buy_quantity req = Some q → 0 < q →
       portfolios s !! buy_portfolioId req = Some p → userId p = uid →
       buy_price req = Some 0 →
       getMarketPrice parseFloat env sym s = (Throw e, s1) →
       buyAsset parseFloat fl env req s
       = (Return (reply_error 400
                    "Could not retrieve market price. Please provide a price."), s1))
  ∧ (∀ env req s p uid a q e s1,
       sell_user req = Some uid → uid ≠ "" →
       sell_quantity req = Some q → 0 < q →
       portfolios s !! sell_portfolioId req = Some p → userId p = uid →
       assets s !! sell_assetId req = Some a →
       portfolioId a = sell_portfolioId req →
       q ≤ quantity a →
       sell_price req = Some 0 →
       getMarketPrice parseFloat env (symbol a) s = (Throw e, s1) →
       sellAsset parseFloat fl env req s
       = (Return (reply_error 400
                    "Could not retrieve market price. Please provide a price."), s1)).
Proof.
  split_and!.
  - intros env req s. unfold buyAsset.
    cbn [buy_with_price buy_price buy_user buy_symbol buy_type buy_quantity
         buy_portfolioId buy_name].
    by rewrite resolve_price_zero.
  - intros env req s. unfold sellAsset.
    cbn [sell_with_price sell_price sell_user sell_quantity sell_portfolioId
         sell_assetId].
    unfold resolve_price. by rewrite truthy_zero.
  - intros env sym s. rewrite resolve_price_zero. unfold resolve_price. cbn [truthy].
    unfold_monad. by destruct (getMarketPrice parseFloat env sym s) as [[?|?] ?].
  - intros env req s p uid sym t q e s1 Huser Huid Hsym Hsymne Htype Htne Hqty Hq
      Hp Hown Hzero Hget.
    rewrite (buyAsset_unfold env req s p).
    + rewrite Hsym, Hzero. cbn [str from_option id].
      by rewrite (resolve_price_unavailable env sym (Some 0) s e s1).
    + rewrite Huser. by apply truthy_str_Some.
    + rewrite Hsym, Htype, Hqty, (truthy_str_Some _ Hsymne), (truthy_str_Some _ Htne),
        (truthy_pos _ Hq). cbn. by apply leb_gt.
    + done.
    + by rewrite Huser.
  - intros env req s p uid a q e s1 Huser Huid Hqty Hq Hp Hown Ha Hin Hle Hzero Hget.
    rewrite (sellAsset_unfold env req s p a); try done.
    + rewrite Hqty, Hzero. cbn [num from_option id].
      apply ltb_ge in Hle. rewrite Hle.
      by rewrite (resolve_price_unavailable env (symbol a) (Some 0) s e s1).
    + rewrite Huser. by apply truthy_str_Some.
    + rewrite Hqty, (truthy_pos _ Hq). cbn. by apply leb_gt.
    + by rewrite Huser.
Qed.

End Ledger.


(** *** Runs of the ledger *)

Lemma buy_debits_cash_witness :
  (∃ p' s',
     buyAsset parseDecimal fl64 env_up (buy_xyz 5 20) state_200
       = (Return {| status := 200;
                    json := TradeBody
                      {| asset := Some ("a1", holding_xyz); portfolio := p';
                         transaction :=
                           {| tx_type := BUY; tx_quantity := Qc_of_Z 5;
                              tx_price := Qc_of_Z 20;
                              totalAmount := fl64 (Qc_of_Z 20 * Qc_of_Z 5);
                              tx_userId := "u1"; tx_portfolioId := "p1";
                              assetId := Some "a1" |} |} |}, s')
     ∧ cash p' = Qc_of_Z 100
     ∧ portfolios s' !! "p1" = Some p'
     ∧ assets s' !! "a1" = Some holding_xyz
     ∧ length (transactions s') = 1%nat)
  ∧ (∃ p', portfolios (buyAsset parseDecimal fl64 env_up (buy_xyz 5 20) state_200).2 !! "p1"
           = Some p'
           ∧ cash p' = debited fl64 (Qc_of_Z 200) [(Qc_of_Z 20, Qc_of_Z 5)]).
Proof.
  split.
  - destruct (proj1 (buy_debits_cash parseDecimal fl64) env_up (buy_xyz 5 20) state_200
                state_200 portfolio_200 "u1" "XYZ" "STOCK" STOCK (Qc_of_Z 5) (Qc_of_Z 20))
      as (p' & s' & Hrun & Hcash & Hps & Has & Hts);
      [reflexivity | discriminate | reflexivity | discriminate | reflexivity
      | reflexivity | reflexivity | reflexivity | reflexivity | reflexivity
      | reflexivity | by vm_compute | reflexivity | reflexivity |].
    exists p', s'. split; [exact Hrun|]. split_and!.
    + rewrite Hcash. apply Qc_is_canon. by vm_compute.
    + rewrite Hps. apply lookup_insert_eq.
    + rewrite Has. apply lookup_insert_eq.
    + by rewrite Hts.
  - apply (proj2 (buy_debits_cash parseDecimal fl64) "p1" state_200
             [(Qc_of_Z 20, Qc_of_Z 5)] _ portfolio_200); [|reflexivity].
    eapply (accepted_cons parseDecimal fl64 "p1" env_up (buy_xyz 5 20));
      [reflexivity | vm_compute; reflexivity | reflexivity | reflexivity|].
    apply accepted_nil.
Defined.

(** C1, the claim as written fails in the arithmetic of the program.  From a
    cash of 1, three buys of 1 XYZ at 0.1 are each answered 200 and leave
    0.7000000000000001: this is neither 1 minus the sum of the three
    products, nor what the program itself computes for 1 − (0.1 + 0.1 + 0.1),
    which is 0.7. *)
Lemma three_buys_do_not_debit_the_sum :
  let tenth := double 1 10 in
  let l := [(tenth, 1); (tenth, 1); (tenth, 1)] in
  ∃ s' p',
    accepted_buys parseDouble fl64 "p1" (state_with 1) l s'
    ∧ portfolios s' !! "p1" = Some p'
    ∧ cash p' = Q2Qc (6305039478318695 # 9007199254740992)
    ∧ cash p' ≠ 1 - spent l
    ∧ cash p' ≠ fl64 (1 - fl64 (fl64 (tenth + tenth) + tenth))
    ∧ fl64 (1 - fl64 (fl64 (tenth + tenth) + tenth)) = double 7 10.
Proof.
  intros tenth l.
  eexists _, _. split_and!.
  - eapply (accepted_cons parseDouble fl64 "p1" env_up (buy_xyz_at 1 tenth));
      [reflexivity | vm_compute; reflexivity | reflexivity | reflexivity|].
    eapply (accepted_cons parseDouble fl64 "p1" env_up (buy_xyz_at 1 tenth));
      [reflexivity | vm_compute; reflexivity | reflexivity | reflexivity|].
    eapply (accepted_cons parseDouble fl64 "p1" env_up (buy_xyz_at 1 tenth));
      [reflexivity | vm_compute; reflexivity | reflexivity | reflexivity|].
    apply accepted_nil.
  - vm_compute. reflexivity.
  - apply Qc_is_canon. by vm_compute.
  - intros H. apply (f_equal this) in H. vm_compute in H. discriminate H.
  - intros H. apply (f_equal this) in H. vm_compute in H. discriminate H.
  - apply Qc_is_canon. by vm_compute.
Qed.

Lemma buy_merges_holding_witness :
  ∃ merged p' tx s',
    buyAsset parseDecimal fl64 env_up (buy_xyz 5 10) state_held
      = (Return {| status := 200;
                   json := TradeBody {| asset := Some ("a1", merged);
                                        portfolio := p'; transaction := tx |} |}, s')
    ∧ assets s' !! "a1" = Some merged
    ∧ quantity merged = Qc_of_Z 10
    ∧ purchasePrice merged = Qc_of_Z 15
    ∧ currentPrice merged = Qc_of_Z 10.
Proof.
  destruct (proj1 (buy_merges_holding parseDecimal fl64) env_up (buy_xyz 5 10) state_held state_held
              portfolio_100 "u1" "XYZ" "STOCK" (Qc_of_Z 5) (Qc_of_Z 10) "a1" holding_xyz)
    as (merged & p' & tx & s' & Hrun & Has & _ & Hq & Havg & Hcur);
    [reflexivity | discriminate | reflexivity | discriminate | reflexivity
    | discriminate | reflexivity | reflexivity | reflexivity | reflexivity
    | reflexivity | by vm_compute | reflexivity |].
  exists merged, p', tx, s'. split; [exact Hrun|]. split_and!.
  - rewrite Has. apply lookup_insert_eq.
  - rewrite Hq. apply Qc_is_canon. by vm_compute.
  - rewrite Havg. apply Qc_is_canon. by vm_compute.
  - exact Hcur.
Defined.

Lemma insufficient_means_untouched_witness :
  buyAsset parseDecimal fl64 env_up (buy_xyz 15 20) state_held
    = (Return (reply_error 400 "Insufficient cash in portfolio"), state_held)
  ∧ sellAsset parseDecimal fl64 env_up (sell_a1 6 25) state_held
    = (Return (reply_error 400 "Insufficient asset quantity"), state_held).
Proof.
  split.
  - apply (proj1 (insufficient_means_untouched parseDecimal fl64) env_up (buy_xyz 15 20)
             state_held state_held portfolio_100 "u1" "XYZ" "STOCK"
             (Qc_of_Z 15) (Qc_of_Z 20));
      [reflexivity | discriminate | reflexivity | discriminate | reflexivity
      | discriminate | reflexivity | reflexivity | reflexivity | reflexivity
      | reflexivity | by vm_compute].
  - apply (proj2 (insufficient_means_untouched parseDecimal fl64) env_up (sell_a1 6 25)
             state_held portfolio_100 "u1" holding_xyz (Qc_of_Z 6));
      [reflexivity | discriminate | reflexivity | reflexivity | reflexivity
      | reflexivity | reflexivity | reflexivity | reflexivity].
Defined.

(** C2, the claim as written fails in the arithmetic of the program.  The
    portfolio's cash is 2.0999999999999996, the request is to buy 3 XYZ at
    0.7: the cash is less than price × quantity, yet the buy is answered 200
    and committed, for the program computes 0.7 × 3 as 2.0999999999999996. *)
Lemma buy_commits_below_the_exact_cost :
  let price := double 7 10 in
  let c := Q2Qc (1182194902184755 # 562949953421312) in
  ∃ result s' p',
    c < price * Qc_of_Z 3
    ∧ fl64 (price * Qc_of_Z 3) = c
    ∧ buyAsset parseDouble fl64 env_up (buy_xyz_at (Qc_of_Z 3) price) (state_with c)
      = (Return {| status := 200; json := TradeBody result |}, s')
    ∧ portfolios s' !! "p1" = Some p'
    ∧ cash p' = 0
    ∧ length (transactions s') = 1%nat.
Proof.
  intros price c. eexists _, _, _. split_and!.
  - by vm_compute.
  - apply Qc_is_canon. by vm_compute.
  - vm_compute. reflexivity.
  - vm_compute. reflexivity.
  - apply Qc_is_canon. by vm_compute.
  - reflexivity.
Qed.

Lemma sell_credits_cash_witness :
  (∃ holding p' s',
     sellAsset parseDecimal fl64 env_up (sell_a1 2 25) state_held
       = (Return {| status := 200;
                    json := TradeBody
                      {| asset := Some ("a1", holding); portfolio := p';
                         transaction :=
                           {| tx_type := SELL; tx_quantity := Qc_of_Z 2;
                              tx_price := Qc_of_Z 25;
                              totalAmount := fl64 (Qc_of_Z 25 * Qc_of_Z 2);
                              tx_userId := "u1"; tx_portfolioId := "p1";
                              assetId := Some "a1" |} |} |}, s')
     ∧ cash p' = Qc_of_Z 150
     ∧ assets s' !! "a1" = Some holding
     ∧ quantity holding = Qc_of_Z 3
     ∧ currentPrice holding = Qc_of_Z 25)
  ∧ sellAsset parseDecimal fl64 env_up (sell_a1 5 25) state_held
    = (Return (reply_error 500 "Server error selling asset"), state_held).
Proof.
  split.
  - destruct (proj1 (sell_credits_cash parseDecimal fl64 env_up (sell_a1 2 25) state_held
                       state_held portfolio_100 "u1" holding_xyz (Qc_of_Z 2) (Qc_of_Z 25)
                       eq_refl ltac:(discriminate) eq_refl eq_refl eq_refl eq_refl eq_refl
                       eq_refl ltac:(by vm_compute) eq_refl))
      as (holding & p' & s' & Hrun & Hcash & _ & _ & Has & Hh); [reflexivity|].
    exists holding, p', s'. split; [exact Hrun|]. split_and!.
    + rewrite Hcash. apply Qc_is_canon. by vm_compute.
    + rewrite Has. apply lookup_insert_eq.
    + rewrite Hh. apply Qc_is_canon. by vm_compute.
    + by rewrite Hh.
  - apply (proj2 (sell_credits_cash parseDecimal fl64 env_up (sell_a1 5 25) state_held
                    state_held portfolio_100 "u1" holding_xyz (Qc_of_Z 5) (Qc_of_Z 25)
                    eq_refl ltac:(discriminate) eq_refl eq_refl eq_refl eq_refl eq_refl
                    eq_refl ltac:(by vm_compute) eq_refl)).
    reflexivity.
Defined.

Lemma zero_price_is_no_price_witness :
  buyAsset parseDecimal fl64 env_down (buy_with_price (Some 0) (buy_xyz 5 20)) state_200
    = (Return (reply_error 400 "Could not retrieve market price. Please provide a price."),
       set_requests (λ _, ["XYZ"]) state_200)
  ∧ sellAsset parseDecimal fl64 env_down (sell_with_price (Some 0) (sell_a1 5 25)) state_held
    = (Return (reply_error 400 "Could not retrieve market price. Please provide a price."),
       set_requests (λ _, ["XYZ"]) state_held).
Proof.
  split.
  - apply (proj1 (proj2 (proj2 (proj2 (zero_price_is_no_price parseDecimal fl64)))) env_down
             (buy_with_price (Some 0) (buy_xyz 5 20)) state_200 portfolio_200
             "u1" "XYZ" "STOCK" (Qc_of_Z 5) AxiosError);
      [reflexivity | discriminate | reflexivity | discriminate | reflexivity
      | discriminate | reflexivity | reflexivity | reflexivity | reflexivity
      | reflexivity | reflexivity].
  - apply (proj2 (proj2 (proj2 (proj2 (zero_price_is_no_price parseDecimal fl64)))) env_down
             (sell_with_price (Some 0) (sell_a1 5 25)) state_held portfolio_100
             "u1" holding_xyz (Qc_of_Z 5) AxiosError);
      [reflexivity | discriminate | reflexivity | reflexivity | reflexivity
      | reflexivity | reflexivity | reflexivity | by vm_compute | reflexivity
      | reflexivity].
Defined.

(** ** The cash invariant *)

Lemma createPortfolio_inv env req s o s' :
  createPortfolio env req s = (o, s') →
  ∃ reply, o = Return reply ∧ emitted s' = emitted s ∧
  (portfolios s' = portfolios s
   ∨ ∃ p, portfolios s !! uuid env = None
          ∧ portfolios s' = <[uuid env := p]> (portfolios s)
          ∧ cash p = if truthy (create_cash req) then num (create_cash req) else 0).
Proof.
  unfold createPortfolio. unfold_prisma. unfold_monad. cbn. intros H.
  repeat case_match; simplify_eq/=; foreign_keys;
    eexists; (split; [done|]); (split; [done|]);
    first [by left | right; eexists; by split_and!].
Qed.

Lemma addCashToPortfolio_inv fl env req s o s' :
  addCashToPortfolio fl env req s = (o, s') →
  ∃ reply, o = Return reply ∧ emitted s' = emitted s ∧
  (portfolios s' = portfolios s
   ∨ ∃ p p', portfolios s !! cash_portfolioId req = Some p
             ∧ 0 < num (cash_amount req)
             ∧ portfolios s' = <[cash_portfolioId req := p']> (portfolios s)
             ∧ cash p' = fl (cash p + num (cash_amount req))).
Proof.
  unfold addCashToPortfolio. unfold_prisma. unfold_monad. cbn. intros H.
  repeat case_match; simplify_eq/=; foreign_keys;
    eexists; (split; [done|]); (split; [done|]); first [by left | right].
  eexists _, _. split_and!; [done| |done..].
  match goal with H : _ || _ = false |- _ => apply orb_false_elim in H as [_ H] end.
  by apply leb_gt.
Qed.

Lemma withdrawCashFromPortfolio_inv fl env req s o s' :
  withdrawCashFromPortfolio fl env req s = (o, s') →
  ∃ reply, o = Return reply ∧ emitted s' = emitted s ∧
  ((status reply ≠ 200%Z ∧ portfolios s' = portfolios s)
   ∨ ∃ p p', status reply = 200%Z
             ∧ portfolios s !! cash_portfolioId req = Some p
             ∧ num (cash_amount req) ≤ cash p
             ∧ portfolios s' = <[cash_portfolioId req := p']> (portfolios s)
             ∧ cash p' = fl (cash p - num (cash_amount req))).
Proof.
  unfold withdrawCashFromPortfolio. unfold_prisma. unfold_monad. cbn. intros H.
  repeat case_match; simplify_eq/=; foreign_keys;
    eexists; (split; [done|]); (split; [done|]); first [by left | right].
  eexists _, _. split_and!; [done|done| |done..].
  by apply ltb_ge.
Qed.

Lemma cash_nonneg_insert s s' id p :
  cash_nonneg s → 0 ≤ cash p →
  portfolios s' = <[id := p]> (portfolios s) →
  cash_nonneg s'.
Proof.
  unfold cash_nonneg. intros Hs Hp ->. by apply map_Forall_insert_2.
Qed.

Lemma cash_nonneg_same s s' :
  cash_nonneg s → portfolios s' = portfolios s → cash_nonneg s'.
Proof. unfold cash_nonneg. by intros Hs ->. Qed.

Lemma Qcle_minus_nonneg (a b : number) : a ≤ b → 0 ≤ b - a.
Proof.
  intros H. apply (Qcplus_le_mono_r _ _ a). by replace (b - a + a) with b by ring;
    rewrite Qcplus_0_l.
Qed.

Section Invariant.

Context (parseFloat : string → number) (fl : number → number).

(** C5, as the code has it.  From a state where every portfolio's cash is
    at least 0, each of the five operations replies, and every portfolio's
    cash is at least 0 afterwards, provided that no negative amount was
    brought in (a creation with initial cash at least 0 or none, a sell at a
    price at least 0); the rounding of the arithmetic is only asked to keep
    what is at least 0 at least 0.  A buy is answered 200 only if the
    portfolio's cash covered the total, a withdrawal only if it covered the
    amount. *)
Theorem cash_stays_nonnegative :
  (∀ env op s,
     (∀ x, 0 ≤ x → 0 ≤ fl x) →
     cash_nonneg s →
     ∃ reply s',
       route parseFloat fl env op s = (Return reply, s')
       ∧ (no_negative_amount op reply → cash_nonneg s'))
  ∧ (∀ env req s result s',
       buyAsset parseFloat fl env req s
         = (Return {| status := 200; json := TradeBody result |}, s') →
       ∃ p, portfolios s !! buy_portfolioId req = Some p
            ∧ totalAmount (transaction result) ≤ cash p)
  ∧ (∀ env req s body s',
       withdrawCashFromPortfolio fl env req s
         = (Return {| status := 200; json := body |}, s') →
       ∃ p, portfolios s !! cash_portfolioId req = Some p
            ∧ num (cash_amount req) ≤ cash p).
Proof.
  split_and!.
  - intros env op s Hfl Hs.
    destruct (route parseFloat fl env op s) as [o s'] eqn:Hrun.
    destruct op as [req|req|req|req|req]; cbn [route no_negative_amount] in *.
    + apply createPortfolio_inv in Hrun as (reply & -> & _ & [Hsame|(p & _ & Hps & Hcash)]);
        exists reply, s'; (split; [done|]); intros Hok.
      * by eapply cash_nonneg_same.
      * eapply cash_nonneg_insert; [done| |done]. rewrite Hcash. by case_match.
    + apply addCashToPortfolio_inv in Hrun
        as (reply & -> & _ & [Hsame|(p & p' & Hp & Hpos & Hps & Hcash)]);
        exists reply, s'; (split; [done|]); intros _.
      * by eapply cash_nonneg_same.
      * eapply cash_nonneg_insert; [done| |done]. rewrite Hcash. apply Hfl.
        apply Qcplus_nonneg_nonneg; [by apply (Hs _ _ Hp) | by apply Qclt_le_weak].
    + apply withdrawCashFromPortfolio_inv in Hrun
        as (reply & -> & _ & [[_ Hsame]|(p & p' & _ & Hp & Hle & Hps & Hcash)]);
        exists reply, s'; (split; [done|]); intros _.
      * by eapply cash_nonneg_same.
      * eapply cash_nonneg_insert; [done| |done]. rewrite Hcash. apply Hfl.
        by apply Qcle_minus_nonneg.
    + apply buyAsset_inv in Hrun as (reply & -> & _ & [[_ Hled]|Hok]);
        exists reply, s'; (split; [done|]); intros _.
      * eapply cash_nonneg_same; [done|]. apply Hled.
      * destruct Hok as (p & result & _ & Hp & _ & _ & _ & Hle & Hpr & Hps & _).
        eapply cash_nonneg_insert; [done| |done]. rewrite Hpr. cbn. apply Hfl.
        by apply Qcle_minus_nonneg.
    + apply sellAsset_inv in Hrun as (reply & -> & _ & [[_ Hled]|Hok]);
        exists reply, s'; (split; [done|]); intros Hprice.
      * eapply cash_nonneg_same; [done|]. apply Hled.
      * destruct Hok as (p & result & -> & Hp & _ & Hq & Htotal & Hpr & Hps & _).
        eapply cash_nonneg_insert; [done| |done]. rewrite Hpr, Htotal. cbn. apply Hfl.
        apply Qcplus_nonneg_nonneg; [by apply (Hs _ _ Hp)|]. apply Hfl.
        apply Qcmult_nonneg_nonneg; [by apply Hprice | by apply Qclt_le_weak].
  - intros env req s result s' Hrun.
    apply buyAsset_inv in Hrun as (reply & Heq & _ & [[Hst _]|Hok]); [by simplify_eq|].
    destruct Hok as (p & result' & ? & Hp & _ & _ & _ & Hle & _). simplify_eq. eauto.
  - intros env req s body s' Hrun.
    apply withdrawCashFromPortfolio_inv in Hrun
      as (reply & Heq & _ & [[Hst _]|(p & p' & _ & Hp & Hle & _)]); [by simplify_eq|].
    eauto.
Qed.

(** C8, as the code has it.  buyAsset and sellAsset emit nothing on the
    sockets, whatever their reply: no call of the broadcaster is in them. *)
Theorem trades_emit_nothing :
  (∀ env req s, emitted (buyAsset parseFloat fl env req s).2 = emitted s)
  ∧ (∀ env req s, emitted (sellAsset parseFloat fl env req s).2 = emitted s).
Proof.
  split.
  - intros env req s. destruct (buyAsset parseFloat fl env req s) as [o s'] eqn:Hrun.
    by apply buyAsset_inv in Hrun as (_ & _ & He & _).
  - intros env req s. destruct (sellAsset parseFloat fl env req s) as [o s'] eqn:Hrun.
    by apply sellAsset_inv in Hrun as (_ & _ & He & _).
Qed.

End Invariant.

(** *** Runs of the cash operations *)

Lemma cash_nonneg_state_held : cash_nonneg state_held.
Proof.
  apply map_Forall_insert_2; [by vm_compute | apply map_Forall_empty].
Qed.

(** Rounding to the nearest double keeps what is at least 0 at least 0. *)
Lemma round_half_even_nonneg n d : (0 ≤ n)%Z → (0 ≤ round_half_even n d)%Z.
Proof.
  intros Hn. unfold round_half_even.
  assert (0 ≤ n / Z.pos d)%Z as Hq by (apply Z.div_pos; lia).
  repeat case_match; lia.
Qed.

Lemma fl64_nonneg x : 0 ≤ x → 0 ≤ fl64 x.
Proof.
  intros Hx. unfold fl64.
  destruct (Qnum x =? 0)%Z eqn:Hzero; [done|].
  assert (0 < Qnum x)%Z as Hpos.
  { apply Z.eqb_neq in Hzero.
    assert (0 ≤ Qnum x)%Z; [|lia].
    change (0 <= x)%Q in Hx. unfold Qle in Hx. cbn in Hx. lia. }
  assert ((Qnum x <? 0)%Z = false) as -> by (apply Z.ltb_ge; lia).
  rewrite Z.abs_eq by lia.
  set (e := Z.max _ _).
  destruct (e <? 0)%Z.
  - pose proof (round_half_even_nonneg (Qnum x * 2 ^ (- e)) (Qden x)) as Hm.
    assert (0 ≤ Qnum x * 2 ^ (- e))%Z as H0
      by (apply Z.mul_nonneg_nonneg; [lia | apply Z.pow_nonneg; lia]).
    specialize (Hm H0).
    set (m := round_half_even _ _) in *.
    change (0 <= Qred (m # Z.to_pos (2 ^ (- e))))%Q.
    rewrite Qred_correct. unfold Qle. cbn. lia.
  - pose proof (round_half_even_nonneg (Qnum x) (Qden x * Z.to_pos (2 ^ e))) as Hm.
    specialize (Hm ltac:(lia)).
    set (m := round_half_even _ _) in *.
    change (0 <= Qred (m * 2 ^ e # 1))%Q.
    rewrite Qred_correct. unfold Qle. cbn.
    assert (0 ≤ 2 ^ e)%Z by (apply Z.pow_nonneg; lia). nia.
Qed.

Lemma cash_stays_nonnegative_witness :
  (∃ reply s',
     route parseDecimal fl64 env_up (Sell (sell_a1 2 25)) state_held = (Return reply, s')
     ∧ status reply = 200%Z
     ∧ cash_nonneg s')
  ∧ (∃ p, portfolios state_200 !! "p1" = Some p ∧ fl64 (Qc_of_Z 20 * Qc_of_Z 5) ≤ cash p)
  ∧ (∃ p, portfolios state_held !! "p1" = Some p ∧ Qc_of_Z 50 ≤ cash p).
Proof.
  split_and!.
  - destruct (proj1 (cash_stays_nonnegative parseDecimal fl64) env_up (Sell (sell_a1 2 25))
                state_held fl64_nonneg cash_nonneg_state_held) as (reply & s' & Hrun & Hinv).
    exists reply, s'. split; [exact Hrun|].
    vm_compute in Hrun. injection Hrun as <- _. split; [reflexivity|].
    apply Hinv. cbn. intros result Hbody. injection Hbody as <-. by vm_compute.
  - edestruct (proj1 (proj2 (cash_stays_nonnegative parseDecimal fl64)) env_up (buy_xyz 5 20)
                 state_200) as (p & Hp & Hle); [vm_compute; reflexivity|].
    exists p. split; [exact Hp | exact Hle].
  - edestruct (proj2 (proj2 (cash_stays_nonnegative parseDecimal fl64)) env_up (withdraw_p1 50)
                 state_held) as (p & Hp & Hle); [vm_compute; reflexivity|].
    exists p. split; [exact Hp | exact Hle].
Defined.

(** C5, the claim as written fails: every portfolio's cash is at least 0,
    and selling 2 of the 5 XYZ of a1 at the price -100 is answered 200 and
    leaves portfolio p1 with the cash 100 - 200 < 0. *)
Lemma sell_at_negative_price_overdraws :
  cash_nonneg state_held
  ∧ ∃ result s' p',
      sellAsset parseDecimal fl64 env_up (sell_a1 2 (-100)) state_held
        = (Return {| status := 200; json := TradeBody result |}, s')
      ∧ portfolios s' !! "p1" = Some p'
      ∧ cash p' = Qc_of_Z (-100)
      ∧ cash p' < 0
      ∧ ¬ cash_nonneg s'.
Proof.
  split; [apply cash_nonneg_state_held|].
  eexists _, _, _. split; [vm_compute; reflexivity|].
  split; [vm_compute; reflexivity|].
  split; [apply Qc_is_canon; by vm_compute|].
  split; [by vm_compute|].
  intros Hinv. specialize (Hinv "p1" _ eq_refl). by vm_compute in Hinv.
Qed.

(** Creating a portfolio with the initial cash -50 is answered 201, stores
    the cash -50 and logs no deposit. *)
Example create_with_negative_cash :
  ∃ p s',
    createPortfolio env_up (create_with (-50)) state_200
      = (Return {| status := 201; json := PortfolioBody p |}, s')
    ∧ portfolios s' !! "a1" = Some p
    ∧ cash p < 0
    ∧ transactions s' = [].
Proof.
  eexists _, _. split; [vm_compute; reflexivity|].
  split; [vm_compute; reflexivity|]. split; [by vm_compute | reflexivity].
Qed.

(** C8, the claim as written fails: the buy of 5 XYZ at 20 is answered 200
    and nothing has been emitted on the sockets; so for the sale of 2 of the 5
    XYZ. *)
Lemma trade_commits_without_emission :
  (∃ result s',
     buyAsset parseDecimal fl64 env_up (buy_xyz 5 20) state_200
       = (Return {| status := 200; json := TradeBody result |}, s')
     ∧ emitted s' = [])
  ∧ (∃ result s',
       sellAsset parseDecimal fl64 env_up (sell_a1 2 25) state_held
         = (Return {| status := 200; json := TradeBody result |}, s')
       ∧ emitted s' = []).
Proof.
  split; eexists _, _; (split; [vm_compute; reflexivity | reflexivity]).
Qed.

(** ** Batches: revaluation and full sync *)

Lemma mapM_app {A B} (f : A → M B) l1 l2 s :
  mapM f (l1 ++ l2)%list s
  = match mapM f l1 s with
    | (Return out1, s1) =>
        match mapM f l2 s1 with
        | (Return out2, s2) => (Return (out1 ++ out2)%list, s2)
        | (Throw e, s2) => (Throw e, s2)
        end
    | (Throw e, s1) => (Throw e, s1)
    end.
Proof.
  revert s. induction l1 as [|x l1 IH]; intros s; cbn.
  - unfold_monad. by destruct (mapM f l2 s) as [[?|?] ?].
  - unfold_monad. destruct (f x s) as [[y|e] s1]; [|done].
    rewrite IH. destruct (mapM f l1 s1) as [[out1|e] s2]; [|done].
    by destruct (mapM f l2 s2) as [[?|?] ?].
Qed.

Lemma assetValue_sum l : assetValue unrounded l = holdings_value l.
Proof.
  unfold assetValue, holdings_value.
  enough (∀ acc, fold_left (λ sum (r : string * Asset), sum + currentPrice r.2 * quantity r.2) l acc
                 = acc + foldr (λ (r : string * Asset) a, currentPrice r.2 * quantity r.2 + a) 0 l)
    as H by (rewrite H; ring).
  induction l as [|r l IH]; intros acc; cbn.
  - ring.
  - rewrite IH. ring.
Qed.

Section Batches.

Context (parseFloat : string → number) (fl : number → number).

(** A failed price lookup: the holding is returned as it was read, and no
    row is written. *)
Lemma update_price_failure env r s e s1 :
  getMarketPrice parseFloat env (symbol r.2) s = (Throw e, s1) →
  update_price parseFloat env r s = (Return r, s1) ∧ assets s1 = assets s.
Proof.
  intros Hget. unfold update_price. unfold_monad. rewrite Hget. split; [done|].
  pose proof (getMarketPrice_ledger parseFloat env (symbol r.2) s) as Hled.
  rewrite Hget in Hled. apply Hled.
Qed.

(** A successful price lookup: the row gets the price. *)
Lemma update_price_success env r s price s1 :
  getMarketPrice parseFloat env (symbol r.2) s = (Return price, s1) →
  assets s !! r.1 = Some r.2 →
  let a := {| portfolioId := portfolioId r.2; symbol := symbol r.2;
              asset_name := asset_name r.2; asset_type := asset_type r.2;
              quantity := quantity r.2; purchasePrice := purchasePrice r.2;
              currentPrice := price |} in
  update_price parseFloat env r s = (Return (r.1, a), set_assets (insert r.1 a) s1).
Proof.
  intros Hget Hrow a. unfold update_price, asset_update. unfold_monad. rewrite Hget.
  pose proof (getMarketPrice_ledger parseFloat env (symbol r.2) s) as Hled.
  rewrite Hget in Hled. destruct Hled as (_ & Has & _). cbn [snd] in Has.
  by rewrite Has, Hrow.
Qed.

(** The callback never throws; it keeps the row's id, returns the row as it
    is stored afterwards and writes no other row. *)
Lemma update_price_returns env r s :
  assets s !! r.1 = Some r.2 →
  ∃ r' s', update_price parseFloat env r s = (Return r', s')
           ∧ r'.1 = r.1
           ∧ portfolios s' = portfolios s
           ∧ assets s' !! r'.1 = Some r'.2
           ∧ (∀ id, id ≠ r.1 → assets s' !! id = assets s !! id).
Proof.
  intros Hrow.
  destruct (getMarketPrice parseFloat env (symbol r.2) s) as [[price|e] s1] eqn:Hget.
  - pose proof (getMarketPrice_ledger parseFloat env (symbol r.2) s) as Hled.
    rewrite Hget in Hled. destruct Hled as (Hps & Has & _). cbn [snd] in *.
    eexists _, _. split; [by apply update_price_success|].
    cbn. split_and!; [done..| |].
    + by rewrite lookup_insert_eq.
    + intros id Hne. by rewrite lookup_insert_ne, Has.
  - destruct (update_price_failure env r s e s1 Hget) as [Hrun Has].
    pose proof (getMarketPrice_ledger parseFloat env (symbol r.2) s) as Hled.
    rewrite Hget in Hled. destruct Hled as (Hps & _). cbn [snd] in *.
    exists r, s1. split_and!; [done..| |].
    + by rewrite Has.
    + intros id _. by rewrite Has.
Qed.

(** *** The oracle asked again *)

(** The oracle's answer for a symbol depends on the cached row of the symbol
    only. *)
Lemma oracle_answer_cache env sym s s0 :
  marketData s !! sym = marketData s0 !! sym →
  oracle_answer parseFloat env s sym = oracle_answer parseFloat env s0 sym.
Proof.
  intros Hrow. unfold oracle_answer, getMarketPrice. rewrite !try_rethrow.
  unfold marketData_findUnique, fetch_price, axios_get_symbol, marketData_upsert.
  unfold_monad. cbn. rewrite Hrow.
  destruct (marketData s0 !! sym) as [m|]; cbn.
  - destruct (now env - updatedAt m <? 5 * 60 * 1000)%Z; [done|].
    destruct (axios_get env sym) as [|[[[q|]]|]]; cbn; try done.
    destruct (truthy_str (price_05 q)); [|done].
    by destruct (change_percent_10 q).
  - destruct (axios_get env sym) as [|[[[q|]]|]]; cbn; try done.
    destruct (truthy_str (price_05 q)); [|done].
    by destruct (change_percent_10 q).
Qed.

(** A call of the oracle for [sym] writes the cached row of [sym] only. *)
Lemma getMarketPrice_other_rows env sym sym' s :
  sym' ≠ sym →
  marketData (getMarketPrice parseFloat env sym s).2 !! sym' = marketData s !! sym'.
Proof.
  intros Hne. unfold getMarketPrice. rewrite try_rethrow.
  unfold marketData_findUnique, fetch_price, axios_get_symbol, marketData_upsert.
  unfold_monad. cbn.
  destruct (marketData s !! sym) as [m|] eqn:Hm; cbn.
  - destruct (now env - updatedAt m <? 5 * 60 * 1000)%Z; [done|].
    destruct (axios_get env sym) as [|[[[q|]]|]]; cbn; try done.
    destruct (truthy_str (price_05 q)); [|done].
    destruct (change_percent_10 q); [|done]. cbn. rewrite Hm. cbn.
    by rewrite lookup_insert_ne.
  - destruct (axios_get env sym) as [|[[[q|]]|]]; cbn; try done.
    destruct (truthy_str (price_05 q)); [|done].
    destruct (change_percent_10 q); [|done]. cbn. rewrite Hm. cbn.
    by rewrite lookup_insert_ne.
Qed.

(** Asked again for the same symbol, the oracle answers the same. *)
Lemma oracle_answer_again env sym s :
  oracle_answer parseFloat env (getMarketPrice parseFloat env sym s).2 sym
  = oracle_answer parseFloat env s sym.
Proof.
  unfold oracle_answer, getMarketPrice. rewrite !try_rethrow.
  unfold marketData_findUnique, fetch_price, axios_get_symbol, marketData_upsert.
  unfold_monad. cbn.
  destruct (marketData s !! sym) as [m|] eqn:Hm; cbn.
  - destruct (now env - updatedAt m <? 5 * 60 * 1000)%Z eqn:Hage; cbn.
    { by rewrite Hm, Hage. }
    destruct (axios_get env sym) as [|[[[q|]]|]] eqn:Hget; cbn;
      rewrite ?Hm, ?Hage, ?Hget; cbn; try done.
    destruct (truthy_str (price_05 q)) eqn:Hp; cbn; rewrite ?Hm, ?Hage, ?Hget; cbn;
      rewrite ?Hp; [|done].
    destruct (change_percent_10 q) eqn:Hcp; cbn; rewrite ?Hm, ?Hage, ?Hget; cbn;
      rewrite ?Hp, ?Hcp; [|done].
    rewrite lookup_insert_eq. cbn. by rewrite Z.sub_diag.
  - destruct (axios_get env sym) as [|[[[q|]]|]] eqn:Hget; cbn;
      rewrite ?Hm, ?Hget; cbn; try done.
    destruct (truthy_str (price_05 q)) eqn:Hp; cbn; rewrite ?Hm, ?Hget; cbn;
      rewrite ?Hp; [|done].
    destruct (change_percent_10 q) eqn:Hcp; cbn; rewrite ?Hm, ?Hget; cbn;
      rewrite ?Hp, ?Hcp; [|done].
    rewrite lookup_insert_eq. cbn. by rewrite Z.sub_diag.
Qed.

(** The answers of the oracle are the same after a call as before it. *)
Lemma oracle_answer_stable env sym sym' s :
  oracle_answer parseFloat env (getMarketPrice parseFloat env sym s).2 sym'
  = oracle_answer parseFloat env s sym'.
Proof.
  destruct (decide (sym' = sym)) as [->|Hne].
  - apply oracle_answer_again.
  - apply oracle_answer_cache. by apply getMarketPrice_other_rows.
Qed.

(** The callback on a stored row: it returns the row revalued, which is the
    row stored afterwards, and writes no other row; the oracle's answers are
    as before. *)
Lemma update_price_revalues env r s s0 :
  assets s !! r.1 = Some r.2 →
  (∀ sym, oracle_answer parseFloat env s sym = oracle_answer parseFloat env s0 sym) →
  ∃ s', update_price parseFloat env r s
          = (Return (r.1, revalued parseFloat env s0 r.2), s')
        ∧ portfolios s' = portfolios s
        ∧ transactions s' = transactions s
        ∧ emitted s' = emitted s
        ∧ assets s' !! r.1 = Some (revalued parseFloat env s0 r.2)
        ∧ (∀ id, id ≠ r.1 → assets s' !! id = assets s !! id)
        ∧ (∀ sym, oracle_answer parseFloat env s' sym = oracle_answer parseFloat env s0 sym).
Proof.
  intros Hrow Hsame.
  pose proof (oracle_answer_stable env (symbol r.2)) as Hstable.
  pose proof (getMarketPrice_ledger parseFloat env (symbol r.2) s) as Hled.
  unfold revalued. rewrite <- (Hsame (symbol r.2)). unfold oracle_answer at 1 2.
  destruct (getMarketPrice parseFloat env (symbol r.2) s) as [[price|e] s1] eqn:Hget.
  - destruct Hled as (Hps & Has & Htx & Hem). cbn [fst snd] in *.
    eexists. split; [by apply update_price_success|].
    cbn. split_and!; [done..| | |].
    + by rewrite lookup_insert_eq.
    + intros id Hne. by rewrite lookup_insert_ne, Has.
    + intros sym. rewrite <- Hsame, <- (Hstable sym s), Hget. cbn [snd].
      by apply oracle_answer_cache.
  - destruct (update_price_failure env r s e s1 Hget) as [Hrun Has].
    destruct Hled as (Hps & _ & Htx & Hem). cbn [fst snd] in *.
    exists s1. destruct r as [id a]. cbn in *. split_and!; [done..| | |].
    + by rewrite Has.
    + intros id' _. by rewrite Has.
    + intros sym. by rewrite <- Hsame, <- (Hstable sym s), Hget.
Qed.

(** The whole pass returns: one entry per holding, in order, each the holding
    at the price the oracle answers, as it is stored afterwards. *)
Lemma revaluation_returns env rows s s0 :
  NoDup rows.*1 →
  Forall (λ r, assets s !! r.1 = Some r.2) rows →
  (∀ sym, oracle_answer parseFloat env s sym = oracle_answer parseFloat env s0 sym) →
  let updated := (λ r, (r.1, revalued parseFloat env s0 r.2)) <$> rows in
  ∃ s',
    mapM (update_price parseFloat env) rows s = (Return updated, s')
    ∧ portfolios s' = portfolios s
    ∧ transactions s' = transactions s
    ∧ emitted s' = emitted s
    ∧ Forall (λ r, assets s' !! r.1 = Some r.2) updated
    ∧ (∀ id, id ∉ rows.*1 → assets s' !! id = assets s !! id).
Proof.
  revert s. induction rows as [|r rows IH]; intros s Hnd Hrows Hsame.
  - exists s. by split_and!.
  - cbn in Hnd. apply NoDup_cons_1_1 in Hnd as Hr. apply NoDup_cons_1_2 in Hnd.
    apply Forall_cons_1 in Hrows as [Hrow Hrows].
    destruct (update_price_revalues env r s s0 Hrow Hsame)
      as (s1 & Hr' & Hps1 & Htx1 & Hem1 & Hstored & Hother & Hsame1).
    destruct (IH s1) as (s' & Hrun & Hps & Htx & Hem & Hall & Hframe); [done| |done|].
    { apply Forall_forall. intros x Hx. rewrite Forall_forall in Hrows.
      rewrite Hother; [by apply Hrows|].
      intros Heq. apply Hr. rewrite <- Heq.
      by apply list_elem_of_fmap_2, list_elem_of_In. }
    exists s'. cbn. unfold_monad. rewrite Hr', Hrun.
    split_and!; [done | congruence.. | |].
    + constructor; [|done].
      cbn. by rewrite Hframe.
    + intros id Hid'. apply not_elem_of_cons in Hid' as [Hne Hnotin].
      rewrite Hframe; [|done]. by apply Hother.
Qed.

(** The rows of a portfolio have distinct ids and are the rows stored. *)
Lemma portfolio_assets_rows pid s :
  NoDup (portfolio_assets pid s).*1
  ∧ Forall (λ r, assets s !! r.1 = Some r.2) (portfolio_assets pid s).
Proof.
  unfold portfolio_assets.
  pose proof (NoDup_fst_map_to_list (assets s)) as Hnd.
  assert (∀ r, r ∈ map_to_list (assets s) → assets s !! r.1 = Some r.2) as Hin.
  { intros [id a] Hr. by apply elem_of_map_to_list. }
  induction (map_to_list (assets s)) as [|r l IH]; cbn.
  - split; constructor.
  - cbn in Hnd. apply NoDup_cons_1_1 in Hnd as Hr. apply NoDup_cons_1_2 in Hnd.
    destruct IH as [IH1 IH2]; [done | by intros x Hx; apply Hin; right |].
    destruct (String.eqb (portfolioId r.2) pid); [|done].
    split.
    + cbn. constructor; [|done].
      intros Hmem. apply Hr. apply list_elem_of_fmap in Hmem as (x & -> & Hx).
      apply list_elem_of_fmap_2. apply list_elem_of_In in Hx.
      apply filter_In in Hx as [Hx _]. by apply list_elem_of_In.
    + constructor; [|done]. apply Hin. by left.
Qed.

(** What updateAssetPrices does for the user's portfolio: the pass over its
    holdings, then the total value. *)
Lemma updateAssetPrices_run env req s p uid updated s1 :
  prices_user req = Some uid → uid ≠ "" →
  portfolios s !! prices_portfolioId req = Some p → userId p = uid →
  mapM (update_price parseFloat env) (portfolio_assets (prices_portfolioId req) s) s
    = (Return updated, s1) →
  portfolios s1 = portfolios s →
  let p' := {| userId := userId p; portfolio_name := portfolio_name p;
               description := description p;
               totalValue := fl (assetValue fl updated + cash p); cash := cash p |} in
  updateAssetPrices parseFloat fl env req s
    = (Return {| status := 200; json := PricesBody p' updated |},
       set_portfolios (insert (prices_portfolioId req) p') s1).
Proof.
  intros Huser Huid Hp Hown Hpass Hps p'.
  unfold updateAssetPrices, try_catch, portfolio_findFirst, portfolio_update. unfold_monad.
  rewrite Huser, (truthy_str_Some _ Huid). cbn [negb str from_option id].
  rewrite Hp, Hown, String.eqb_refl, Hpass, Hps, Hp. done.
Qed.

(** The revaluation of the user's portfolio, in full. *)
Lemma updateAssetPrices_revalues env req s p uid :
  prices_user req = Some uid → uid ≠ "" →
  portfolios s !! prices_portfolioId req = Some p → userId p = uid →
  let updated := (λ r, (r.1, revalued parseFloat env s r.2))
                   <$> portfolio_assets (prices_portfolioId req) s in
  let p' := {| userId := userId p; portfolio_name := portfolio_name p;
               description := description p;
               totalValue := fl (assetValue fl updated + cash p); cash := cash p |} in
  ∃ s1,
    updateAssetPrices parseFloat fl env req s
      = (Return {| status := 200; json := PricesBody p' updated |},
         set_portfolios (insert (prices_portfolioId req) p') s1)
    ∧ portfolios s1 = portfolios s
    ∧ transactions s1 = transactions s
    ∧ emitted s1 = emitted s
    ∧ Forall (λ r, assets s1 !! r.1 = Some r.2) updated
    ∧ (∀ id, id ∉ (portfolio_assets (prices_portfolioId req) s).*1 →
             assets s1 !! id = assets s !! id).
Proof.
  intros Huser Huid Hp Hown updated p'.
  destruct (portfolio_assets_rows (prices_portfolioId req) s) as [Hnd Hrows].
  destruct (revaluation_returns env _ s s Hnd Hrows (λ _, eq_refl))
    as (s1 & Hpass & Hps & Htx & Hem & Hstored & Hframe).
  exists s1. split; [by apply (updateAssetPrices_run env req s p uid)|].
  by split_and!.
Qed.

(** *** Full sync *)

Lemma fetchMarketData_loop_step env sym rest results s :
  fetch_loop parseFloat env (sym :: rest) results s
  = match fetchMarketData parseFloat env sym s with
    | (Return data, s1) => fetch_loop parseFloat env rest (results ++ [data])%list s1
    | (Throw _, s1) => fetch_loop parseFloat env rest results s1
    end.
Proof.
  cbn. unfold_monad. by destruct (fetchMarketData parseFloat env sym s) as [[?|?] ?].
Qed.

(** A refresh asks the provider once, stores the row of a usable quote and
    throws: on the answer when it is not usable, on the broadcast when it is,
    the module's [io] being undefined. *)
Lemma fetchMarketData_throws env sym s :
  let s1 := set_requests (λ l, (l ++ [sym])%list) s in
  ∃ e, fetchMarketData parseFloat env sym s
       = (Throw e,
          match usable_quote env sym with
          | Some q =>
              set_marketData
                (insert sym (refreshed parseFloat env sym q (marketData s !! sym))) s1
          | None => s1
          end).
Proof.
  cbv zeta.
  unfold fetchMarketData, usable_quote, axios_get_symbol, marketData_upsert, io_emit,
    app_io, refreshed.
  rewrite try_rethrow. unfold_monad. cbn.
  destruct (axios_get env sym) as [|[[[q|]]|]]; cbn;
    [eexists; reflexivity| |eexists; reflexivity..].
  destruct (change_percent_10 q) as [cp|] eqn:Hcp;
    destruct (truthy_str (price_05 q)) eqn:Hp; cbn; [|eexists; reflexivity..].
  eexists. rewrite Hcp. cbn. destruct (marketData s !! sym); reflexivity.
Qed.

(** The loop over symbols without repetition: no refresh adds a result, every
    symbol is asked for once, in order, and the row of every symbol with a
    usable quote is stored; nothing else is written. *)
Lemma fetch_loop_run env symbols results s :
  NoDup symbols →
  ∃ s', fetch_loop parseFloat env symbols results s = (Return results, s')
        ∧ requests s' = (requests s ++ symbols)%list
        ∧ (∀ sym, marketData s' !! sym
                  = synced parseFloat env symbols sym (marketData s !! sym))
        ∧ same_ledger s s'.
Proof.
  revert s. induction symbols as [|sym rest IH]; intros s Hnd.
  - exists s. cbn. split_and!; [done | by rewrite app_nil_r | done | apply same_ledger_refl].
  - apply NoDup_cons_1_1 in Hnd as Hsym. apply NoDup_cons_1_2 in Hnd.
    destruct (fetchMarketData_throws env sym s) as [e Hone].
    destruct (IH (fetchMarketData parseFloat env sym s).2 Hnd)
      as (s' & Hrun & Hreq & Hrows & Hled).
    rewrite Hone in Hrun, Hreq, Hrows, Hled. cbn [snd] in *.
    exists s'. rewrite fetchMarketData_loop_step, Hone.
    split_and!; [done | | |].
    + rewrite Hreq. destruct (usable_quote env sym); cbn; by rewrite <- app_assoc.
    + intros sym'. rewrite Hrows. unfold synced.
      destruct (decide (sym' = sym)) as [->|Hne].
      * rewrite (bool_decide_eq_false_2 _ Hsym).
        rewrite bool_decide_eq_true_2; [|by left].
        destruct (usable_quote env sym); cbn; [by rewrite lookup_insert_eq | done].
      * assert (bool_decide (sym' ∈ sym :: rest) = bool_decide (sym' ∈ rest)) as ->.
        { apply bool_decide_ext. rewrite elem_of_cons. split; [by intros [?|?] | by right]. }
        destruct (usable_quote env sym); cbn; [by rewrite lookup_insert_ne | done].
    + destruct Hled as (? & ? & ? & ?).
      destruct (usable_quote env sym); cbn in *; by split_and!.
Qed.

Lemma TRACKED_SYMBOLS_NoDup : NoDup TRACKED_SYMBOLS.
Proof. apply (bool_decide_unpack _). by vm_compute. Qed.

End Batches.

(** C9.  Revaluation of the user's portfolio: the pass is answered 200 with
    one entry per holding, in order, and every holding is processed: its
    entry, which is the row stored for it afterwards, carries the price the
    oracle answers for its symbol, and is the holding as it was read, its last
    known current price included, when the oracle throws.  The cash is kept
    and the stored total value is the cash added to the sum of current price ×
    quantity over the entries, as the program computes it; in the arithmetic
    of the reals this is the cash plus [Σ currentPrice × quantity].  Full
    sync: the pass never throws; every tracked symbol is asked for, once and
    in order, whatever happened at the symbols before it, and the quote of
    every tracked symbol for which the provider answers with a price and a
    change percent is stored.  Every refresh throws, a stored one on its
    broadcast, so the results are empty. *)
Theorem batches_survive_failures (parseFloat : string → number) :
  (∀ fl env req s p uid,
     prices_user req = Some uid → uid ≠ "" →
     portfolios s !! prices_portfolioId req = Some p → userId p = uid →
     let holdings := portfolio_assets (prices_portfolioId req) s in
     let updated := (λ r, (r.1, revalued parseFloat env s r.2)) <$> holdings in
     (∀ a e s1, getMarketPrice parseFloat env (symbol a) s = (Throw e, s1) →
                revalued parseFloat env s a = a)
     ∧ (∀ a price s1, getMarketPrice parseFloat env (symbol a) s = (Return price, s1) →
                      repriced a (revalued parseFloat env s a)
                      ∧ currentPrice (revalued parseFloat env s a) = price)
     ∧ ∃ p' s',
         updateAssetPrices parseFloat fl env req s
           = (Return {| status := 200; json := PricesBody p' updated |}, s')
         ∧ Forall (λ r, assets s' !! r.1 = Some r.2) updated
         ∧ portfolios s' !! prices_portfolioId req = Some p'
         ∧ cash p' = cash p
         ∧ totalValue p' = fl (assetValue fl updated + cash p'))
  ∧ (∀ env req s p uid,
       prices_user req = Some uid → uid ≠ "" →
       portfolios s !! prices_portfolioId req = Some p → userId p = uid →
       ∃ p' updated s',
         updateAssetPrices parseFloat unrounded env req s
           = (Return {| status := 200; json := PricesBody p' updated |}, s')
         ∧ portfolios s' !! prices_portfolioId req = Some p'
         ∧ totalValue p' = cash p' + holdings_value updated)
  ∧ (∀ env s,
       ∃ s', fetchAllMarketData parseFloat env s = (Return [], s')
             ∧ requests s' = (requests s ++ TRACKED_SYMBOLS)%list
             ∧ ∀ sym q, sym ∈ TRACKED_SYMBOLS → usable_quote env sym = Some q →
                        marketData s' !! sym
                        = Some (refreshed parseFloat env sym q (marketData s !! sym))).
Proof.
  split_and!.
  - intros fl env req s p uid Huser Huid Hp Hown holdings updated. split_and!.
    + intros a e s1 Hget. unfold revalued, oracle_answer. by rewrite Hget.
    + intros a price s1 Hget. unfold revalued, oracle_answer. by rewrite Hget.
    + destruct (updateAssetPrices_revalues parseFloat fl env req s p uid Huser Huid Hp Hown)
        as (s1 & Hrun & Hps & _ & _ & Hstored & _).
      eexists _, _. split; [exact Hrun|].
      cbn. split_and!; [done| |done..].
      by rewrite lookup_insert_eq.
  - intros env req s p uid Huser Huid Hp Hown.
    destruct (updateAssetPrices_revalues parseFloat unrounded env req s p uid
                Huser Huid Hp Hown) as (s1 & Hrun & _).
    eexists _, _, _. split; [exact Hrun|]. cbn. split; [by rewrite lookup_insert_eq|].
    rewrite assetValue_sum. ring.
  - intros env s.
    destruct (fetch_loop_run parseFloat env TRACKED_SYMBOLS [] s TRACKED_SYMBOLS_NoDup)
      as (s' & Hrun & Hreq & Hrows & _).
    exists s'. unfold fetchAllMarketData. rewrite try_rethrow.
    split_and!; [done..|].
    intros sym q Hsym Hq. rewrite Hrows. unfold synced.
    by rewrite (bool_decide_eq_true_2 _ Hsym), Hq.
Qed.

(** *** Runs of the batches *)

Lemma batches_survive_failures_witness :
  (∃ p' s',
     updateAssetPrices parseDouble fl64 env_aapl_down revalue_p1 state_two_holdings
       = (Return {| status := 200;
                    json := PricesBody p'
                              [("a1", {| portfolioId := "p1"; symbol := "XYZ";
                                         asset_name := "XYZ"; asset_type := STOCK;
                                         quantity := Qc_of_Z 5;
                                         purchasePrice := Qc_of_Z 20;
                                         currentPrice := double 379 2 |});
                               ("a2", holding_aapl)] |}, s')
     ∧ assets s' !! "a2" = Some holding_aapl
     ∧ (currentPrice <$> assets s' !! "a1") = Some (double 379 2)
     ∧ portfolios s' !! "p1" = Some p'
     ∧ totalValue p' = double 2695 2)
  ∧ (∃ p' updated s',
       updateAssetPrices parseDouble unrounded env_aapl_down revalue_p1 state_two_holdings
         = (Return {| status := 200; json := PricesBody p' updated |}, s')
       ∧ totalValue p' = cash p' + holdings_value updated)
  ∧ (∃ s',
       fetchAllMarketData parseDouble env_aapl_down empty_state = (Return [], s')
       ∧ requests s' = TRACKED_SYMBOLS
       ∧ marketData s' !! "AAPL" = None
       ∧ (lastPrice <$> marketData s' !! "ETH-USD") = Some (double 379 2)).
Proof.
  split_and!.
  - destruct (proj1 (batches_survive_failures parseDouble) fl64 env_aapl_down revalue_p1
                state_two_holdings portfolio_100 "u1")
      as (_ & _ & p' & s' & Hrun & Hstored & Hp' & Hcash & Htotal);
      [reflexivity | discriminate | reflexivity | reflexivity |].
    exists p', s'.
    assert ((λ r : string * Asset, (r.1, revalued parseDouble env_aapl_down state_two_holdings r.2))
              <$> portfolio_assets (prices_portfolioId revalue_p1) state_two_holdings
            = [("a1", {| portfolioId := "p1"; symbol := "XYZ";
                         asset_name := "XYZ"; asset_type := STOCK;
                         quantity := Qc_of_Z 5; purchasePrice := Qc_of_Z 20;
                         currentPrice := double 379 2 |});
               ("a2", holding_aapl)]) as Hupd by (by vm_compute).
    rewrite Hupd in Hrun, Hstored, Htotal.
    split; [exact Hrun|].
    apply Forall_cons_1 in Hstored as [Ha1 Hstored].
    apply Forall_cons_1 in Hstored as [Ha2 _]. cbn in Ha1, Ha2.
    split_and!; [done | by rewrite Ha1 | done |].
    rewrite Htotal, Hcash. apply Qc_is_canon. by vm_compute.
  - destruct (proj1 (proj2 (batches_survive_failures parseDouble)) env_aapl_down revalue_p1
                state_two_holdings portfolio_100 "u1")
      as (p' & updated & s' & Hrun & _ & Htotal);
      [reflexivity | discriminate | reflexivity | reflexivity |].
    by exists p', updated, s'.
  - destruct (proj2 (proj2 (batches_survive_failures parseDouble)) env_aapl_down empty_state)
      as (s' & Hrun & Hreq & Hrows).
    exists s'. split_and!; [done..| |].
    + pose proof Hrun as Hrun'. vm_compute in Hrun'. by injection Hrun' as <-.
    + by rewrite (Hrows "ETH-USD" quote_up); [|apply (bool_decide_unpack _); vm_compute|].
Defined.

(** * Further properties of the code *)

(** ** What each operation does to the tables *)

Lemma createPortfolio_effect env req s o s' :
  createPortfolio env req s = (o, s') →
  ∃ reply, o = Return reply ∧ emitted s' = emitted s ∧ assets s' = assets s
  ∧ marketData s' = marketData s ∧ requests s' = requests s ∧
  ((status reply ≠ 201%Z ∧ portfolios s' = portfolios s ∧ transactions s' = transactions s)
   ∨ ∃ p c,
       reply = {| status := 201; json := PortfolioBody p |}
       ∧ c = (if truthy (create_cash req) then num (create_cash req) else 0)
       ∧ portfolios s !! uuid env = None
       ∧ portfolios s' = <[uuid env := p]> (portfolios s)
       ∧ userId p = str (create_user req) ∧ truthy_str (create_user req) = true
       ∧ cash p = c ∧ totalValue p = c
       ∧ transactions s'
         = if ltb 0 c
           then (transactions s ++ [ {| tx_type := DEPOSIT; tx_quantity := 1; tx_price := c;
                                        totalAmount := c; tx_userId := str (create_user req);
                                        tx_portfolioId := uuid env; assetId := None |} ])%list
           else transactions s).
Proof.
  unfold createPortfolio. unfold_prisma. unfold_monad. cbn. intros H.
  repeat case_match; simplify_eq/=; foreign_keys; eexists; (split; [done|]); split_and!; try done.
  all: first [by left | right; eexists _, _; split_and!; try done].
  all: try by apply negb_false_iff.
  all: repeat case_match; simplify_eq/=; try done.
Qed.

Lemma addCashToPortfolio_effect fl env req s o s' :
  addCashToPortfolio fl env req s = (o, s') →
  ∃ reply, o = Return reply ∧ emitted s' = emitted s ∧ assets s' = assets s
  ∧ marketData s' = marketData s ∧ requests s' = requests s ∧
  ((status reply ≠ 200%Z ∧ portfolios s' = portfolios s ∧ transactions s' = transactions s)
   ∨ ∃ p p',
       reply = {| status := 200; json := PortfolioBody p' |}
       ∧ portfolios s !! cash_portfolioId req = Some p
       ∧ userId p = str (cash_user req)
       ∧ truthy_str (cash_user req) = true
       ∧ 0 < num (cash_amount req)
       ∧ p' = {| userId := userId p; portfolio_name := portfolio_name p;
                 description := description p;
                 totalValue := fl (totalValue p + num (cash_amount req));
                 cash := fl (cash p + num (cash_amount req)) |}
       ∧ portfolios s' = <[cash_portfolioId req := p']> (portfolios s)
       ∧ transactions s'
         = (transactions s ++ [ {| tx_type := DEPOSIT; tx_quantity := 1;
                                   tx_price := num (cash_amount req);
                                   totalAmount := num (cash_amount req);
                                   tx_userId := str (cash_user req);
                                   tx_portfolioId := cash_portfolioId req;
                                   assetId := None |} ])%list).
Proof.
  unfold addCashToPortfolio. unfold_prisma. unfold_monad. cbn. intros H.
  repeat case_match; simplify_eq/=; foreign_keys; eexists; (split; [done|]); split_and!; try done.
  all: first [by left | right; eexists _, _; split_and!; try done].
  - by apply String.eqb_eq.
  - by apply negb_false_iff.
  - match goal with H : _ || _ = false |- _ => apply orb_false_elim in H as [_ H] end.
    by apply leb_gt.
Qed.

Lemma withdrawCashFromPortfolio_effect fl env req s o s' :
  withdrawCashFromPortfolio fl env req s = (o, s') →
  ∃ reply, o = Return reply ∧ emitted s' = emitted s ∧ assets s' = assets s
  ∧ marketData s' = marketData s ∧ requests s' = requests s ∧
  ((status reply ≠ 200%Z ∧ portfolios s' = portfolios s ∧ transactions s' = transactions s)
   ∨ ∃ p p',
       reply = {| status := 200; json := PortfolioBody p' |}
       ∧ portfolios s !! cash_portfolioId req = Some p
       ∧ userId p = str (cash_user req)
       ∧ truthy_str (cash_user req) = true
       ∧ 0 < num (cash_amount req)
       ∧ num (cash_amount req) ≤ cash p
       ∧ p' = {| userId := userId p; portfolio_name := portfolio_name p;
                 description := description p;
                 totalValue := fl (totalValue p - num (cash_amount req));
                 cash := fl (cash p - num (cash_amount req)) |}
       ∧ portfolios s' = <[cash_portfolioId req := p']> (portfolios s)
       ∧ transactions s'
         = (transactions s ++ [ {| tx_type := WITHDRAWAL; tx_quantity := 1;
                                   tx_price := num (cash_amount req);
                                   totalAmount := num (cash_amount req);
                                   tx_userId := str (cash_user req);
                                   tx_portfolioId := cash_portfolioId req;
                                   assetId := None |} ])%list).
Proof.
  unfold withdrawCashFromPortfolio. unfold_prisma. unfold_monad. cbn. intros H.
  repeat case_match; simplify_eq/=; foreign_keys; eexists; (split; [done|]); split_and!; try done.
  all: first [by left | right; eexists _, _; split_and!; try done].
  - by apply String.eqb_eq.
  - by apply negb_false_iff.
  - match goal with H : _ || _ = false |- _ => apply orb_false_elim in H as [_ H] end.
    by apply leb_gt.
  - by apply ltb_ge.
Qed.

Lemma findFirst_symbol_none (m : gmap string Asset) pid sym :
  find (λ r : string * Asset, String.eqb (portfolioId r.2) pid && String.eqb (symbol r.2) sym)
    (map_to_list m) = None →
  ∀ i r, m !! i = Some r → portfolioId r = pid → symbol r ≠ sym.
Proof.
  intros Hnone i r Hr Hpid Hsym.
  apply elem_of_map_to_list, list_elem_of_In in Hr.
  pose proof (find_none _ _ Hnone _ Hr) as Hf. cbn in Hf.
  rewrite Hpid, Hsym, !String.eqb_refl in Hf. done.
Qed.

Section Effects.

Context (parseFloat : string → number) (fl : number → number).

Lemma buy_transaction_effect env req price total existing s o s' :
  prisma_transaction (buy_transaction fl env req price total existing) s = (o, s') →
  emitted s' = emitted s ∧ requests s' = requests s ∧ marketData s' = marketData s ∧
  ((∃ e, o = Throw e) ∧ same_ledger s s'
   ∨ ∃ p aid a result,
       o = Return result
       ∧ asset result = Some (aid, a)
       ∧ portfolios s !! buy_portfolioId req = Some p
       ∧ portfolio result = decrement_cash fl total p
       ∧ transaction result
         = {| tx_type := BUY; tx_quantity := num (buy_quantity req); tx_price := price;
              totalAmount := total; tx_userId := str (buy_user req);
              tx_portfolioId := buy_portfolioId req; assetId := Some aid |}
       ∧ portfolios s' = <[buy_portfolioId req := decrement_cash fl total p]> (portfolios s)
       ∧ transactions s' = (transactions s ++ [transaction result])%list
       ∧ assets s' = <[aid := a]> (assets s)
       ∧ ((existing = None ∧ aid = uuid env ∧ assets s !! aid = None
           ∧ portfolioId a = buy_portfolioId req ∧ symbol a = str (buy_symbol req)
           ∧ quantity a = num (buy_quantity req)
           ∧ purchasePrice a = price ∧ currentPrice a = price)
          ∨ ∃ ex row,
              existing = Some (aid, ex) ∧ assets s !! aid = Some row
              ∧ a = {| portfolioId := portfolioId row; symbol := symbol row;
                       asset_name := asset_name row; asset_type := asset_type row;
                       quantity := fl (quantity ex + num (buy_quantity req));
                       purchasePrice :=
                         fl (fl (fl (purchasePrice ex * quantity ex) + total)
                             / fl (quantity ex + num (buy_quantity req)));
                       currentPrice := price |})).
Proof.
  unfold buy_transaction. unfold_prisma. unfold_monad. cbn. intros H.
  repeat case_match; simplify_eq/=; foreign_keys.
  all: split; [done|]; split; [done|]; split; [done|].
  all: try (left; split; [by eexists | by repeat split]).
  all: right; eexists _, _, _, _; split_and!; try done.
  - right. eexists _, _. by split_and!.
  - left. by split_and!.
Qed.

(** Either buyAsset refuses on the state as it was, or the request is
    authenticated and valid and the portfolio is the user's. *)
Lemma buyAsset_cases env req s :
  (∃ reply, buyAsset parseFloat fl env req s = (Return reply, s) ∧ status reply ≠ 200%Z)
  ∨ ∃ p, truthy_str (buy_user req) = true
         ∧ negb (truthy_str (buy_symbol req)) || negb (truthy_str (buy_type req))
           || negb (truthy (buy_quantity req)) || leb (num (buy_quantity req)) 0 = false
         ∧ portfolios s !! buy_portfolioId req = Some p
         ∧ userId p = str (buy_user req).
Proof.
  destruct (truthy_str (buy_user req)) eqn:Huser;
    [|left; apply buyAsset_refused; by left].
  destruct (negb (truthy_str (buy_symbol req)) || negb (truthy_str (buy_type req))
            || negb (truthy (buy_quantity req)) || leb (num (buy_quantity req)) 0) eqn:Hvalid;
    [left; apply buyAsset_refused; by right; left|].
  destruct (portfolios s !! buy_portfolioId req) as [p|] eqn:Hp;
    [|left; apply buyAsset_refused; by right; right; left].
  destruct (decide (userId p = str (buy_user req))) as [Hown|Hown];
    [|left; apply buyAsset_refused; right; right; right; by eauto].
  right. by exists p.
Qed.

Lemma buyAsset_effect env req s o s' :
  buyAsset parseFloat fl env req s = (o, s') →
  ∃ reply, o = Return reply ∧ emitted s' = emitted s ∧
  ((status reply ≠ 200%Z ∧ same_ledger s s')
   ∨ ∃ p price aid a result,
       reply = {| status := 200; json := TradeBody result |}
       ∧ asset result = Some (aid, a)
       ∧ portfolios s !! buy_portfolioId req = Some p
       ∧ userId p = str (buy_user req)
       ∧ truthy_str (buy_user req) = true
       ∧ 0 < num (buy_quantity req)
       ∧ fl (price * num (buy_quantity req)) ≤ cash p
       ∧ portfolio result = decrement_cash fl (fl (price * num (buy_quantity req))) p
       ∧ transaction result
         = {| tx_type := BUY; tx_quantity := num (buy_quantity req); tx_price := price;
              totalAmount := fl (price * num (buy_quantity req));
              tx_userId := str (buy_user req);
              tx_portfolioId := buy_portfolioId req; assetId := Some aid |}
       ∧ portfolios s' = <[buy_portfolioId req := portfolio result]> (portfolios s)
       ∧ transactions s' = (transactions s ++ [transaction result])%list
       ∧ assets s' = <[aid := a]> (assets s)
       ∧ ((assets s !! aid = None
           ∧ (∀ i r, assets s !! i = Some r → portfolioId r = buy_portfolioId req →
                     symbol r ≠ str (buy_symbol req))
           ∧ portfolioId a = buy_portfolioId req ∧ symbol a = str (buy_symbol req)
           ∧ quantity a = num (buy_quantity req)
           ∧ purchasePrice a = price ∧ currentPrice a = price)
          ∨ ∃ ex,
              assets s !! aid = Some ex
              ∧ portfolioId ex = buy_portfolioId req ∧ symbol ex = str (buy_symbol req)
              ∧ a = {| portfolioId := portfolioId ex; symbol := symbol ex;
                       asset_name := asset_name ex; asset_type := asset_type ex;
                       quantity := fl (quantity ex + num (buy_quantity req));
                       purchasePrice :=
                         fl (fl (fl (purchasePrice ex * quantity ex)
                                 + fl (price * num (buy_quantity req)))
                             / fl (quantity ex + num (buy_quantity req)));
                       currentPrice := price |})).
Proof.
  intros Hrun.
  destruct (buyAsset_cases env req s) as [(reply & Heq & Hst)|(p & Huser & Hvalid & Hp & Hown)].
  { rewrite Heq in Hrun. simplify_eq. exists reply. split_and!; [done..|].
    left. split; [done | apply same_ledger_refl]. }
  rewrite (buyAsset_unfold parseFloat fl env req s p Huser Hvalid Hp Hown) in Hrun.
  pose proof (resolve_price_ledger parseFloat env (str (buy_symbol req)) (buy_price req) s)
    as Hled.
  destruct (resolve_price _ _ _ _ s) as [[[price|r]|e] s1] eqn:Hres; cbn [snd] in Hled.
  - cbn zeta in Hrun. destruct (ltb (cash p) _) eqn:Hcash.
    + simplify_eq. eexists. split_and!; [done|apply Hled|]. by left.
    + destruct (find _ _) as [[aid0 ex]|] eqn:Hfind;
        destruct (prisma_transaction _ s1) as [o2 s2] eqn:Htx;
        apply buy_transaction_effect in Htx as (He & _ & _ & Htx);
        destruct Hled as (Hps & Has & Hts & Hes);
        (destruct Htx as [[[e ->] Hled2]
          |(p1 & aid & a & result & -> & Hres' & Hp1 & Hpr & Htr & Hps2 & Hts2 & Has2 & Hkind)];
         [simplify_eq; eexists; split_and!; [done|congruence|];
          left; split; [done|]; eapply same_ledger_trans; [|done]; by repeat split|]).
      * simplify_eq. eexists. split_and!; [done|congruence|].
        right. rewrite Hps in Hp1. simplify_eq.
        apply ltb_ge in Hcash.
        apply orb_false_elim in Hvalid as [_ Hq]. apply leb_gt in Hq.
        rewrite Has in Hfind. apply findFirst_symbol_row in Hfind as (Hrow & Hpid & Hsym).
        destruct Hkind as [(? & _)|(ex' & row & Hex & Hrow' & ->)]; [done|].
        simplify_eq. rewrite Has, Hrow in Hrow'. simplify_eq.
        eexists _, price, aid, _, result.
        split_and!; try done; try congruence.
        right. eexists. by split_and!.
      * simplify_eq. eexists. split_and!; [done|congruence|].
        right. rewrite Hps in Hp1. simplify_eq.
        apply ltb_ge in Hcash.
        apply orb_false_elim in Hvalid as [_ Hq]. apply leb_gt in Hq.
        rewrite Has in Hfind. pose proof (findFirst_symbol_none _ _ _ Hfind) as Hnone.
        destruct Hkind as [(_ & -> & Hfresh & Hfields)|(ex' & row & Hex & _)]; [|done].
        eexists _, price, (uuid env), a, result.
        split_and!; try done; try congruence.
        left. rewrite Has in Hfresh. destruct Hfields as (?&?&?&?&?). by split_and!.
  - apply resolve_price_inr in Hres as ->. simplify_eq.
    eexists. split_and!; [done|apply Hled|]. by left.
  - simplify_eq. eexists. split_and!; [done|apply Hled|]. by left.
Qed.

Lemma sell_transaction_effect req a price total s o s' :
  prisma_transaction (sell_transaction fl req a price total) s = (o, s') →
  emitted s' = emitted s ∧ requests s' = requests s ∧ marketData s' = marketData s ∧
  ((∃ e, o = Throw e) ∧ same_ledger s s'
   ∨ ∃ p row result,
       o = Return result
       ∧ portfolios s !! sell_portfolioId req = Some p
       ∧ assets s !! sell_assetId req = Some row
       ∧ portfolio result = increment_cash fl total p
       ∧ transaction result
         = {| tx_type := SELL; tx_quantity := num (sell_quantity req); tx_price := price;
              totalAmount := total; tx_userId := str (sell_user req);
              tx_portfolioId := sell_portfolioId req;
              assetId := Some (sell_assetId req) |}
       ∧ portfolios s' = <[sell_portfolioId req := increment_cash fl total p]> (portfolios s)
       ∧ transactions s' = (transactions s ++ [transaction result])%list
       ∧ quantity a ≠ num (sell_quantity req)
       ∧ assets s'
         = <[sell_assetId req :=
               {| portfolioId := portfolioId row; symbol := symbol row;
                  asset_name := asset_name row; asset_type := asset_type row;
                  quantity := fl (quantity row - num (sell_quantity req));
                  purchasePrice := purchasePrice row;
                  currentPrice := price |}]> (assets s)).
Proof.
  unfold sell_transaction. unfold_prisma. unfold_monad. cbn. intros H.
  repeat case_match; simplify_eq/=; foreign_keys.
  all: split; [done|]; split; [done|]; split; [done|].
  all: try (left; split; [by eexists | by repeat split]).
  all: right; eexists _, _, _; split_and!; try done; by apply eqb_neq.
Qed.

(** Either sellAsset refuses on the state as it was, or the request is
    authenticated and valid, the portfolio is the user's and the asset is in
    it. *)
Lemma sellAsset_cases env req s :
  (∃ reply, sellAsset parseFloat fl env req s = (Return reply, s) ∧ status reply ≠ 200%Z)
  ∨ ∃ p a, truthy_str (sell_user req) = true
           ∧ negb (truthy (sell_quantity req)) || leb (num (sell_quantity req)) 0 = false
           ∧ portfolios s !! sell_portfolioId req = Some p
           ∧ userId p = str (sell_user req)
           ∧ assets s !! sell_assetId req = Some a
           ∧ portfolioId a = sell_portfolioId req.
Proof.
  unfold sellAsset, try_catch, portfolio_findFirst, asset_findFirst_id. unfold_monad.
  destruct (truthy_str (sell_user req)) eqn:Huser; cbn [negb];
    [|left; eexists; split; [reflexivity|done]].
  destruct (negb (truthy (sell_quantity req)) || leb (num (sell_quantity req)) 0) eqn:Hvalid;
    [left; eexists; split; [reflexivity|done]|].
  destruct (portfolios s !! sell_portfolioId req) as [p|] eqn:Hp;
    [|left; eexists; split; [reflexivity|done]].
  destruct (String.eqb (userId p) (str (sell_user req))) eqn:Hown;
    [|left; eexists; split; [reflexivity|done]].
  destruct (assets s !! sell_assetId req) as [a|] eqn:Ha;
    [|left; eexists; split; [reflexivity|done]].
  destruct (String.eqb (portfolioId a) (sell_portfolioId req)) eqn:Hin;
    [|left; eexists; split; [reflexivity|done]].
  apply String.eqb_eq in Hown, Hin. right. by exists p, a.
Qed.

Lemma sellAsset_effect env req s o s' :
  sellAsset parseFloat fl env req s = (o, s') →
  ∃ reply, o = Return reply ∧ emitted s' = emitted s ∧
  ((status reply ≠ 200%Z ∧ same_ledger s s')
   ∨ ∃ p a price result,
       reply = {| status := 200; json := TradeBody result |}
       ∧ portfolios s !! sell_portfolioId req = Some p
       ∧ userId p = str (sell_user req)
       ∧ truthy_str (sell_user req) = true
       ∧ assets s !! sell_assetId req = Some a
       ∧ portfolioId a = sell_portfolioId req
       ∧ 0 < num (sell_quantity req)
       ∧ num (sell_quantity req) < quantity a
       ∧ portfolio result = increment_cash fl (fl (price * num (sell_quantity req))) p
       ∧ transaction result
         = {| tx_type := SELL; tx_quantity := num (sell_quantity req); tx_price := price;
              totalAmount := fl (price * num (sell_quantity req));
              tx_userId := str (sell_user req);
              tx_portfolioId := sell_portfolioId req;
              assetId := Some (sell_assetId req) |}
       ∧ portfolios s' = <[sell_portfolioId req := portfolio result]> (portfolios s)
       ∧ transactions s' = (transactions s ++ [transaction result])%list
       ∧ assets s'
         = <[sell_assetId req :=
               {| portfolioId := portfolioId a; symbol := symbol a;
                  asset_name := asset_name a; asset_type := asset_type a;
                  quantity := fl (quantity a - num (sell_quantity req));
                  purchasePrice := purchasePrice a;
                  currentPrice := price |}]> (assets s)).
Proof.
  intros Hrun.
  destruct (sellAsset_cases env req s)
    as [(reply & Heq & Hst)|(p & a & Huser & Hvalid & Hp & Hown & Ha & Hin)].
  { rewrite Heq in Hrun. simplify_eq. exists reply. split_and!; [done..|].
    left. split; [done | apply same_ledger_refl]. }
  rewrite (sellAsset_unfold parseFloat fl env req s p a Huser Hvalid Hp Hown Ha Hin) in Hrun.
  destruct (ltb (quantity a) _) eqn:Hqty.
  { simplify_eq. eexists. split_and!; [done..|]. left. split; [done | apply same_ledger_refl]. }
  pose proof (resolve_price_ledger parseFloat env (symbol a) (sell_price req) s) as Hled.
  destruct (resolve_price _ _ _ _ s) as [[[price|r]|e] s1] eqn:Hres; cbn [snd] in Hled.
  - destruct (prisma_transaction _ s1) as [o2 s2] eqn:Htx.
    apply sell_transaction_effect in Htx as (He & _ & _ & Htx).
    destruct Hled as (Hps & Has & Hts & Hes).
    destruct Htx as [[[e ->] Hled2]
      |(p1 & row & result & -> & Hp1 & Hrow & Hpr & Htr & Hps2 & Hts2 & Hall & Has2)].
    + simplify_eq. eexists. split_and!; [done|congruence|].
      left. split; [done|]. eapply same_ledger_trans; [|done]. by repeat split.
    + injection Hrun as <- <-. eexists. split_and!; [done|congruence|].
      right. rewrite Hps, Hp in Hp1. rewrite Has, Ha in Hrow.
      injection Hp1 as <-. injection Hrow as <-.
      apply ltb_ge in Hqty.
      apply orb_false_elim in Hvalid as [_ Hq]. apply leb_gt in Hq.
      eexists _, _, price, result.
      split_and!; try done; try congruence.
      apply Qcle_lt_or_eq in Hqty as [?|?]; [done | congruence].
  - apply resolve_price_inr in Hres as ->. simplify_eq.
    eexists. split_and!; [done|apply Hled|]. by left.
  - simplify_eq. eexists. split_and!; [done|apply Hled|]. by left.
Qed.

End Effects.


(** ** Invariants over the operations *)





Section Invariants.

Context (parseFloat : string → number) (fl : number → number).

Lemma truthy_str_user (u : option string) (id : string) :
  truthy_str u = true → id = str u → u = Some id.
Proof. destruct u; cbn; [by intros _ -> | done]. Qed.

(** Every operation replies.  Either it is not committed and leaves
    portfolios, holdings and transactions as they were, or it is committed: it
    rewrites the row of its target, as a request of the row's user, and logs
    at most one transaction, for that portfolio. *)
Lemma route_summary env op s :
  ∃ reply s',
    route parseFloat fl env op s = (Return reply, s') ∧ emitted s' = emitted s ∧
    ((status reply ≠ success_status op
      ∧ portfolios s' = portfolios s ∧ transactions s' = transactions s
      ∧ assets s' = assets s)
     ∨ ∃ p' added,
         status reply = success_status op
         ∧ portfolios s' = <[target env op := p']> (portfolios s)
         ∧ transactions s' = (transactions s ++ added)%list
         ∧ (length added ≤ 1)%nat
         ∧ Forall (λ t, tx_portfolioId t = target env op
                        ∧ (totalAmount t = fl (tx_price t * tx_quantity t)
                           ∨ tx_quantity t = 1 ∧ totalAmount t = tx_price t)) added
         ∧ op_user op = Some (userId p')
         ∧ match portfolios s !! target env op with
           | Some p => userId p' = userId p ∧ length added = 1%nat
           | None => ∃ req, op = Create req
           end).
Proof.
  destruct (route parseFloat fl env op s) as [o s'] eqn:Hrun.
  destruct op as [req|req|req|req|req]; cbn [route target op_user success_status] in *.
  - apply createPortfolio_effect in Hrun
      as (reply & -> & He & Has & _ & _ & [(Hst & Hps & Hts)|Hok]);
      exists reply, s'; (split; [done|]); (split; [done|]); [by left|].
    destruct Hok as (p & c & -> & Hc & Hfresh & Hps & Hu & Huser & Hcash & _ & Hts).
    right. exists p. destruct (ltb 0 c); eexists; (split; [done|]); (split; [done|]).
    + split; [exact Hts|]. split; [done|]. split.
      { constructor; [|done]. cbn. split; [done | by right]. }
      split; [by apply truthy_str_user|]. rewrite Hfresh. by eexists.
    + split; [by rewrite Hts, app_nil_r|]. split; [cbn; lia|]. split; [done|].
      split; [by apply truthy_str_user|]. rewrite Hfresh. by eexists.
  - apply addCashToPortfolio_effect in Hrun
      as (reply & -> & He & Has & _ & _ & [(Hst & Hps & Hts)|Hok]);
      exists reply, s'; (split; [done|]); (split; [done|]); [by left|].
    destruct Hok as (p & p' & -> & Hp & Hu & Huser & _ & -> & Hps & Hts).
    right. eexists _, _. split; [done|]. split; [done|]. split; [exact Hts|].
    split; [done|]. split.
    { constructor; [|done]. cbn. split; [done | by right]. }
    split; [by apply truthy_str_user|]. by rewrite Hp.
  - apply withdrawCashFromPortfolio_effect in Hrun
      as (reply & -> & He & Has & _ & _ & [(Hst & Hps & Hts)|Hok]);
      exists reply, s'; (split; [done|]); (split; [done|]); [by left|].
    destruct Hok as (p & p' & -> & Hp & Hu & Huser & _ & _ & -> & Hps & Hts).
    right. eexists _, _. split; [done|]. split; [done|]. split; [exact Hts|].
    split; [done|]. split.
    { constructor; [|done]. cbn. split; [done | by right]. }
    split; [by apply truthy_str_user|]. by rewrite Hp.
  - apply buyAsset_effect in Hrun as (reply & -> & He & [[Hst (Hps & Has & Hts & _)]|Hok]);
      exists reply, s'; (split; [done|]); (split; [done|]); [by left|].
    destruct Hok as (p & price & aid & a & result & -> & _ & Hp & Hu & Huser & _ & _
                     & Hpr & Htr & Hps & Hts & _).
    right. eexists _, _. split; [done|]. split; [done|]. split; [exact Hts|].
    split; [done|]. split.
    { constructor; [|done]. rewrite Htr. cbn. split; [done | by left]. }
    rewrite Hpr. split; [by apply truthy_str_user|]. by rewrite Hp.
  - apply sellAsset_effect in Hrun as (reply & -> & He & [[Hst (Hps & Has & Hts & _)]|Hok]);
      exists reply, s'; (split; [done|]); (split; [done|]); [by left|].
    destruct Hok as (p & a & price & result & -> & Hp & Hu & Huser & _ & _ & _ & _
                     & Hpr & Htr & Hps & Hts & _).
    right. eexists _, _. split; [done|]. split; [done|]. split; [exact Hts|].
    split; [done|]. split.
    { constructor; [|done]. rewrite Htr. cbn. split; [done | by left]. }
    rewrite Hpr. split; [by apply truthy_str_user|]. by rewrite Hp.
Qed.


(** X2. The transaction log is append-only. Each of the five operations
    returns a reply, keeps every transaction logged before it, in order, and
    adds at most one, logged for the portfolio the operation is addressed
    to; it adds none when the reply is not the success of the operation, and
    exactly one with a reply 200. *)
Theorem audit_trail_append_only env op s :
  ∃ reply s' added,
    route parseFloat fl env op s = (Return reply, s')
    ∧ transactions s' = (transactions s ++ added)%list
    ∧ (length added ≤ 1)%nat
    ∧ Forall (λ t, tx_portfolioId t = target env op) added
    ∧ (status reply ≠ success_status op → added = [])
    ∧ (status reply = 200%Z → length added = 1%nat).
Proof.
  destruct (route_summary env op s) as (reply & s' & Hrun & _ & [Hno|Hyes]).
  - destruct Hno as (Hst & _ & Hts & _). exists reply, s', [].
    split_and!; [done | by rewrite app_nil_r | cbn; lia | done | done |].
    intros H200. destruct op; cbn in *; try congruence.
    unfold createPortfolio, try_catch, portfolio_create in Hrun. unfold_monad.
    repeat case_match; simplify_eq/=.
  - destruct Hyes as (p' & added & Hst & Hps & Hts & Hlen & Hall & _ & Hrow).
    exists reply, s', added. split_and!; [done..| | |].
    + eapply Forall_impl; [|exact Hall]. by intros t [? _].
    + congruence.
    + intros H200. destruct (portfolios s !! target env op); [apply Hrow|].
      destruct Hrow as [req ->]. cbn in Hst. congruence.
Qed.

(** X4. Under createPortfolio, addCashToPortfolio, withdrawCashFromPortfolio,
    buyAsset and sellAsset, a portfolio row is written only by an operation
    addressed to it and made as its owner, and its owner never changes; none
    of these five operations removes a row, and a row appears only through
    createPortfolio, under the id drawn and owned by the caller. *)
Theorem portfolio_rows_change_only_for_their_owner env op s pid :
  (∀ p, portfolios s !! pid = Some p →
        portfolios (route parseFloat fl env op s).2 !! pid = Some p
        ∨ (pid = target env op ∧ op_user op = Some (userId p)
           ∧ ∃ p', portfolios (route parseFloat fl env op s).2 !! pid = Some p'
                   ∧ userId p' = userId p))
  ∧ (portfolios s !! pid = None →
     portfolios (route parseFloat fl env op s).2 !! pid = None
     ∨ ∃ req p', op = Create req ∧ pid = uuid env
                 ∧ portfolios (route parseFloat fl env op s).2 !! pid = Some p'
                 ∧ create_user req = Some (userId p')).
Proof.
  destruct (route_summary env op s) as (reply & s' & Hrun & _ & [Hno|Hyes]);
    rewrite Hrun; cbn [snd].
  - destruct Hno as (_ & -> & _). split; [by left | by left].
  - destruct Hyes as (p' & added & _ & -> & _ & _ & _ & Huser & Hrow).
    destruct (decide (target env op = pid)) as [Heq|Hne].
    + rewrite <- Heq, lookup_insert_eq. split.
      * intros p Hp. rewrite Hp in Hrow. destruct Hrow as [Hown _].
        right. split; [done|]. split; [congruence|]. by exists p'.
      * intros Hnone. rewrite Hnone in Hrow. destruct Hrow as [req ->].
        right. exists req, p'. by split_and!.
    + rewrite lookup_insert_ne by done. split; [by left | by left].
Qed.

(** X5. buyAsset and sellAsset never write [totalValue].  addCashToPortfolio
    and withdrawCashFromPortfolio leave the row as it was or move both
    [totalValue] and [cash] by the amount, each rounded on its own.
    createPortfolio writes no row that exists, and the row it creates has
    its initial cash as [totalValue]. *)
Theorem total_value_follows_cash_only_on_cash_operations env op s pid :
  (∀ p p',
     portfolios s !! pid = Some p →
     portfolios (route parseFloat fl env op s).2 !! pid = Some p' →
     match op with
     | Buy _ | Sell _ => totalValue p' = totalValue p
     | Deposit req =>
         p' = p
         ∨ totalValue p' = fl (totalValue p + num (cash_amount req))
           ∧ cash p' = fl (cash p + num (cash_amount req))
     | Withdraw req =>
         p' = p
         ∨ totalValue p' = fl (totalValue p - num (cash_amount req))
           ∧ cash p' = fl (cash p - num (cash_amount req))
     | Create _ => p' = p
     end)
  ∧ (∀ p',
       portfolios s !! pid = None →
       portfolios (route parseFloat fl env op s).2 !! pid = Some p' →
       ∃ req, op = Create req
              ∧ cash p' = (if truthy (create_cash req) then num (create_cash req) else 0)
              ∧ totalValue p' = cash p').
Proof.
  destruct (route parseFloat fl env op s) as [o s'] eqn:Hrun. cbn [snd]. split.
  - intros p p' Hp Hp'.
    assert (∀ pid0 q, portfolios s' = <[pid0 := q]> (portfolios s) →
              portfolios s !! pid0 = Some p ∧ pid0 = pid ∧ q = p' ∨ p' = p) as Hcase.
    { intros pid0 q Hps. rewrite Hps in Hp'.
      destruct (decide (pid0 = pid)) as [->|Hne].
      - rewrite lookup_insert_eq in Hp'. left. split_and!; congruence.
      - rewrite lookup_insert_ne in Hp' by done. right. congruence. }
    destruct op as [req|req|req|req|req]; cbn [route] in Hrun.
    + apply createPortfolio_effect in Hrun
        as (reply & -> & _ & _ & _ & _ & [(_ & Hps & _)|(q & c & -> & _ & Hfresh & Hps & _)]).
      * rewrite Hps in Hp'. congruence.
      * destruct (Hcase _ _ Hps) as [(Hq & _)| ->]; congruence.
    + apply addCashToPortfolio_effect in Hrun
        as (reply & -> & _ & _ & _ & _
            & [(_ & Hps & _)|(q & q' & -> & Hq & _ & _ & _ & -> & Hps & _)]).
      * rewrite Hps in Hp'. left. congruence.
      * destruct (Hcase _ _ Hps) as [(Hq' & _ & <-)| ->]; [|by left].
        rewrite Hq in Hq'. injection Hq' as ->. by right.
    + apply withdrawCashFromPortfolio_effect in Hrun
        as (reply & -> & _ & _ & _ & _
            & [(_ & Hps & _)|(q & q' & -> & Hq & _ & _ & _ & _ & -> & Hps & _)]).
      * rewrite Hps in Hp'. left. congruence.
      * destruct (Hcase _ _ Hps) as [(Hq' & _ & <-)| ->]; [|by left].
        rewrite Hq in Hq'. injection Hq' as ->. by right.
    + apply buyAsset_effect in Hrun as (reply & -> & _ & [[_ (Hps & _)]|Hok]).
      * rewrite Hps in Hp'. congruence.
      * destruct Hok as (q & price & aid & a & result & -> & _ & Hq & _ & _ & _ & _
                         & Hpr & _ & Hps & _).
        destruct (Hcase _ _ Hps) as [(Hq' & _ & <-)| ->]; [|done].
        rewrite Hq in Hq'. injection Hq' as ->. by rewrite Hpr.
    + apply sellAsset_effect in Hrun as (reply & -> & _ & [[_ (Hps & _)]|Hok]).
      * rewrite Hps in Hp'. congruence.
      * destruct Hok as (q & a & price & result & -> & Hq & _ & _ & _ & _ & _ & _
                         & Hpr & _ & Hps & _).
        destruct (Hcase _ _ Hps) as [(Hq' & _ & <-)| ->]; [|done].
        rewrite Hq in Hq'. injection Hq' as ->. by rewrite Hpr.
  - intros p' Hnone Hp'.
    assert (∀ pid0 q, portfolios s !! pid0 = Some q → portfolios s' !! pid = None
                      ∨ pid0 = pid → False) as Hold by (intros ? ? ? [?| ->]; congruence).
    destruct op as [req|req|req|req|req]; cbn [route] in Hrun.
    + apply createPortfolio_effect in Hrun
        as (reply & -> & _ & _ & _ & _
            & [(_ & Hps & _)|(q & c & -> & Hc & Hfresh & Hps & _ & _ & Hcash & Htotal & _)]).
      * rewrite Hps in Hp'. congruence.
      * rewrite Hps in Hp'. destruct (decide (uuid env = pid)) as [<-|Hne].
        -- rewrite lookup_insert_eq in Hp'. injection Hp' as <-.
           exists req. split_and!; congruence.
        -- rewrite lookup_insert_ne in Hp' by done. congruence.
    + apply addCashToPortfolio_effect in Hrun
        as (reply & -> & _ & _ & _ & _
            & [(_ & Hps & _)|(q & q' & -> & Hq & _ & _ & _ & -> & Hps & _)]);
        rewrite Hps in Hp'; [congruence|].
      destruct (decide (cash_portfolioId req = pid)) as [<-|Hne]; [congruence|].
      rewrite lookup_insert_ne in Hp' by done. congruence.
    + apply withdrawCashFromPortfolio_effect in Hrun
        as (reply & -> & _ & _ & _ & _
            & [(_ & Hps & _)|(q & q' & -> & Hq & _ & _ & _ & _ & -> & Hps & _)]);
        rewrite Hps in Hp'; [congruence|].
      destruct (decide (cash_portfolioId req = pid)) as [<-|Hne]; [congruence|].
      rewrite lookup_insert_ne in Hp' by done. congruence.
    + apply buyAsset_effect in Hrun as (reply & -> & _ & [[_ (Hps & _)]|Hok]);
        [rewrite Hps in Hp'; congruence|].
      destruct Hok as (q & price & aid & a & result & -> & _ & Hq & _ & _ & _ & _
                       & Hpr & _ & Hps & _).
      rewrite Hps in Hp'.
      destruct (decide (buy_portfolioId req = pid)) as [<-|Hne]; [congruence|].
      rewrite lookup_insert_ne in Hp' by done. congruence.
    + apply sellAsset_effect in Hrun as (reply & -> & _ & [[_ (Hps & _)]|Hok]);
        [rewrite Hps in Hp'; congruence|].
      destruct Hok as (q & a & price & result & -> & Hq & _ & _ & _ & _ & _ & _
                       & Hpr & _ & Hps & _).
      rewrite Hps in Hp'.
      destruct (decide (sell_portfolioId req = pid)) as [<-|Hne]; [congruence|].
      rewrite lookup_insert_ne in Hp' by done. congruence.
Qed.

(** What an operation does to the holdings: nothing, or it writes one row of
    its target portfolio: a new row for a symbol the portfolio did not hold,
    with the quantity bought, or a row that keeps its portfolio and symbol and
    whose quantity is the rounded sum with the quantity bought, or the rounded
    rest after the quantity sold, which is below it. *)
Lemma route_assets env op s :
  assets (route parseFloat fl env op s).2 = assets s
  ∨ (∃ aid a,
       assets (route parseFloat fl env op s).2 = <[aid := a]> (assets s)
       ∧ portfolioId a = target env op
       ∧ match assets s !! aid with
         | None =>
             0 < quantity a
             ∧ ∀ i r, assets s !! i = Some r → portfolioId r = portfolioId a →
                      symbol r ≠ symbol a
         | Some ex =>
             portfolioId ex = portfolioId a ∧ symbol ex = symbol a
             ∧ ∃ q, 0 < q
                    ∧ (quantity a = fl (quantity ex + q)
                       ∨ q < quantity ex ∧ quantity a = fl (quantity ex - q))
         end).
Proof.
  destruct (route parseFloat fl env op s) as [o s'] eqn:Hrun. cbn [snd].
  destruct op as [req|req|req|req|req]; cbn [route target] in *.
  - apply createPortfolio_effect in Hrun as (reply & -> & _ & Has & _). by left.
  - apply addCashToPortfolio_effect in Hrun as (reply & -> & _ & Has & _). by left.
  - apply withdrawCashFromPortfolio_effect in Hrun as (reply & -> & _ & Has & _). by left.
  - apply buyAsset_effect in Hrun as (reply & -> & _ & [[_ (_ & Has & _)]|Hok]); [by left|].
    destruct Hok as (p & price & aid & a & result & -> & _ & _ & _ & _ & Hq & _ & _ & _ & _ & _
                     & Has & Hkind).
    right. exists aid, a. split; [done|].
    destruct Hkind as [(Hfresh & Hnone & Hpid & Hsym & Hqty & _)|(ex & Hex & Hpid & Hsym & ->)].
    + split; [done|]. rewrite Hfresh. split; [by rewrite Hqty|].
      rewrite Hpid, Hsym. apply Hnone.
    + split; [done|]. rewrite Hex. cbn. split_and!; [done..|].
      exists (num (buy_quantity req)). split; [done | by left].
  - apply sellAsset_effect in Hrun as (reply & -> & _ & [[_ (_ & Has & _)]|Hok]); [by left|].
    destruct Hok as (p & a & price & result & -> & _ & _ & _ & Ha & Hpid & Hq & Hlt & _ & _ & _ & _
                     & Has).
    right. eexists _, _. split; [done|]. cbn. split; [done|]. rewrite Ha.
    split_and!; [done..|].
    exists (num (sell_quantity req)). split; [done | by right].
Qed.


(** X7. A portfolio never gets two holdings of one symbol: a purchase of a
    symbol already held is merged into the holding. *)
Theorem holdings_stay_unique env op s :
  unique_holdings s → unique_holdings (route parseFloat fl env op s).2.
Proof.
  unfold unique_holdings. intros Hs.
  destruct (route_assets env op s) as [->|(aid & a & -> & _ & Hrow)]; [done|].
  - intros i j x y Hx Hy Hpid Hsym.
    destruct (decide (i = aid)) as [->|Hi]; destruct (decide (j = aid)) as [->|Hj];
      [done|..].
    + rewrite lookup_insert_eq in Hx. rewrite lookup_insert_ne in Hy by done.
      injection Hx as <-.
      destruct (assets s !! aid) as [ex|] eqn:Hex.
      * destruct Hrow as (Hp & Hsy & _).
        apply (Hs aid j ex y); [done..|congruence|congruence].
      * destruct Hrow as (_ & Hnone). destruct (Hnone j y); try done; congruence.
    + rewrite lookup_insert_eq in Hy. rewrite lookup_insert_ne in Hx by done.
      injection Hy as <-.
      destruct (assets s !! aid) as [ex|] eqn:Hex.
      * destruct Hrow as (Hp & Hsy & _).
        apply (Hs i aid x ex); [done..|congruence|congruence].
      * destruct Hrow as (_ & Hnone). destruct (Hnone i x); try done; congruence.
    + rewrite lookup_insert_ne in Hx by done. rewrite lookup_insert_ne in Hy by done.
      by apply (Hs i j x y).
Qed.

(** X8. An operation writes holdings of the portfolio it is addressed to only:
    every holding of another portfolio is the same row before and after. *)
Theorem holdings_of_other_portfolios_untouched env op s id :
  (∀ a, assets s !! id = Some a → portfolioId a ≠ target env op →
        assets (route parseFloat fl env op s).2 !! id = Some a)
  ∧ (∀ a, assets (route parseFloat fl env op s).2 !! id = Some a →
          portfolioId a ≠ target env op → assets s !! id = Some a).
Proof.
  destruct (route_assets env op s) as [->|(aid & a & -> & Hpid & Hrow)]; [done|].
  destruct (decide (id = aid)) as [->|Hne].
  - split.
    + intros x Hx Hother. rewrite Hx in Hrow. destruct Hrow as (Hp & _). congruence.
    + intros x Hx Hother. rewrite lookup_insert_eq in Hx. congruence.
  - rewrite lookup_insert_ne by done. done.
Qed.

(** No operation removes a portfolio or changes its owner. *)
Lemma route_keeps_owners env op s pid p :
  portfolios s !! pid = Some p →
  ∃ p', portfolios (route parseFloat fl env op s).2 !! pid = Some p'
        ∧ userId p' = userId p.
Proof.
  intros Hp.
  destruct (route_summary env op s)
    as (reply & s' & Hrun & _ & [(_ & Hps & _)|(p' & added & _ & Hps & _ & _ & _ & _ & Hrow)]);
    rewrite Hrun; cbn [snd]; rewrite Hps.
  - by exists p.
  - destruct (decide (pid = target env op)) as [->|Hne].
    + rewrite lookup_insert_eq. exists p'. split; [done|].
      rewrite Hp in Hrow. by destruct Hrow.
    + rewrite lookup_insert_ne by done. by exists p.
Qed.

End Invariants.

(** *** In exact arithmetic *)

Section Exact_invariants.

Context (parseFloat : string → number).



End Exact_invariants.





Lemma portfolio_rows_change_only_for_their_owner_witness :
  portfolios (route parseDouble fl64 env_up (Withdraw (withdraw_p1_as_u2 50)) state_two_users).2
    !! "p1" = Some portfolio_100.
Proof.
  destruct (proj1 (portfolio_rows_change_only_for_their_owner parseDouble fl64 env_up
                     (Withdraw (withdraw_p1_as_u2 50)) state_two_users "p1")
              portfolio_100 eq_refl) as [Hsame|(_ & Huser & _)].
  - exact Hsame.
  - discriminate Huser.
Defined.

Lemma total_value_follows_cash_only_on_cash_operations_witness :
  (∃ p', portfolios (route parseDouble fl64 env_up (Buy (buy_xyz 2 10)) state_held).2 !! "p1"
         = Some p'
         ∧ cash p' = Qc_of_Z 80
         ∧ totalValue p' = totalValue portfolio_100)
  ∧ (∃ p', portfolios (route parseDouble fl64 env_up (Create (create_with 70)) empty_state).2
             !! "a1" = Some p'
           ∧ cash p' = Qc_of_Z 70
           ∧ totalValue p' = cash p').
Proof.
  split.
  - eexists. split; [vm_compute; reflexivity|]. split; [by apply Qc_is_canon|].
    apply (proj1 (total_value_follows_cash_only_on_cash_operations parseDouble fl64 env_up
                    (Buy (buy_xyz 2 10)) state_held "p1") portfolio_100).
    + reflexivity.
    + vm_compute. reflexivity.
  - eexists. split; [vm_compute; reflexivity|]. split; [by apply Qc_is_canon|].
    destruct (proj2 (total_value_follows_cash_only_on_cash_operations parseDouble fl64 env_up
                       (Create (create_with 70)) empty_state "a1")
                {| userId := "u1"; portfolio_name := "Second"; description := None;
                   totalValue := Qc_of_Z 70; cash := Qc_of_Z 70 |})
      as (req & _ & _ & Htotal); [reflexivity | by vm_compute | exact Htotal].
Defined.


Lemma holdings_stay_unique_witness :
  unique_holdings (route parseDouble fl64 env_up (Buy (buy_xyz 2 10)) state_held).2.
Proof.
  apply (holdings_stay_unique parseDouble fl64 env_up (Buy (buy_xyz 2 10)) state_held).
  intros i j a b Hi Hj _ _.
  change (assets state_held) with (<["a1" := holding_xyz]> (∅ : gmap string Asset)) in Hi, Hj.
  apply lookup_insert_Some in Hi as [[<- _]|[_ Hi]]; [|done].
  by apply lookup_insert_Some in Hj as [[<- _]|[_ Hj]].
Defined.

Lemma holdings_of_other_portfolios_untouched_witness :
  assets (route parseDouble fl64 env_up (Sell (sell_a1 2 30)) state_two_users).2 !! "a2"
  = Some holding_abc.
Proof.
  apply (proj1 (holdings_of_other_portfolios_untouched parseDouble fl64 env_up
                  (Sell (sell_a1 2 30)) state_two_users "a2")).
  - reflexivity.
  - discriminate.
Defined.

(** ** The oracle and the sync loop, once more *)

Section Quotes.

Context (parseFloat : string → number).

Lemma fetch_price_effect env sym cached s :
  match fetch_price parseFloat env sym cached s with
  | (Return price, s') =>
      requests s' = (requests s ++ [sym])%list
      ∧ ((marketData s' = marketData s ∧ ∃ m, cached = Some m ∧ lastPrice m = price)
         ∨ ∃ row, marketData s' = <[sym := row]> (marketData s)
                  ∧ lastPrice row = price ∧ updatedAt row = now env)
  | (Throw _, s') =>
      requests s' = (requests s ++ [sym])%list ∧ marketData s' = marketData s
  end.
Proof.
  unfold fetch_price, axios_get_symbol, marketData_upsert. unfold_monad. cbn.
  repeat case_match; simplify_eq/=; split; try done.
  all: first [left; split; [done|]; by eexists | right; eexists; by split_and!].
Qed.

(** X9. getMarketPrice touches the quote of the symbol asked only. When it
    returns a price, the cache holds a row for the symbol with that price,
    and either nothing at all changed or the provider was asked once; when it
    throws, the provider was asked once and the cache is as before. *)
Theorem oracle_writes_only_the_quote_asked env sym s :
  match getMarketPrice parseFloat env sym s with
  | (Return price, s') =>
      (∀ sym', sym' ≠ sym → marketData s' !! sym' = marketData s !! sym')
      ∧ (∃ row, marketData s' !! sym = Some row ∧ lastPrice row = price)
      ∧ (s' = s ∨ requests s' = (requests s ++ [sym])%list)
  | (Throw _, s') =>
      marketData s' = marketData s ∧ requests s' = (requests s ++ [sym])%list
  end.
Proof.
  pose proof (fetch_price_effect env sym (marketData s !! sym) s) as Heff.
  unfold getMarketPrice. rewrite try_rethrow.
  unfold marketData_findUnique. unfold_monad.
  assert (match fetch_price parseFloat env sym (marketData s !! sym) s with
          | (Return price, s') =>
              (∀ sym', sym' ≠ sym → marketData s' !! sym' = marketData s !! sym')
              ∧ (∃ row, marketData s' !! sym = Some row ∧ lastPrice row = price)
              ∧ (s' = s ∨ requests s' = (requests s ++ [sym])%list)
          | (Throw _, s') =>
              marketData s' = marketData s ∧ requests s' = (requests s ++ [sym])%list
          end) as Hfetch.
  { destruct (fetch_price parseFloat env sym (marketData s !! sym) s) as [[price|e] s'].
    - destruct Heff as [Hreq [[Hmd (m & Hm & Hprice)]|(row & Hmd & Hprice & _)]].
      + split_and!; [by rewrite Hmd | rewrite Hmd; by eauto | by right].
      + split_and!; [|rewrite Hmd, lookup_insert_eq; by eauto | by right].
        intros sym' Hne. by rewrite Hmd, lookup_insert_ne.
    - by destruct Heff. }
  destruct (marketData s !! sym) as [m|] eqn:Hm; [|done].
  destruct (now env - updatedAt m <? 5 * 60 * 1000)%Z; [|done].
  split_and!; [done | by eauto | by left].
Qed.

(** X10. A price fetched from the provider is served from the cache for the next
    five minutes: the second call returns the same price without asking the
    provider and without writing anything, whatever the provider would
    answer. *)
Theorem fetched_quote_is_served_from_cache env env' sym s q p cp :
  stale env (marketData s !! sym) →
  axios_get env sym = Resolved (Some {| Global_Quote := Some q |}) →
  price_05 q = Some p → p ≠ "" →
  change_percent_10 q = Some cp →
  (now env' - now env < 5 * 60 * 1000)%Z →
  ∃ s1,
    getMarketPrice parseFloat env sym s = (Return (parseFloat p), s1)
    ∧ requests s1 = (requests s ++ [sym])%list
    ∧ getMarketPrice parseFloat env' sym s1 = (Return (parseFloat p), s1).
Proof.
  intros Hstale Hget Hp Hne Hcp Hage.
  eexists. split.
  { rewrite (getMarketPrice_stale parseFloat env sym s Hstale).
    by apply (fetch_price_success parseFloat env sym s q p cp). }
  split; [done|].
  assert (lastPrice (refreshed parseFloat env sym q (marketData s !! sym)) = parseFloat p)
    as Hprice by (cbn; by rewrite Hp).
  rewrite <- Hprice.
  apply (getMarketPrice_fresh parseFloat env' sym).
  - cbn. apply lookup_insert_eq.
  - done.
Qed.

(** A refresh of a quote that the provider answers with a price and a change
    percent stores the row and throws on the broadcast. *)
Lemma fetchMarketData_stored env sym s q p cp :
  axios_get env sym = Resolved (Some {| Global_Quote := Some q |}) →
  price_05 q = Some p → p ≠ "" →
  change_percent_10 q = Some cp →
  fetchMarketData parseFloat env sym s
    = (Throw TypeError,
       set_marketData (insert sym (refreshed parseFloat env sym q (marketData s !! sym)))
         (set_requests (λ l, (l ++ [sym])%list) s)).
Proof.
  intros Hget Hp Hne Hcp.
  unfold fetchMarketData, axios_get_symbol, marketData_upsert, io_emit, app_io, refreshed.
  rewrite try_rethrow. unfold_monad.
  cbn. rewrite Hget. cbn. rewrite Hp, (truthy_str_Some p Hne), Hcp. cbn.
  by destruct (marketData s !! sym).
Qed.

(** X11. fetchMarketData, for a symbol that the provider answers with a price
    and a change percent, stores the quote and then throws a TypeError on the
    broadcast, the [io] of the module being undefined: nothing is emitted.
    The stored quote is the price getMarketPrice serves within the next five
    minutes without asking the provider. *)
Theorem sync_refresh_feeds_the_oracle env env' sym s q p cp :
  axios_get env sym = Resolved (Some {| Global_Quote := Some q |}) →
  price_05 q = Some p → p ≠ "" →
  change_percent_10 q = Some cp →
  (now env' - now env < 5 * 60 * 1000)%Z →
  ∃ row s1,
    fetchMarketData parseFloat env sym s = (Throw TypeError, s1)
    ∧ lastPrice row = parseFloat p
    ∧ updatedAt row = now env
    ∧ marketData s1 !! sym = Some row
    ∧ requests s1 = (requests s ++ [sym])%list
    ∧ emitted s1 = emitted s
    ∧ getMarketPrice parseFloat env' sym s1 = (Return (parseFloat p), s1).
Proof.
  intros Hget Hp Hne Hcp Hage.
  eexists _, _. split.
  { by apply (fetchMarketData_stored env sym s q p cp). }
  assert (lastPrice (refreshed parseFloat env sym q (marketData s !! sym)) = parseFloat p)
    as Hprice by (cbn; by rewrite Hp).
  split; [done|]. split; [done|]. split; [cbn; apply lookup_insert_eq|].
  split; [done|]. split; [done|].
  rewrite <- Hprice.
  apply (getMarketPrice_fresh parseFloat env' sym).
  - cbn. apply lookup_insert_eq.
  - done.
Qed.

(** X12. fetchMarketData always throws: [io], which the module imports from an
    app module that does not export it, is undefined, so that a refresh that
    stored its row throws a TypeError on the broadcast.  It asks the provider
    exactly once, emits nothing and writes no portfolio, holding or
    transaction.  The row of the symbol is the refreshed quote, stamped with
    the current time, when the provider's answer carries a price and a change
    percent, and is as before otherwise; no other row is written. *)
Theorem refresh_stores_and_throws env sym s :
  ∃ e s',
    fetchMarketData parseFloat env sym s = (Throw e, s')
    ∧ requests s' = (requests s ++ [sym])%list
    ∧ emitted s' = emitted s
    ∧ same_ledger_tables s s'
    ∧ match usable_quote env sym with
      | Some q =>
          e = TypeError
          ∧ marketData s' !! sym = Some (refreshed parseFloat env sym q (marketData s !! sym))
          ∧ updatedAt (refreshed parseFloat env sym q (marketData s !! sym)) = now env
      | None => marketData s' !! sym = marketData s !! sym
      end
    ∧ (∀ sym', sym' ≠ sym → marketData s' !! sym' = marketData s !! sym').
Proof.
  unfold fetchMarketData, usable_quote, axios_get_symbol, marketData_upsert, io_emit,
    app_io, refreshed.
  rewrite try_rethrow. unfold_monad. cbn.
  destruct (axios_get env sym) as [|[[[q|]]|]]; cbn;
    [eexists _, _; by split_and! | | eexists _, _; by split_and!..].
  destruct (change_percent_10 q) as [cp|] eqn:Hcp;
    destruct (truthy_str (price_05 q)) eqn:Hp; cbn;
    [|eexists _, _; by split_and!..].
  eexists _, _. split; [reflexivity|]. cbn. rewrite Hcp. cbn.
  split_and!; try done.
  - rewrite lookup_insert_eq. by destruct (marketData s !! sym).
  - intros sym' Hne. by rewrite lookup_insert_ne.
Qed.

(** X13. fetchAllMarketData never throws and returns no row, every refresh
    throwing.  It asks the provider once per tracked symbol, in the order of
    TRACKED_SYMBOLS, stores the quote of every tracked symbol that the
    provider answers with a price and a change percent, and emits nothing;
    the quotes of the other symbols, the portfolios, the holdings and the
    transactions are as before. *)
Theorem full_sync_asks_every_symbol_once env s :
  ∃ s',
    fetchAllMarketData parseFloat env s = (Return [], s')
    ∧ requests s' = (requests s ++ TRACKED_SYMBOLS)%list
    ∧ emitted s' = emitted s
    ∧ (∀ sym, marketData s' !! sym
              = synced parseFloat env TRACKED_SYMBOLS sym (marketData s !! sym))
    ∧ same_ledger_tables s s'.
Proof.
  destruct (fetch_loop_run parseFloat env TRACKED_SYMBOLS [] s TRACKED_SYMBOLS_NoDup)
    as (s' & Hrun & Hreq & Hrows & (Hps & Has & Hts & Hem)).
  exists s'. unfold fetchAllMarketData. rewrite try_rethrow.
  by split_and!.
Qed.

End Quotes.

Lemma fetched_quote_is_served_from_cache_witness :
  ∃ s1,
    getMarketPrice parseDecimal env_up "AAPL" state_stale = (Return (parseDecimal "189.50"), s1)
    ∧ requests s1 = ["AAPL"]
    ∧ getMarketPrice parseDecimal env_down "AAPL" s1 = (Return (parseDecimal "189.50"), s1).
Proof.
  apply (fetched_quote_is_served_from_cache parseDecimal env_up env_down "AAPL" state_stale
           quote_up "189.50" "0.66%").
  - vm_compute. discriminate.
  - reflexivity.
  - reflexivity.
  - discriminate.
  - reflexivity.
  - reflexivity.
Defined.

Lemma sync_refresh_feeds_the_oracle_witness :
  ∃ row s1,
    fetchMarketData parseDouble env_up "MSFT" empty_state = (Throw TypeError, s1)
    ∧ lastPrice row = parseDouble "189.50"
    ∧ updatedAt row = 1000000%Z
    ∧ marketData s1 !! "MSFT" = Some row
    ∧ requests s1 = ["MSFT"]
    ∧ emitted s1 = []
    ∧ getMarketPrice parseDouble env_down "MSFT" s1 = (Return (parseDouble "189.50"), s1).
Proof.
  apply (sync_refresh_feeds_the_oracle parseDouble env_up env_down "MSFT" empty_state
           quote_up "189.50" "0.66%").
  - reflexivity.
  - reflexivity.
  - discriminate.
  - reflexivity.
  - reflexivity.
Defined.

(** ** Revaluation *)


Lemma repriced_refl a : repriced a a.
Proof. by destruct a. Qed.

Section Revaluation.

Context (parseFloat : string → number) (fl : number → number).

(** The callback of the pass writes at most the current price of its own
    row. *)
Lemma update_price_effect env r s :
  assets s !! r.1 = Some r.2 →
  ∃ a' s', update_price parseFloat env r s = (Return (r.1, a'), s')
           ∧ repriced r.2 a'
           ∧ portfolios s' = portfolios s
           ∧ transactions s' = transactions s
           ∧ emitted s' = emitted s
           ∧ assets s' = <[r.1 := a']> (assets s).
Proof.
  intros Hrow.
  pose proof (getMarketPrice_ledger parseFloat env (symbol r.2) s) as Hled.
  destruct (getMarketPrice parseFloat env (symbol r.2) s) as [[price|e] s1] eqn:Hget;
    destruct Hled as (Hps & Has & Hts & Hem); cbn [snd] in *.
  - eexists _, _. split; [by apply update_price_success|].
    cbn. split_and!; try done. by rewrite Has.
  - destruct (update_price_failure parseFloat env r s e s1 Hget) as [Hrun _].
    exists r.2, s1. split_and!; try done.
    + by rewrite Hrun; destruct r.
    + apply repriced_refl.
    + by rewrite Has, insert_id.
Qed.

(** The pass over the holdings [rows]: the entries returned are the rows
    stored afterwards, each repriced at most; no other row is written. *)
Lemma revaluation_effect env rows s :
  NoDup rows.*1 →
  Forall (λ r, assets s !! r.1 = Some r.2) rows →
  ∃ updated s',
    mapM (update_price parseFloat env) rows s = (Return updated, s')
    ∧ Forall2 (λ r r', r'.1 = r.1 ∧ repriced r.2 r'.2) rows updated
    ∧ portfolios s' = portfolios s
    ∧ transactions s' = transactions s
    ∧ emitted s' = emitted s
    ∧ Forall (λ r, assets s' !! r.1 = Some r.2) updated
    ∧ (∀ id, id ∉ rows.*1 → assets s' !! id = assets s !! id).
Proof.
  revert s. induction rows as [|r rows IH]; intros s Hnd Hrows.
  - exists [], s. by split_and!; try done; constructor.
  - cbn in Hnd. apply NoDup_cons_1_1 in Hnd as Hr. apply NoDup_cons_1_2 in Hnd.
    apply Forall_cons_1 in Hrows as [Hrow Hrows].
    destruct (update_price_effect env r s Hrow)
      as (a' & s1 & Hr' & Hrep & Hps1 & Hts1 & Hem1 & Has1).
    destruct (IH s1) as (updated & s' & Hrun & Hall2 & Hps & Hts & Hem & Hall & Hframe); [done| |].
    { apply Forall_forall. intros x Hx. rewrite Forall_forall in Hrows.
      rewrite Has1, lookup_insert_ne; [by apply Hrows|].
      intros Heq. apply Hr. rewrite Heq.
      by apply list_elem_of_fmap_2, list_elem_of_In. }
    exists ((r.1, a') :: updated), s'. cbn. unfold_monad. rewrite Hr', Hrun.
    split_and!; [done| by constructor | congruence.. | |].
    + constructor; [|done]. cbn.
      rewrite Hframe; [|done]. by rewrite Has1, lookup_insert_eq.
    + intros id Hid'. apply not_elem_of_cons in Hid' as [Hne Hnotin].
      rewrite Hframe; [|done]. by rewrite Has1, lookup_insert_ne.
Qed.

(** The paths of updateAssetPrices: refused with the state as it was, or the
    pass over the holdings of the caller's portfolio and then the total. *)
Lemma updateAssetPrices_cases env req s :
  (∃ reply, updateAssetPrices parseFloat fl env req s = (Return reply, s)
            ∧ (status reply = 401 ∨ status reply = 404)%Z)
  ∨ ∃ p updated s1,
      portfolios s !! prices_portfolioId req = Some p
      ∧ prices_user req = Some (userId p)
      ∧ mapM (update_price parseFloat env) (portfolio_assets (prices_portfolioId req) s) s
        = (Return updated, s1)
      ∧ Forall2 (λ r r', r'.1 = r.1 ∧ repriced r.2 r'.2)
                (portfolio_assets (prices_portfolioId req) s) updated
      ∧ portfolios s1 = portfolios s
      ∧ transactions s1 = transactions s
      ∧ emitted s1 = emitted s
      ∧ Forall (λ r, assets s1 !! r.1 = Some r.2) updated
      ∧ (∀ id, id ∉ (portfolio_assets (prices_portfolioId req) s).*1 →
               assets s1 !! id = assets s !! id)
      ∧ let p' := {| userId := userId p; portfolio_name := portfolio_name p;
                     description := description p;
                     totalValue := fl (assetValue fl updated + cash p);
                     cash := cash p |} in
        updateAssetPrices parseFloat fl env req s
        = (Return {| status := 200; json := PricesBody p' updated |},
           set_portfolios (insert (prices_portfolioId req) p') s1).
Proof.
  destruct (truthy_str (prices_user req)) eqn:Huser.
  2:{ left. eexists. unfold updateAssetPrices, try_catch. unfold_monad.
      rewrite Huser. cbn. split; [done|]. by left. }
  destruct (prices_user req) as [uid|] eqn:Huid; [|done]. cbn in Huser.
  apply negb_true_iff, String.eqb_neq in Huser.
  destruct (portfolios s !! prices_portfolioId req) as [p|] eqn:Hp.
  2:{ left. eexists. unfold updateAssetPrices, try_catch, portfolio_findFirst. unfold_monad.
      rewrite Huid, (truthy_str_Some _ Huser). cbn [negb str from_option id].
      rewrite Hp. split; [done|]. by right. }
  destruct (String.eqb (userId p) uid) eqn:Hown.
  2:{ left. eexists. unfold updateAssetPrices, try_catch, portfolio_findFirst. unfold_monad.
      rewrite Huid, (truthy_str_Some _ Huser). cbn [negb str from_option id].
      rewrite Hp, Hown. split; [done|]. by right. }
  apply String.eqb_eq in Hown.
  destruct (portfolio_assets_rows (prices_portfolioId req) s) as [Hnd Hrows].
  destruct (revaluation_effect env _ s Hnd Hrows)
    as (updated & s1 & Hrun & Hall2 & Hps & Hts & Hem & Hall & Hframe).
  right. exists p, updated, s1. split_and!; try done; [by rewrite Hown|].
  by apply (updateAssetPrices_run parseFloat fl env req s p uid).
Qed.

(** The ids of the holdings of a portfolio are the ids of the rows that
    carry its id. *)
Lemma portfolio_assets_ids pid s id :
  id ∈ (portfolio_assets pid s).*1
  ↔ ∃ a, assets s !! id = Some a ∧ portfolioId a = pid.
Proof.
  unfold portfolio_assets. split.
  - intros Hin. apply list_elem_of_fmap in Hin as ([id' a] & -> & Hin).
    apply list_elem_of_In, filter_In in Hin as [Hin Hpid].
    apply list_elem_of_In, elem_of_map_to_list in Hin.
    exists a. split; [done|]. by apply String.eqb_eq.
  - intros (a & Ha & Hpid).
    apply (list_elem_of_fmap_2 fst _ (id, a)), list_elem_of_In, filter_In.
    split; [by apply list_elem_of_In, elem_of_map_to_list|]. by apply String.eqb_eq.
Qed.

(** X14. updateAssetPrices always answers 200, 401 or 404. It logs no
    transaction and emits nothing; it creates and deletes no holding and
    writes at most the current price of holdings of the portfolio addressed,
    and only with a reply 200; it creates and deletes no portfolio, keeps
    owner, cash, name and description of every portfolio, and writes the
    portfolio addressed only, with a reply 200. *)
Theorem revaluation_only_reprices env req s :
  ∃ reply s',
    updateAssetPrices parseFloat fl env req s = (Return reply, s')
    ∧ (status reply = 200 ∨ status reply = 401 ∨ status reply = 404)%Z
    ∧ transactions s' = transactions s
    ∧ emitted s' = emitted s
    ∧ (∀ id, match assets s !! id with
             | Some a =>
                 ∃ a', assets s' !! id = Some a' ∧ repriced a a'
                       ∧ (status reply ≠ 200%Z ∨ portfolioId a ≠ prices_portfolioId req → a' = a)
             | None => assets s' !! id = None
             end)
    ∧ (∀ pid, match portfolios s !! pid with
              | Some p =>
                  ∃ p', portfolios s' !! pid = Some p'
                        ∧ userId p' = userId p ∧ cash p' = cash p
                        ∧ portfolio_name p' = portfolio_name p
                        ∧ description p' = description p
                        ∧ (status reply ≠ 200%Z ∨ pid ≠ prices_portfolioId req → p' = p)
              | None => portfolios s' !! pid = None
              end).
Proof.
  destruct (updateAssetPrices_cases env req s)
    as [(reply & Hrun & Hst)
       |(p & updated & s1 & Hp & Huser & Hpass & Hall2 & Hps & Hts & Hem & Hall & Hframe & Hrun)].
  - exists reply, s. split_and!; try done.
    + by destruct Hst; [right; left | right; right].
    + intros id. destruct (assets s !! id) as [a|]; [|done].
      exists a. split_and!; try done. apply repriced_refl.
    + intros pid. destruct (portfolios s !! pid) as [q|]; [|done]. by exists q.
  - eexists _, _. split; [exact Hrun|]. cbn. split_and!; try done; [by left| |].
    + intros id. destruct (decide (id ∈ (portfolio_assets (prices_portfolioId req) s).*1))
        as [Hin|Hout].
      * apply list_elem_of_fmap in Hin as (r & -> & Hin).
        destruct (portfolio_assets_rows (prices_portfolioId req) s) as [_ Hrows].
        rewrite Forall_forall in Hrows. apply list_elem_of_In in Hin as Hin'.
        rewrite (Hrows _ Hin').
        apply list_elem_of_lookup in Hin as (i & Hi).
        destruct (Forall2_lookup_l _ _ _ _ _ Hall2 Hi) as (r' & Hi' & Hid & Hrep).
        exists r'.2. rewrite <- Hid. split_and!; try done.
        -- rewrite Forall_forall in Hall. apply Hall.
           apply list_elem_of_In. by apply list_elem_of_lookup_2 in Hi'.
        -- intros [Hne|Hne]; [done|]. exfalso. apply Hne.
           assert (r.1 ∈ (portfolio_assets (prices_portfolioId req) s).*1) as Hmem
             by (apply list_elem_of_fmap_2; by apply list_elem_of_lookup_2 in Hi).
           apply portfolio_assets_ids in Hmem as (a & Ha & Hpid).
           rewrite (Hrows _ Hin') in Ha. by injection Ha as ->.
      * rewrite (Hframe _ Hout). destruct (assets s !! id) as [a|]; [|done].
        exists a. split_and!; try done. apply repriced_refl.
    + intros pid. rewrite Hps.
      destruct (decide (pid = prices_portfolioId req)) as [->|Hne].
      * rewrite Hp, lookup_insert_eq. eexists. split; [done|]. cbn.
        split_and!; try done. by intros [|].
      * rewrite lookup_insert_ne by done.
        destruct (portfolios s !! pid) as [q|]; [|done]. by exists q.
Qed.

End Revaluation.

(** *** In exact arithmetic *)

Section Exact_revaluation.

Context (parseFloat : string → number).


End Exact_revaluation.



(** ** A trade and its reverse *)

Lemma truthy_of_pos (x : option number) : 0 < num x → truthy x = true.
Proof.
  destruct x as [v|]; cbn; [apply truthy_pos|].
  intros H. discriminate H.
Qed.

(** A withdrawal of a valid amount that the cash covers, by the owner, is
    executed. *)
Lemma withdrawCashFromPortfolio_accepts fl env req s p :
  truthy_str (cash_user req) = true → 0 < num (cash_amount req) →
  portfolios s !! cash_portfolioId req = Some p → userId p = str (cash_user req) →
  num (cash_amount req) ≤ cash p →
  let p' := {| userId := userId p; portfolio_name := portfolio_name p;
               description := description p;
               totalValue := fl (totalValue p - num (cash_amount req));
               cash := fl (cash p - num (cash_amount req)) |} in
  ∃ s',
    withdrawCashFromPortfolio fl env req s
    = (Return {| status := 200; json := PortfolioBody p' |}, s')
    ∧ portfolios s' = <[cash_portfolioId req := p']> (portfolios s)
    ∧ assets s' = assets s
    ∧ transactions s'
      = (transactions s ++ [ {| tx_type := WITHDRAWAL; tx_quantity := 1;
                                tx_price := num (cash_amount req);
                                totalAmount := num (cash_amount req);
                                tx_userId := str (cash_user req);
                                tx_portfolioId := cash_portfolioId req;
                                assetId := None |} ])%list.
Proof.
  intros Huser Hpos Hp Hown Hle p'.
  unfold withdrawCashFromPortfolio. unfold_prisma. unfold_monad.
  rewrite Huser, (truthy_of_pos _ Hpos), (proj2 (leb_gt _ _) Hpos). cbn.
  rewrite Hp, Hown, String.eqb_refl, (proj2 (ltb_ge _ _) Hle). cbn. rewrite Hp. cbn.
  rewrite lookup_insert_eq. by eexists.
Qed.

Section Round_trips.

Context (parseFloat : string → number) (fl : number → number).

(** X16. A deposit and then a withdrawal of the same amount.  After an
    accepted deposit of [a] into a portfolio with the cash [c], the withdrawal
    of [a] is accepted as soon as [a] is at most [c + a] as rounded; the row
    then has the cash [c + a], rounded, less [a], rounded, its total value
    likewise, and its owner, name and description as before; both
    transactions are logged, with the amount [a]. *)
Theorem deposit_then_withdrawal env env' req s reply s1 p :
  portfolios s !! cash_portfolioId req = Some p →
  addCashToPortfolio fl env req s = (Return reply, s1) →
  status reply = 200%Z →
  num (cash_amount req) ≤ fl (cash p + num (cash_amount req)) →
  let a := num (cash_amount req) in
  let p2 := {| userId := userId p; portfolio_name := portfolio_name p;
               description := description p;
               totalValue := fl (fl (totalValue p + a) - a);
               cash := fl (fl (cash p + a) - a) |} in
  ∃ s2 t1 t2,
    withdrawCashFromPortfolio fl env' req s1
    = (Return {| status := 200; json := PortfolioBody p2 |}, s2)
    ∧ portfolios s2 = <[cash_portfolioId req := p2]> (portfolios s)
    ∧ transactions s2 = (transactions s ++ [t1; t2])%list
    ∧ tx_type t1 = DEPOSIT ∧ tx_type t2 = WITHDRAWAL
    ∧ totalAmount t1 = a ∧ totalAmount t2 = a.
Proof.
  intros Hp Hrun Hstatus Hcovered a p2.
  destruct (addCashToPortfolio_effect fl env req s _ _ Hrun)
    as (r & Hr & _ & _ & _ & _
        & [(Hst & _)|(p0 & p' & Hreply & Hp0 & Hown & Huser & Hpos & Hp' & Hps & Hts)]).
  { injection Hr as <-. done. }
  rewrite Hp in Hp0. injection Hp0 as <-.
  destruct (withdrawCashFromPortfolio_accepts fl env' req s1 p')
    as (s2 & Hrun2 & Hps2 & _ & Hts2); try done.
  - by rewrite Hps, lookup_insert_eq.
  - by rewrite Hp'.
  - by rewrite Hp'.
  - cbn zeta in Hrun2, Hps2. rewrite Hp' in Hrun2, Hps2. cbn in Hrun2, Hps2.
    exists s2. eexists _, _. split; [exact Hrun2|].
    split; [by rewrite Hps2, Hps, insert_insert_eq|].
    split; [by rewrite Hts2, Hts, <- app_assoc|]. by split_and!.
Qed.

(** X17. Selling back what was just bought.  After a purchase of the quantity
    [q] that was merged into a holding, the sale of [q] of that holding at the
    price of the purchase is accepted as soon as [q] is below the merged
    quantity.  The cash is the cash before the purchase less the total of
    the purchase, rounded, plus that total, rounded; the quantity of the
    holding is the merged quantity less [q], rounded; the holding keeps the
    weighted average purchase price that the purchase gave it.  Both trades
    stay logged, with equal amounts. *)
Theorem sell_back_after_merge env env' breq s reply result s1 aid ex :
  buyAsset parseFloat fl env breq s = (Return reply, s1) →
  status reply = 200%Z →
  json reply = TradeBody result →
  assetId (transaction result) = Some aid →
  tx_price (transaction result) ≠ 0 →
  assets s !! aid = Some ex →
  num (buy_quantity breq) < fl (quantity ex + num (buy_quantity breq)) →
  let q := num (buy_quantity breq) in
  let total := totalAmount (transaction result) in
  let sreq := {| sell_user := buy_user breq; sell_portfolioId := buy_portfolioId breq;
                 sell_assetId := aid; sell_quantity := buy_quantity breq;
                 sell_price := Some (tx_price (transaction result)) |} in
  ∃ p result2 s2 a2,
    portfolios s !! buy_portfolioId breq = Some p
    ∧ sellAsset parseFloat fl env' sreq s1
      = (Return {| status := 200; json := TradeBody result2 |}, s2)
    ∧ portfolios s2 = <[buy_portfolioId breq := portfolio result2]> (portfolios s)
    ∧ cash (portfolio result2) = fl (fl (cash p - total) + total)
    ∧ totalValue (portfolio result2) = totalValue p
    ∧ assets s2 = <[aid := a2]> (assets s)
    ∧ quantity a2 = fl (fl (quantity ex + q) - q)
    ∧ purchasePrice a2
      = fl (fl (fl (purchasePrice ex * quantity ex) + total) / fl (quantity ex + q))
    ∧ transactions s2 = (transactions s ++ [transaction result; transaction result2])%list
    ∧ totalAmount (transaction result2) = total.
Proof.
  intros Hrun Hstatus Hjson Haid Hprice Hex Hbelow q total sreq.
  destruct (buyAsset_effect parseFloat fl env breq s _ _ Hrun)
    as (r & Hr & _ & [(Hst & _)
                     |(p & price & aid' & a & result' & Hreply & Hasset & Hp & Hown & Huser
                       & Hqty & Hle & Hpf & Htx & Hps & Hts & Has & Hrow)]).
  { injection Hr as <-. done. }
  injection Hr as <-. rewrite Hreply in Hjson. injection Hjson as ->.
  subst total. rewrite Htx in Haid, Hprice |- *. cbn in Haid, Hprice. injection Haid as ->.
  destruct Hrow as [(Hnone & _)|(ex' & Hex' & Hpid & Hsym & Ha)]; [congruence|].
  rewrite Hex in Hex'. injection Hex' as <-.
  subst sreq q.
  assert (portfolios s1 !! buy_portfolioId breq = Some (portfolio result)) as Hp1
    by (by rewrite Hps, lookup_insert_eq).
  assert (assets s1 !! aid = Some a) as Ha1 by (by rewrite Has, lookup_insert_eq).
  exists p.
  rewrite (sellAsset_unfold parseFloat fl env' _ s1 (portfolio result) a); try done.
  2:{ cbn [sell_quantity]. rewrite (truthy_of_pos _ Hqty). by rewrite (proj2 (leb_gt _ _) Hqty). }
  2:{ by rewrite Hpf. }
  2:{ by rewrite Ha. }
  cbn [sell_quantity sell_price sell_assetId sell_portfolioId sell_user tx_price totalAmount].
  assert (ltb (quantity a) (num (buy_quantity breq)) = false) as ->.
  { apply ltb_ge. rewrite Ha. cbn [quantity]. by apply Qclt_le_weak. }
  rewrite ?Htx. cbn [tx_price totalAmount].
  rewrite (resolve_price_explicit parseFloat env' (symbol a) price s1 Hprice).
  rewrite (sell_transaction_part fl _ a price _ s1 a (portfolio result)); try done.
  2:{ apply eqb_neq. rewrite Ha. cbn [quantity sell_quantity]. intros Heq.
      rewrite Heq in Hbelow. by apply Qclt_not_eq in Hbelow. }
  cbn [sell_quantity sell_price sell_assetId sell_portfolioId sell_user].
  eexists _, _, _. split; [done|]. split; [reflexivity|]. cbn.
  split_and!.
  - by rewrite Hps, insert_insert_eq.
  - by rewrite Hpf.
  - by rewrite Hpf.
  - rewrite Has, insert_insert_eq. reflexivity.
  - by rewrite Ha.
  - by rewrite Ha.
  - rewrite Hts, <- app_assoc. rewrite Htx. reflexivity.
  - reflexivity.
Qed.

End Round_trips.

(** *** A round trip in double precision *)

Lemma deposit_then_withdrawal_witness :
  ∃ p2 s2,
    withdrawCashFromPortfolio fl64 env_up (cash_p1 (double 2 10))
      (addCashToPortfolio fl64 env_up (cash_p1 (double 2 10)) (state_with (double 1 10))).2
    = (Return {| status := 200; json := PortfolioBody p2 |}, s2)
    ∧ portfolios s2 !! "p1" = Some p2
    ∧ cash p2 = Q2Qc (1801439850948199 # 18014398509481984)
    ∧ cash p2 ≠ double 1 10.
Proof.
  destruct (addCashToPortfolio fl64 env_up (cash_p1 (double 2 10)) (state_with (double 1 10)))
    as [[reply|e] s1] eqn:Hrun; [|vm_compute in Hrun; discriminate Hrun].
  destruct (deposit_then_withdrawal fl64 env_up env_up (cash_p1 (double 2 10))
              (state_with (double 1 10)) reply s1 (portfolio_with (double 1 10)))
    as (s2 & t1 & t2 & Hrun2 & Hps & _).
  - reflexivity.
  - exact Hrun.
  - vm_compute in Hrun. by injection Hrun as <- _.
  - by vm_compute.
  - eexists _, s2. split; [exact Hrun2|]. split; [by rewrite Hps, lookup_insert_eq|].
    cbn [cash]. split.
    + apply Qc_is_canon. by vm_compute.
    + intros H. apply (f_equal this) in H. vm_compute in H. discriminate H.
Defined.

Lemma sell_back_after_merge_witness :
  ∃ result2 s2 a2,
    sellAsset parseDouble fl64 env_down (sell_a1 2 10)
      (buyAsset parseDouble fl64 env_down (buy_xyz 2 10) state_held).2
    = (Return {| status := 200; json := TradeBody result2 |}, s2)
    ∧ cash (portfolio result2) = Qc_of_Z 100
    ∧ assets s2 = <["a1" := a2]> (assets state_held)
    ∧ quantity a2 = Qc_of_Z 5
    ∧ purchasePrice a2 = double 120 7.
Proof.
  destruct (buyAsset parseDouble fl64 env_down (buy_xyz 2 10) state_held)
    as [[reply|e] s1] eqn:Hrun; [|vm_compute in Hrun; discriminate Hrun].
  pose proof Hrun as Hvalue. vm_compute in Hvalue. injection Hvalue as Hreply Hs1.
  destruct reply as [st [?|result|?|? ?]]; try discriminate Hreply.
  injection Hreply as Hst Hresult.
  destruct (sell_back_after_merge parseDouble fl64 env_down env_down
              (buy_xyz 2 10) state_held _ result s1 "a1" holding_xyz Hrun)
    as (p & result2 & s2 & a2 & Hp & Hsell & Hps & Hcash & _ & Has & Hqty & Hpp & _).
  - by rewrite <- Hst.
  - reflexivity.
  - by rewrite <- Hresult.
  - by rewrite <- Hresult.
  - reflexivity.
  - by vm_compute.
  - exists result2, s2, a2. injection Hp as <-. rewrite <- Hresult in Hsell, Hcash, Hpp.
    split_and!; [exact Hsell | | exact Has | |].
    + rewrite Hcash. apply Qc_is_canon. by vm_compute.
    + rewrite Hqty. apply Qc_is_canon. by vm_compute.
    + rewrite Hpp. apply Qc_is_canon. by vm_compute.
Defined.

(** ** Rooms *)

Lemma user_room_inj a b : ("user:" ++ a = "user:" ++ b)%string → a = b.
Proof. intros H. by injection H. Qed.

Lemma portfolio_room_inj a b : ("portfolio:" ++ a = "portfolio:" ++ b)%string → a = b.
Proof. intros H. by injection H. Qed.

Lemma user_room_not_portfolio a b : ("user:" ++ a)%string ≠ ("portfolio:" ++ b)%string.
Proof. discriminate. Qed.

Lemma authorised_connection s uid : authorised s (on_connection uid).
Proof.
  unfold on_connection, authorised. intros r.
  destruct (truthy_str (Some uid)); cbn; intros Hr.
  - left. apply elem_of_union in Hr as [Hr|Hr]; [by apply elem_of_singleton in Hr|].
    by apply elem_of_empty in Hr.
  - by apply elem_of_empty in Hr.
Qed.

(** A subscription never throws and leaves the tables alone; the socket
    joins the room of the portfolio when its user owns the portfolio, and is
    told that access is denied otherwise. *)
Lemma subscribe_portfolio_effect pid sk s :
  match portfolios s !! pid with
  | Some p =>
      if decide (userId p = socket_userId sk) then
        subscribe_portfolio pid sk s = (Return (socket_join ("portfolio:" ++ pid) sk, []), s)
      else
        subscribe_portfolio pid sk s = (Return (sk, ["Access denied to this portfolio"]), s)
  | None =>
      subscribe_portfolio pid sk s = (Return (sk, ["Access denied to this portfolio"]), s)
  end.
Proof.
  unfold subscribe_portfolio, verifyPortfolioAccess, portfolio_findFirst. unfold_monad.
  destruct (portfolios s !! pid) as [p|]; [|done].
  destruct (decide (userId p = socket_userId sk)) as [->|Hne].
  - by rewrite String.eqb_refl.
  - apply String.eqb_neq in Hne. by rewrite Hne.
Qed.

Section Rooms.

Context (parseFloat : string → number) (fl : number → number).

Lemma handle_keeps_authorised c ev :
  authorised c.1 c.2 → authorised (handle parseFloat fl c ev).1 (handle parseFloat fl c ev).2.
Proof.
  destruct c as [s sk]. cbn [fst snd]. intros Hauth.
  destruct ev as [env op|pid|pid]; cbn [handle fst snd].
  - intros r Hr. destruct (Hauth r Hr) as [->|(pid & p & -> & Hp & Hown)]; [by left|].
    right. destruct (route_keeps_owners parseFloat fl env op s pid p Hp) as (p' & Hp' & Hown').
    exists pid, p'. split_and!; [done..|congruence].
  - pose proof (subscribe_portfolio_effect pid sk s) as Hsub.
    destruct (portfolios s !! pid) as [p|] eqn:Hp;
      [destruct (decide (userId p = socket_userId sk)) as [Hown|Hown]|];
      rewrite Hsub; cbn [fst snd]; try done.
    intros r Hr. cbn in Hr. apply elem_of_union in Hr as [Hr|Hr]; [|by apply Hauth].
    apply elem_of_singleton in Hr as ->. right. by exists pid, p.
  - intros r Hr. cbn in Hr. apply elem_of_difference in Hr as [Hr _]. by apply Hauth.
Qed.

Lemma handle_keeps_user ev c :
  socket_userId (handle parseFloat fl c ev).2 = socket_userId c.2
  ∧ ∀ uid, ("user:" ++ uid)%string ∈ socket_rooms c.2 →
           ("user:" ++ uid)%string ∈ socket_rooms (handle parseFloat fl c ev).2.
Proof.
  destruct c as [s sk]. destruct ev as [env op|pid|pid]; cbn [handle fst snd]; [done| |].
  - pose proof (subscribe_portfolio_effect pid sk s) as Hsub.
    destruct (portfolios s !! pid) as [p|];
      [destruct (decide (userId p = socket_userId sk))|]; rewrite Hsub; try done.
    split; [done|]. intros uid Hin. cbn. apply elem_of_union. by right.
  - split; [done|]. intros uid Hin. cbn. apply elem_of_difference. split; [done|].
    intros Heq. apply elem_of_singleton in Heq. by apply user_room_not_portfolio in Heq.
Qed.

(** X18. Whichever of the five ledger operations are served, for whatever
    user, and whatever the socket subscribes to or
    unsubscribes from after it connected, every room the socket is in is the
    room of its user or the room of a portfolio its user owns; the socket
    keeps its user and, when the user id is not empty, stays in the room of
    its user. *)
Theorem rooms_stay_authorised events s uid :
  let c := foldl (handle parseFloat fl) (s, on_connection uid) events in
  authorised c.1 c.2
  ∧ socket_userId c.2 = uid
  ∧ (truthy_str (Some uid) = true → ("user:" ++ uid)%string ∈ socket_rooms c.2).
Proof.
  assert (∀ c, authorised c.1 c.2 →
               let c' := foldl (handle parseFloat fl) c events in
               authorised c'.1 c'.2
               ∧ socket_userId c'.2 = socket_userId c.2
               ∧ ∀ u, ("user:" ++ u)%string ∈ socket_rooms c.2 →
                      ("user:" ++ u)%string ∈ socket_rooms c'.2)
    as Hall.
  { induction events as [|ev events IH]; intros c Hc; [done|]. cbn [foldl].
    destruct (IH (handle parseFloat fl c ev) (handle_keeps_authorised c ev Hc))
      as (Hauth & Huser & Hroom).
    destruct (handle_keeps_user ev c) as [Huser' Hroom'].
    split_and!; [done | congruence | by intros u Hu; apply Hroom, Hroom']. }
  destruct (Hall (s, on_connection uid) (authorised_connection s uid))
    as (Hauth & Huser & Hroom).
  cbn zeta. split_and!; [done| |].
  - rewrite Huser. unfold on_connection. by destruct (truthy_str (Some uid)).
  - intros Huid. apply Hroom. cbn [snd]. unfold on_connection. rewrite Huid.
    cbn. apply elem_of_union. left. by apply elem_of_singleton.
Qed.

End Rooms.

(** X19. emitPortfolioUpdate never throws and emits nothing: [global.io], from
    which it takes the socket server, is assigned nowhere, so that the first
    emission throws a TypeError, which the function catches; for a portfolio
    that is not stored it returns before.  The state is as it was. *)
Theorem portfolio_update_emits_nothing pid s :
  emitPortfolioUpdate pid s = (Return tt, s).
Proof.
  unfold emitPortfolioUpdate, io_emit, global_io. unfold_monad.
  by destruct (portfolios s !! pid).
Qed.
